(** * Question sessions of the VBS mock scoring server

    A shallow embedding of [app/core/session.py] and
    [app/services/fake_teams.py].

    Conventions of the embedding.
    - Python [float] timestamps and scores are exact rationals ([Q]);
      Python [int] is [Z].
    - A Python [dict] is an insertion-ordered association list with unique
      keys ([Dict]): iteration order is observable in the leaderboard (the
      sort is stable) and in the status list.
    - The two module globals [active_questions] and
      [current_active_question_id] form the record [World]; every operation
      takes the world and returns its result together with the new world.
    - [time.time()] is an input: an operation that reads the clock once takes
      the reading [now]; one that reads it a fixed number of times takes one
      argument per reading; one whose number of readings depends on the
      data takes [clock : nat -> Q], the reading made at each call site.
    - [random] is an input as well ([Samples]).
    - A raised exception is the [Raise] case of [result].
    - Calls of [logger] are left out; a task handed to
      [asyncio.create_task] is returned as data ([FakeTask]) and run by
      [task_resume]. *)

From Stdlib Require Import ZArith QArith Qround List String Bool Lia Lqa.
From Stdlib Require Import Permutation Sorted.
Import ListNotations.

Local Open Scope string_scope.
Local Open Scope list_scope.
Local Open Scope Z_scope.

(** ** Python values *)

Inductive PyError : Type :=
| KeyError
| TypeError.

Inductive result (A : Type) : Type :=
| Ok (a : A)
| Raise (e : PyError).

Arguments Ok {A} a.
Arguments Raise {A} e.

(** Truthiness of [Optional[int]], [Optional[str]] and [str]. *)
Definition truthy_int (o : option Z) : bool :=
  match o with
  | Some z => negb (z =? 0)
  | None => false
  end.

Definition truthy_str (s : string) : bool :=
  negb (String.eqb s EmptyString).

Definition truthy_opt_str (o : option string) : bool :=
  match o with
  | Some s => truthy_str s
  | None => false
  end.

Definition Qlt_bool (x y : Q) : bool := negb (Qle_bool y x).

(** [round(x, ndigits)]: to the nearest multiple of [10^-ndigits], ties to
    the even one. *)
Definition round_half_even (q : Q) : Z :=
  let f := Qfloor q in
  match Qcompare (q - inject_Z f) (1 # 2) with
  | Lt => f
  | Gt => f + 1
  | Eq => if Z.even f then f else f + 1
  end.

Definition py_round (q : Q) (ndigits : nat) : Q :=
  let scale := Z.pow 10 (Z.of_nat ndigits) in
  Qmake (round_half_even (q * inject_Z scale)) (Z.to_pos scale).

(** ** Insertion-ordered dictionaries *)

Set Implicit Arguments.

Module Dict.
Section Dict.
Variables K V : Type.
Variable eqb : K -> K -> bool.

Fixpoint get (d : list (K * V)) (k : K) : option V :=
  match d with
  | [] => None
  | (k', v) :: rest => if eqb k' k then Some v else get rest k
  end.

Definition mem (d : list (K * V)) (k : K) : bool :=
  match get d k with
  | Some _ => true
  | None => false
  end.

(** [d[k] = v]: an existing key keeps its position, a new key goes last. *)
Fixpoint set (d : list (K * V)) (k : K) (v : V) : list (K * V) :=
  match d with
  | [] => [(k, v)]
  | (k', v') :: rest =>
      if eqb k' k then (k', v) :: rest else (k', v') :: set rest k v
  end.

Definition keys (d : list (K * V)) : list K := map fst d.
Definition values (d : list (K * V)) : list V := map snd d.
End Dict.
End Dict.

Unset Implicit Arguments.

Abbreviation sget := (Dict.get String.eqb).
Abbreviation smem := (Dict.mem String.eqb).
Abbreviation sset := (Dict.set String.eqb).
Abbreviation zget := (Dict.get Z.eqb).
Abbreviation zset := (Dict.set Z.eqb).

(** ** Data model *)

(** Modelled from the spec: the class [TeamSubmission] of [app.models],
    which the session module imports.  The fields are those the spec lists
    and the session module reads and writes; a field the constructor calls
    of the session module leave out starts empty ([submit_times = []],
    [is_completed = False], [final_score], [first_correct_time] and
    [team_session_id] absent). *)
Record TeamSubmission : Type := mkTeamSubmission {
  team_id : string;
  team_name : string;
  team_session_id : option string;
  ts_question_id : Z;
  submit_times : list Q;
  wrong_count : Z;
  correct_count : Z;
  is_completed : bool;
  final_score : option Q;
  first_correct_time : option Q
}.

(** Modelled from the spec: the class [QuestionSession] of [app.models],
    with the fields the spec lists and [start_question] sets. *)
Record QuestionSession : Type := mkQuestionSession {
  question_id : Z;
  start_time : Q;
  time_limit : Z;
  buffer_time : Z;
  is_active : bool;
  team_submissions : list (string * TeamSubmission);
  fake_teams : list (string * TeamSubmission)
}.

(** The module globals. *)
Record World : Type := mkWorld {
  active_questions : list (Z * QuestionSession);
  current_active_question_id : option Z
}.

Definition empty_world : World := mkWorld [] None.

(** [TeamSubmission(team_id=..., team_name=..., team_session_id=...,
    question_id=...)] with every other field at its default. *)
Definition new_team_submission (tid name : string) (sid : option string)
    (qid : Z) : TeamSubmission :=
  mkTeamSubmission tid name sid qid [] 0 0 false None None.

(** Field updates of the two records. *)
Definition set_is_active (s : QuestionSession) (b : bool) : QuestionSession :=
  mkQuestionSession (question_id s) (start_time s) (time_limit s)
    (buffer_time s) b (team_submissions s) (fake_teams s).

Definition set_team_submissions (s : QuestionSession)
    (d : list (string * TeamSubmission)) : QuestionSession :=
  mkQuestionSession (question_id s) (start_time s) (time_limit s)
    (buffer_time s) (is_active s) d (fake_teams s).

Definition set_fake_teams (s : QuestionSession)
    (d : list (string * TeamSubmission)) : QuestionSession :=
  mkQuestionSession (question_id s) (start_time s) (time_limit s)
    (buffer_time s) (is_active s) (team_submissions s) d.

(** ** Read queries *)

Definition get_question_session (w : World) (qid : Z)
    : option QuestionSession :=
  zget (active_questions w) qid.

(** The window test shared by [is_question_active] and the synthetic tasks'
    [_is_accepting_submissions]. *)
Definition within_window (s : QuestionSession) (now : Q) : bool :=
  Qle_bool (now - start_time s) (inject_Z (time_limit s + buffer_time s)).

Definition is_question_active (w : World) (now : Q) (qid : Z) : bool :=
  match zget (active_questions w) qid with
  | None => false
  | Some session =>
      if negb (is_active session) then false
      else within_window session now
  end.

Definition get_elapsed_time (w : World) (now : Q) (qid : Z) : Q :=
  match zget (active_questions w) qid with
  | None => 0%Q
  | Some session => (now - start_time session)%Q
  end.

Definition get_remaining_time (w : World) (now : Q) (qid : Z) : Q :=
  match zget (active_questions w) qid with
  | None => 0%Q
  | Some session =>
      let elapsed := get_elapsed_time w now qid in
      let remaining := (inject_Z (time_limit session) - elapsed)%Q in
      if Qlt_bool 0 remaining then remaining else 0%Q
  end.

Definition get_team_submission (w : World) (qid : Z) (tid : string)
    : option TeamSubmission :=
  match zget (active_questions w) qid with
  | None => None
  | Some session => sget (team_submissions session) tid
  end.

(** ** The cached active question *)

(** Order of the [(start_time, qid)] tuples. *)
Definition candidate_lt (a b : Q * Z) : bool :=
  if Qeq_bool (fst a) (fst b) then snd a <? snd b
  else Qlt_bool (fst a) (fst b).

(** [max(l)] on a non-empty list: the first of the greatest elements. *)
Definition py_max (first : Q * Z) (rest : list (Q * Z)) : Q * Z :=
  fold_left (fun best x => if candidate_lt best x then x else best)
    rest first.

(** The comprehension of [_refresh_active_question_id]; the session at
    position [i] of the iteration is tested at reading [clock i]. *)
Fixpoint active_candidates (w : World) (clock : nat -> Q) (i : nat)
    (items : list (Z * QuestionSession)) : list (Q * Z) :=
  match items with
  | [] => []
  | (qid, session) :: rest =>
      if is_question_active w (clock i) qid
      then (start_time session, qid) :: active_candidates w clock (S i) rest
      else active_candidates w clock (S i) rest
  end.

Definition set_current (w : World) (c : option Z) : World :=
  mkWorld (active_questions w) c.

(** Reading [clock 0] is the test of the cached id; reading [clock (S i)]
    is the test of the [i]-th session of the scan. *)
Definition _refresh_active_question_id (w : World) (clock : nat -> Q)
    : option Z * World :=
  if truthy_int (current_active_question_id w)
     && match current_active_question_id w with
        | Some c => is_question_active w (clock O) c
        | None => false
        end
  then (current_active_question_id w, w)
  else
    match active_candidates w clock 1%nat (active_questions w) with
    | first :: rest =>
        let qid := snd (py_max first rest) in
        (Some qid, set_current w (Some qid))
    | [] => (None, set_current w None)
    end.

Definition get_current_active_question_id (w : World) (clock : nat -> Q)
    : option Z * World :=
  _refresh_active_question_id w clock.

(** ** Randomised behaviour ([app/services/fake_teams.py]) *)

Definition TEAM_NAMES : list string :=
  [ "0THING2LOSE"; "UIT@Dzeus"; "TKU.TonNGoYsss"; "UTE AI LAB"; "UIT-SHAMROCK";
    "TKU@MBZUAI"; "TKU@UNIVORN&WHEAT"; "Althena"; "Your answer";
    "float97"; "KPT"; "GALAXY-AI"; "Lucifer";
    "FLameReavers"; "OpenCubee_1"; "OpenCubee2"; "Nomial";
    "AIO - Neural Weavers"; "5bros"; "AeThanhHoa"; "AIO_Trinh";
    "Google DeepMind"; "OpenAI"; "Anthropic"; "Meta AI"; "Microsoft Research";
    "NVIDIA Research"; "xAI"; "Mistral AI"; "Cohere"; "Stability AI";
    "Hugging Face"; "Tesla AI"; "Amazon AGI"; "Apple MLR"; "Baidu AI" ].

(** The random values one iteration of the scheduling loop may consume. *)
Record Samples : Type := mkSamples {
  u_submit : Q;    (* random.random() of should_submit *)
  u_kind : Q;      (* random.random() of generate_submission_attempts *)
  n_2_3 : Z;       (* random.randint(2, 3) *)
  n_1_3 : Z;       (* random.randint(1, 3) *)
  u_band : Q;      (* random.random() of generate_weighted_score *)
  u_score : Q;     (* the fraction behind random.uniform of the score *)
  u_delay : Q      (* the fraction behind random.uniform of the delay *)
}.

(** [random.uniform(a, b)] is [a + (b - a) * random()]. *)
Definition uniform (a b u : Q) : Q := (a + (b - a) * u)%Q.

(** [max(a, b)] on floats. *)
Definition py_max2 (a b : Q) : Q := if Qlt_bool a b then b else a.

(** [sample] stands for [random.sample(available, count)]. *)
Definition generate_fake_team_names (count : Z) (sample : list string)
    : list string :=
  let available := TEAM_NAMES in
  if Z.of_nat (List.length available) <=? count then available else sample.

Definition generate_weighted_score (r : Samples) : Q :=
  let rand := u_band r in
  if Qlt_bool rand (10 # 100) then py_round (uniform 80 100 (u_score r)) 1
  else if Qlt_bool rand (40 # 100) then py_round (uniform 60 80 (u_score r)) 1
  else if Qlt_bool rand (75 # 100) then py_round (uniform 40 60 (u_score r)) 1
  else py_round (uniform 0 40 (u_score r)) 1.

Definition should_submit (r : Samples) : bool :=
  Qlt_bool (u_submit r) (85 # 100).

Definition generate_submission_attempts (r : Samples) : Z * Z :=
  if negb (should_submit r) then (0, 0)
  else
    let rand := u_kind r in
    if Qlt_bool rand (60 # 100) then (0, 1)
    else if Qlt_bool rand (85 # 100) then (1, 1)
    else if Qlt_bool rand (95 # 100) then (n_2_3 r, 1)
    else (n_1_3 r, 0).

Definition generate_submit_delay (limit : Q) (r : Samples) : Q :=
  if Qle_bool limit 0 then 1%Q
  else
    let min_delay := py_max2 (1 # 2) (limit * (2 # 100)) in
    let max_delay := py_max2 min_delay (limit * (6 # 10)) in
    uniform min_delay max_delay (u_delay r).

(** ** Synthetic teams *)

Definition initialize_fake_teams (qid : Z) : list (string * TeamSubmission) :=
  let team_names := generate_fake_team_names 36 [] in
  fold_left
    (fun fake name => sset fake name (new_team_submission name name None qid))
    team_names [].

Arguments initialize_fake_teams : simpl never.

(** The arguments of one [schedule_fake_team_submission] coroutine handed to
    [asyncio.create_task]. *)
Record FakeTask : Type := mkFakeTask {
  task_question_id : Z;
  task_team_name : string;
  task_delay : Q;
  task_wrong_count : Z;
  task_correct_count : Z;
  task_score : option Q
}.

Definition SPECIAL_TEAM : string := "0THING2LOSE".

(** One iteration of the loop of [start_fake_team_submissions]: [None] is
    the [continue], [Some task] the task created. *)
Definition schedule_team (qid : Z) (session : QuestionSession)
    (rnd : string -> Samples) (name : string) : option FakeTask :=
  let r := rnd name in
  let is_special := String.eqb name SPECIAL_TEAM in
  let '(wrong, correct) := generate_submission_attempts r in
  let go (correct : Z) : option FakeTask :=
    let score :=
      if 0 <? correct
      then Some (if negb is_special then generate_weighted_score r
                 else py_round (uniform 90 99 (u_score r)) 1)
      else None in
    let delay :=
      if is_special then 5%Q
      else generate_submit_delay (inject_Z (time_limit session)) r in
    Some (mkFakeTask qid name delay wrong correct score) in
  if (wrong =? 0) && (correct =? 0)
  then if is_special then go 1 else None
  else go correct.

Fixpoint schedule_teams (qid : Z) (session : QuestionSession)
    (rnd : string -> Samples) (names : list string) : list FakeTask :=
  match names with
  | [] => []
  | name :: rest =>
      match schedule_team qid session rnd name with
      | Some task => task :: schedule_teams qid session rnd rest
      | None => schedule_teams qid session rnd rest
      end
  end.

(** The result is the list of tasks created, in creation order. *)
Definition start_fake_team_submissions (w : World) (rnd : string -> Samples)
    (qid : Z) : result (list FakeTask) :=
  match zget (active_questions w) qid with
  | None => Raise KeyError
  | Some session =>
      Ok (schedule_teams qid session rnd (Dict.keys (fake_teams session)))
  end.

(** ** Session store *)

(** An item of [state.TEAM_REGISTRY], which [start_question] reads and
    which is an input here: the key is the team's session id, the value
    holds ["team_id"] and ["team_name"]. *)
Record RegInfo : Type := mkRegInfo {
  reg_team_id : string;
  reg_team_name : string
}.

(** The loop of [start_question] over [state.TEAM_REGISTRY.items()]. *)
Definition snapshot_registry (qid : Z)
    (registry : list (string * RegInfo))
    (subs : list (string * TeamSubmission)) : list (string * TeamSubmission) :=
  fold_left
    (fun subs item =>
       let '(session_id, info) := item in
       if negb (smem subs (reg_team_id info))
       then sset subs (reg_team_id info)
              (new_team_submission (reg_team_id info) (reg_team_name info)
                 (Some session_id) qid)
       else subs)
    registry subs.

(** The result holds the session returned and the tasks created. *)
Definition start_question (w : World) (now : Q)
    (registry : list (string * RegInfo)) (rnd : string -> Samples)
    (qid limit buffer : Z)
    : result (QuestionSession * list FakeTask) * World :=
  let session0 :=
    mkQuestionSession qid now limit buffer true [] (initialize_fake_teams qid)
  in
  let session :=
    set_team_submissions session0
      (snapshot_registry qid registry (team_submissions session0)) in
  let w' := mkWorld (zset (active_questions w) qid session) (Some qid) in
  match start_fake_team_submissions w' rnd qid with
  | Ok tasks => (Ok (session, tasks), w')
  | Raise e => (Raise e, w')
  end.

Definition stop_question (w : World) (clock : nat -> Q) (qid : Z) : World :=
  match zget (active_questions w) qid with
  | None => w
  | Some session =>
      let w' :=
        mkWorld (zset (active_questions w) qid (set_is_active session false))
          (current_active_question_id w) in
      match current_active_question_id w' with
      | Some c =>
          if c =? qid then snd (_refresh_active_question_id w' clock) else w'
      | None => w'
      end
  end.

Definition reset_all_questions (w : World) : Z * World :=
  (Z.of_nat (List.length (active_questions w)), mkWorld [] None).

Definition add_team_to_active_sessions (w : World)
    (tid name team_session : string) : World :=
  mkWorld
    (map
       (fun item : Z * QuestionSession =>
          let '(qid, session) := item in
          if smem (team_submissions session) tid then (qid, session)
          else
            (qid,
             set_team_submissions session
               (sset (team_submissions session) tid
                  (new_team_submission tid name (Some team_session) qid))))
       (active_questions w))
    (current_active_question_id w).

(** ** Submission ledger *)

(** The tail of [record_submission], from the append to [submit_times] on.
    [t_submit] is the reading appended to [submit_times], [t_first] the later
    reading stored as [first_correct_time]. *)
Definition apply_submission (ts : TeamSubmission) (t_submit t_first : Q)
    (is_correct : bool) (score : option Q) : TeamSubmission :=
  let times := submit_times ts ++ [t_submit] in
  if negb is_correct then
    mkTeamSubmission (team_id ts) (team_name ts) (team_session_id ts)
      (ts_question_id ts) times (wrong_count ts + 1) (correct_count ts)
      (is_completed ts) (final_score ts) (first_correct_time ts)
  else if negb (is_completed ts) then
    mkTeamSubmission (team_id ts) (team_name ts) (team_session_id ts)
      (ts_question_id ts) times (wrong_count ts) (correct_count ts + 1)
      true score (Some t_first)
  else
    mkTeamSubmission (team_id ts) (team_name ts) (team_session_id ts)
      (ts_question_id ts) times (wrong_count ts) (correct_count ts + 1)
      (is_completed ts) (final_score ts) (first_correct_time ts).

(** [team_name or team_id]. *)
Definition name_or_id (name : option string) (tid : string) : string :=
  match name with
  | Some n => if truthy_str n then n else tid
  | None => tid
  end.

(** The two backfilling assignments on a real team's record. *)
Definition backfill (ts : TeamSubmission) (name sid : option string)
    : TeamSubmission :=
  let name' :=
    match name with
    | Some n =>
        if truthy_str n && negb (truthy_str (team_name ts)) then n
        else team_name ts
    | None => team_name ts
    end in
  let sid' :=
    if truthy_opt_str sid && negb (truthy_opt_str (team_session_id ts))
    then sid else team_session_id ts in
  mkTeamSubmission (team_id ts) name' sid' (ts_question_id ts)
    (submit_times ts) (wrong_count ts) (correct_count ts) (is_completed ts)
    (final_score ts) (first_correct_time ts).

Definition put_session (w : World) (qid : Z) (s : QuestionSession) : World :=
  mkWorld (zset (active_questions w) qid s) (current_active_question_id w).

(** [team_id in session.fake_teams] followed by [session.fake_teams[team_id]]
    is the one lookup [sget (fake_teams session) tid]; likewise for the real
    ledger, where a missing record is first created.  A record always has
    its [submit_times], so the [hasattr] patch of a synthetic record does
    nothing. *)
Definition record_submission (w : World) (t_submit t_first : Q) (qid : Z)
    (tid : string) (is_correct : bool) (score : option Q)
    (name sid : option string) : result TeamSubmission * World :=
  match zget (active_questions w) qid with
  | None => (Raise KeyError, w)
  | Some session =>
      match sget (fake_teams session) tid with
      | Some team_sub =>
          let team_sub' :=
            apply_submission team_sub t_submit t_first is_correct score in
          (Ok team_sub',
           put_session w qid
             (set_fake_teams session (sset (fake_teams session) tid team_sub')))
      | None =>
          let existing :=
            match sget (team_submissions session) tid with
            | Some team_sub => team_sub
            | None => new_team_submission tid (name_or_id name tid) sid qid
            end in
          let team_sub' :=
            apply_submission (backfill existing name sid)
              t_submit t_first is_correct score in
          (Ok team_sub',
           put_session w qid
             (set_team_submissions session
                (sset (team_submissions session) tid team_sub')))
      end
  end.

(** ** Synthetic team tasks ([schedule_fake_team_submission]) *)

(** Where a task is suspended: in the initial [asyncio.sleep(delay)], in the
    pause after its [k]-th wrong attempt, or not at all any more. *)
Inductive TaskState : Type :=
| Sleeping
| Paused (k : nat)
| Finished.

Definition _is_accepting_submissions (session : QuestionSession) (now : Q)
    : bool :=
  if negb (is_active session) then false else within_window session now.

(** The code from the head of loop iteration [k] to the next suspension.
    [captured] is the session object the closure holds; readings are taken
    from [clock i] on. *)
Definition task_continue (task : FakeTask) (captured : QuestionSession)
    (w : World) (clock : nat -> Q) (i k : nat) : TaskState * World :=
  let qid := task_question_id task in
  let name := task_team_name task in
  if (k <? Z.to_nat (task_wrong_count task))%nat then
    if negb (_is_accepting_submissions captured (clock i)) then (Finished, w)
    else
      match record_submission w (clock (S i)) (clock (S i)) qid name false
              None (Some name) None with
      | (Ok _, w') => (Paused (S k), w')
      | (Raise _, w') => (Finished, w')
      end
  else if (0 <? task_correct_count task)
          && _is_accepting_submissions captured (clock i) then
    (Finished,
     snd (record_submission w (clock (S i)) (clock (S (S i))) qid name true
            (task_score task) (Some name) None))
  else (Finished, w).

(** One resumption of the task, up to its next suspension.  The session
    object is captured when the initial sleep ends; at a later resumption
    [captured] is that object as it is by then (it is the session stored
    under the task's question id unless the question was restarted or the
    store was reset in between). *)
Definition task_resume (task : FakeTask) (st : TaskState)
    (captured : QuestionSession) (w : World) (clock : nat -> Q)
    : TaskState * World :=
  match st with
  | Sleeping =>
      match zget (active_questions w) (task_question_id task) with
      | None => (Finished, w)
      | Some session =>
          if negb (_is_accepting_submissions session (clock O))
          then (Finished, w)
          else task_continue task session w clock 1%nat O
      end
  | Paused k => task_continue task captured w clock O k
  | Finished => (Finished, w)
  end.

(** ** Leaderboard compiler *)

Record Entry : Type := mkEntry {
  entry_team_id : string;
  entry_score : Q;
  entry_time_taken : Q;
  entry_submit_count : Z;
  entry_wrong_count : Z
}.

Record Ranked : Type := mkRanked {
  entry : Entry;
  rank : Z
}.

(** The loop over [session.team_submissions.items()];
    [None - float] raises [TypeError]. *)
Fixpoint collect_results (session : QuestionSession)
    (items : list (string * TeamSubmission)) : result (list Entry) :=
  match items with
  | [] => Ok []
  | (tid, team_sub) :: rest =>
      match (if is_completed team_sub then final_score team_sub else None) with
      | Some score =>
          match first_correct_time team_sub with
          | None => Raise TypeError
          | Some t =>
              match collect_results session rest with
              | Ok results =>
                  Ok (mkEntry tid score
                        (py_round (t - start_time session) 2)
                        (Z.of_nat (List.length (submit_times team_sub)))
                        (wrong_count team_sub) :: results)
              | Raise e => Raise e
              end
          end
      | None => collect_results session rest
      end
  end.

(** The sort key [(-score, time_taken)] and the order of such tuples. *)
Definition sort_key (e : Entry) : Q * Q := ((- entry_score e)%Q, entry_time_taken e).

Definition key_lt (a b : Q * Q) : bool :=
  if Qeq_bool (fst a) (fst b) then Qlt_bool (snd a) (snd b)
  else Qlt_bool (fst a) (fst b).

(** [list.sort(key=...)] is a stable sort: an element goes before the first
    later element whose key is not smaller than its own. *)
Fixpoint insert_entry (x : Entry) (l : list Entry) : list Entry :=
  match l with
  | [] => [x]
  | y :: rest =>
      if key_lt (sort_key y) (sort_key x) then y :: insert_entry x rest
      else x :: y :: rest
  end.

Definition sort_entries (l : list Entry) : list Entry :=
  fold_right insert_entry [] l.

(** [result["rank"] = idx + 1] over [enumerate(results)]. *)
Fixpoint add_ranks (idx : Z) (l : list Entry) : list Ranked :=
  match l with
  | [] => []
  | e :: rest => mkRanked e (idx + 1) :: add_ranks (idx + 1) rest
  end.

Definition get_question_leaderboard (w : World) (qid : Z)
    : result (list Ranked) :=
  match zget (active_questions w) qid with
  | None => Ok []
  | Some session =>
      match collect_results session (team_submissions session) with
      | Ok results => Ok (add_ranks 0 (sort_entries results))
      | Raise e => Raise e
      end
  end.

(** ** Monitoring view *)

Record Status : Type := mkStatus {
  status_question_id : Z;
  status_is_active : bool;
  status_elapsed_time : Q;
  status_remaining_time : Q;
  status_time_limit : Z;
  status_buffer_time : Z;
  total_teams : Z;
  total_submissions : Z;
  completed_teams : Z
}.

Definition sum_Z (l : list Z) : Z := fold_left Z.add l 0.

Definition count_submissions (subs : list (string * TeamSubmission)) : Z :=
  sum_Z (map (fun ts => Z.of_nat (List.length (submit_times ts)))
           (Dict.values subs)).

Definition count_completed (subs : list (string * TeamSubmission)) : Z :=
  sum_Z (map (fun _ => 1) (filter is_completed (Dict.values subs))).

(** The row of the session at position [i] reads the clock three times. *)
Fixpoint status_rows (w : World) (clock : nat -> Q) (i : nat)
    (items : list (Z * QuestionSession)) : list Status :=
  match items with
  | [] => []
  | (qid, session) :: rest =>
      mkStatus qid
        (is_question_active w (clock (3 * i)%nat) qid)
        (py_round (get_elapsed_time w (clock (3 * i + 1)%nat) qid) 2)
        (py_round (get_remaining_time w (clock (3 * i + 2)%nat) qid) 2)
        (time_limit session)
        (buffer_time session)
        (Z.of_nat (List.length (team_submissions session)))
        (count_submissions (team_submissions session))
        (count_completed (team_submissions session))
      :: status_rows w clock (S i) rest
  end.

Definition get_all_sessions_status (w : World) (clock : nat -> Q)
    : list Status :=
  status_rows w clock O (active_questions w).

(** ** Runs of the system *)

(** The operations that change the store.  [OpTask] is one resumption of a
    synthetic team's task. *)
Inductive Op : Type :=
| OpStart (now : Q) (registry : list (string * RegInfo))
    (rnd : string -> Samples) (qid limit buffer : Z)
| OpStop (clock : nat -> Q) (qid : Z)
| OpRecord (t_submit t_first : Q) (qid : Z) (tid : string)
    (is_correct : bool) (score : option Q) (name sid : option string)
| OpCurrent (clock : nat -> Q)
| OpReset
| OpAddTeam (tid name team_session : string)
| OpTask (task : FakeTask) (st : TaskState) (captured : QuestionSession)
    (clock : nat -> Q).

Definition exec (w : World) (op : Op) : World :=
  match op with
  | OpStart now registry rnd qid limit buffer =>
      snd (start_question w now registry rnd qid limit buffer)
  | OpStop clock qid => stop_question w clock qid
  | OpRecord t_submit t_first qid tid is_correct score name sid =>
      snd (record_submission w t_submit t_first qid tid is_correct score
             name sid)
  | OpCurrent clock => snd (get_current_active_question_id w clock)
  | OpReset => snd (reset_all_questions w)
  | OpAddTeam tid name team_session =>
      add_team_to_active_sessions w tid name team_session
  | OpTask task st captured clock =>
      snd (task_resume task st captured w clock)
  end.

Definition run (w : World) (ops : list Op) : World := fold_left exec ops w.

Definition reachable (w : World) : Prop :=
  exists ops, w = run empty_world ops.

(** The record [record_submission] addresses for a team: the synthetic one
    when the name is a synthetic team's, else the real one. *)
Definition ledger_entry (w : World) (qid : Z) (tid : string)
    : option TeamSubmission :=
  match zget (active_questions w) qid with
  | None => None
  | Some session =>
      match sget (fake_teams session) tid with
      | Some team_sub => Some team_sub
      | None => sget (team_submissions session) tid
      end
  end.

(** [op] replaces or drops the session of [qid]. *)
Definition restarts (qid : Z) (op : Op) : bool :=
  match op with
  | OpStart _ _ _ q _ _ => q =? qid
  | OpReset => true
  | _ => false
  end.

(** [op] may record a correct submission of team [tid] in question [qid]. *)
Definition correct_for (qid : Z) (tid : string) (op : Op) : bool :=
  match op with
  | OpRecord _ _ q t is_correct _ _ _ =>
      (q =? qid) && String.eqb t tid && is_correct
  | OpTask task _ _ _ =>
      (task_question_id task =? qid) && String.eqb (task_team_name task) tid
  | _ => false
  end.

(** ** Vocabulary of the statements *)

(** [op] is a [start_question] of [qid]. *)
Definition starts (qid : Z) (op : Op) : bool :=
  match op with
  | OpStart _ _ _ q _ _ => q =? qid
  | _ => false
  end.

(** [op] is a [start_question]. *)
Definition is_start (op : Op) : bool :=
  match op with
  | OpStart _ _ _ _ _ _ => true
  | _ => false
  end.

(** [op] calls [record_submission] for team [tid] of question [qid]: it is
    such a call itself or a resumption of a task of that team and
    question. *)
Definition submits_for (qid : Z) (tid : string) (op : Op) : bool :=
  match op with
  | OpRecord _ _ q t _ _ _ _ => (q =? qid) && String.eqb t tid
  | OpTask task _ _ _ =>
      (task_question_id task =? qid) && String.eqb (task_team_name task) tid
  | _ => false
  end.

(** [op] keeps the session of [qid], and the scheduler is the only one who
    may write the record of team [tid] there, through the tasks [tasks]: no
    caller submits for [tid], and a task resumed for question [qid] is one
    of [tasks]. *)
Definition scheduler_only (tasks : list FakeTask) (qid : Z) (tid : string)
    (op : Op) : Prop :=
  restarts qid op = false /\
  match op with
  | OpRecord _ _ q t _ _ _ _ => (q =? qid) && String.eqb t tid = false
  | OpTask task _ _ _ => task_question_id task = qid -> In task tasks
  | _ => True
  end.

(** No question id has a session. *)
Definition no_sessions (w : World) : Prop :=
  forall qid, get_question_session w qid = None.

(** The record a call of [record_submission] works on, as it is just before
    the append to [submit_times]. *)
Definition addressed (session : QuestionSession) (qid : Z) (tid : string)
    (name sid : option string) : TeamSubmission :=
  match sget (fake_teams session) tid with
  | Some team_sub => team_sub
  | None =>
      backfill
        match sget (team_submissions session) tid with
        | Some team_sub => team_sub
        | None => new_team_submission tid (name_or_id name tid) sid qid
        end name sid
  end.

(** What [add_team_to_active_sessions] does to the session of [qid]. *)
Definition add_team_session (tid name team_session : string) (qid : Z)
    (session : QuestionSession) : QuestionSession :=
  if smem (team_submissions session) tid then session
  else
    set_team_submissions session
      (sset (team_submissions session) tid
         (new_team_submission tid name (Some team_session) qid)).

(** [s'] has the timing data of [s], and is active only if [s] is. *)
Definition same_timing (s s' : QuestionSession) : Prop :=
  start_time s' = start_time s /\
  time_limit s' = time_limit s /\
  buffer_time s' = buffer_time s /\
  (is_active s' = true -> is_active s = true).

(** A record that is absent or not completed. *)
Definition open_entry (o : option TeamSubmission) : Prop :=
  match o with
  | Some ts => is_completed ts = false
  | None => True
  end.

Definition all_open (d : list (string * TeamSubmission)) : Prop :=
  forall k v, In (k, v) d -> is_completed v = false.

(** Keys are unique and a completed record has its completion time. *)
Definition ledger_ok (d : list (string * TeamSubmission)) : Prop :=
  NoDup (Dict.keys d) /\
  forall k v, In (k, v) d ->
              is_completed v = true -> first_correct_time v <> None.

Definition world_ok (w : World) : Prop :=
  forall qid s,
    zget (active_questions w) qid = Some s -> ledger_ok (team_submissions s).

(** [a] may stand before [b] on the board: a higher score, or an equal
    score and a time that is not longer. *)
Definition ranks_before (a b : Entry) : Prop :=
  (entry_score b < entry_score a \/
   (entry_score a == entry_score b /\
    entry_time_taken a <= entry_time_taken b))%Q.

(** The entry [e] describes a completed record with a score among
    [items]. *)
Definition listed (session : QuestionSession)
    (items : list (string * TeamSubmission)) (e : Entry) : Prop :=
  exists team_sub t,
    In (entry_team_id e, team_sub) items /\
    is_completed team_sub = true /\
    final_score team_sub = Some (entry_score e) /\
    first_correct_time team_sub = Some t /\
    entry_time_taken e = py_round (t - start_time session) 2 /\
    entry_submit_count e = Z.of_nat (List.length (submit_times team_sub)) /\
    entry_wrong_count e = wrong_count team_sub.

(** The entry [e] describes a completed record with a score of the
    real-team ledger of question [qid]. *)
Definition on_board (w : World) (qid : Z) (session : QuestionSession)
    (e : Entry) : Prop :=
  exists team_sub t,
    get_team_submission w qid (entry_team_id e) = Some team_sub /\
    is_completed team_sub = true /\
    final_score team_sub = Some (entry_score e) /\
    first_correct_time team_sub = Some t /\
    entry_time_taken e = py_round (t - start_time session) 2 /\
    entry_submit_count e = Z.of_nat (List.length (submit_times team_sub)) /\
    entry_wrong_count e = wrong_count team_sub.

(** The three counts of a session, taken from its real-team ledger. *)
Definition real_team_counts (item : Z * QuestionSession) : Z * Z * Z * Z :=
  let '(qid, session) := item in
  (qid,
   Z.of_nat (List.length (team_submissions session)),
   Z.of_nat
     (list_sum
        (map (fun kv => List.length (submit_times (snd kv)))
           (team_submissions session))),
   Z.of_nat
     (List.length
        (filter (fun kv => is_completed (snd kv)) (team_submissions session)))).

(** Question id and the three counts of each status row. *)
Definition status_counts (rows : list Status) : list (Z * Z * Z * Z) :=
  map (fun r =>
         (status_question_id r, total_teams r, total_submissions r,
          completed_teams r))
    rows.

(** [b] is not greater than [a] in the order of the [(start_time, qid)]
    tuples. *)
Definition candidate_ge (a b : Q * Z) : Prop :=
  (fst b < fst a)%Q \/ ((fst b == fst a)%Q /\ snd b <= snd a).

(** ** Concrete runs *)

(** Random values with which every synthetic team draws (0 wrong,
    1 correct), and random values with which every one draws "no
    submission". *)
Definition demo_rnd (_ : string) : Samples := mkSamples 0 0 2 1 0 0 0.

Definition quiet_rnd (_ : string) : Samples := mkSamples 1 0 2 1 0 0 0.

Definition demo_registry : list (string * RegInfo) :=
  [ ("session-a", mkRegInfo "A" "Alpha");
    ("session-b", mkRegInfo "B" "Bravo");
    ("session-c", mkRegInfo "C" "Charlie") ].

(** Question 1 started at time 0 with three registered teams. *)
Definition demo_started : World :=
  snd (start_question empty_world 0 demo_registry demo_rnd 1 300 10).

Definition demo_started_session : QuestionSession :=
  mkQuestionSession 1 0 300 10 true (snapshot_registry 1 demo_registry [])
    (initialize_fake_teams 1).

(** The spec's leaderboard example: A scores 90 after 5 s, B scores 90
    after 3 s, C scores 70 after 2 s. *)
Definition demo_ops : list Op :=
  [ OpStart 0 demo_registry demo_rnd 1 300 10;
    OpRecord 2 2 1 "C" true (Some 70%Q) None None;
    OpRecord 3 3 1 "B" true (Some 90%Q) None None;
    OpRecord 5 5 1 "A" true (Some 90%Q) None None ].

Definition demo_world : World := run empty_world demo_ops.

Definition demo_session : QuestionSession :=
  mkQuestionSession 1 0 300 10 true
    (match get_question_session demo_world 1 with
     | Some s => team_submissions s
     | None => []
     end)
    (initialize_fake_teams 1).

(** The synthetic team "OpenAI" completes with score 95, and the real team
    "A" completes a third of a second after the start. *)
Definition demo_fake_ops : list Op :=
  [ OpStart 0 [] demo_rnd 1 300 10;
    OpRecord 5 5 1 "OpenAI" true (Some 95%Q) (Some "OpenAI") None;
    OpRecord (1 # 3) (1 # 3) 1 "A" true (Some 80%Q) None None ].

Definition demo_fake_world : World := run empty_world demo_fake_ops.

(** Question 1 and then question 0 are started at the same clock reading
    10. *)
Definition demo_tie_world : World :=
  run empty_world
    [ OpStart 10 [] demo_rnd 1 300 10; OpStart 10 [] demo_rnd 0 300 10 ].

(** Operations without a correct submission of team "A", and operations
    that start no question. *)
Definition demo_before : list Op :=
  [ OpRecord 1 1 1 "A" false None None None;
    OpAddTeam "D" "Delta" "session-d";
    OpRecord 2 2 1 "B" true (Some 60%Q) None None ].

Definition demo_between : list Op :=
  [ OpRecord 4 4 1 "A" false None None None;
    OpCurrent (fun _ => 5%Q);
    OpStop (fun _ => 6%Q) 1 ].

(** Random values with which every synthetic team but the sentinel draws
    (1 wrong, 1 correct), a score of 80 and, for a limit of 300, a delay of
    6 seconds. *)
Definition busy_rnd (_ : string) : Samples := mkSamples 0 (7 # 10) 2 1 0 0 0.

(** Question 1 is started at time 0 with [busy_rnd], and started again at
    time 2 with random values that make every team draw (0, 0). *)
Definition demo_first_start
    : result (QuestionSession * list FakeTask) * World :=
  start_question empty_world 0 [] busy_rnd 1 300 10.

Definition demo_restart : result (QuestionSession * list FakeTask) * World :=
  start_question (snd demo_first_start) 2 [] quiet_rnd 1 300 10.

(** The task the first start created for "OpenAI". *)
Definition demo_leftover_task : FakeTask :=
  mkFakeTask 1 "OpenAI" (generate_submit_delay 300 (busy_rnd "OpenAI")) 1 1
    (Some (generate_weighted_score (busy_rnd "OpenAI"))).

(** That task wakes from its initial sleep at time 6, after the restart,
    and from the pause after its wrong attempt at time 9; the session it
    holds by then is the one it found at time 6, as stored.  (A sleeping
    task holds no session yet, so the session passed at time 6 is not
    read.) *)
Definition demo_leftover_woken : TaskState * World :=
  task_resume demo_leftover_task Sleeping demo_started_session
    (snd demo_restart) (fun _ => 6%Q).

Definition demo_leftover_done : TaskState * World :=
  match get_question_session (snd demo_leftover_woken) 1 with
  | Some captured =>
      task_resume demo_leftover_task (fst demo_leftover_woken) captured
        (snd demo_leftover_woken) (fun _ => 9%Q)
  | None => demo_leftover_woken
  end.

(** ** Vocabulary of the further properties *)

(** A clock that gives the same reading at every call site: the operation
    runs within one clock tick. *)
Definition instant (now : Q) : nat -> Q := fun _ => now.

(** The first item of the registry that registers team [tid]. *)
Fixpoint first_registration (registry : list (string * RegInfo))
    (tid : string) : option (string * RegInfo) :=
  match registry with
  | [] => None
  | (sid, info) :: rest =>
      if String.eqb (reg_team_id info) tid then Some (sid, info)
      else first_registration rest tid
  end.

(** A record without any submission. *)
Definition blank (ts : TeamSubmission) : Prop :=
  submit_times ts = [] /\
  wrong_count ts = 0 /\
  correct_count ts = 0 /\
  is_completed ts = false /\
  final_score ts = None /\
  first_correct_time ts = None.


(** The entries of the completed records with a score and a completion
    time, in the order of the ledger. *)
Fixpoint board_entries (session : QuestionSession)
    (items : list (string * TeamSubmission)) : list Entry :=
  match items with
  | [] => []
  | (tid, team_sub) :: rest =>
      match is_completed team_sub, final_score team_sub,
            first_correct_time team_sub with
      | true, Some score, Some t =>
          mkEntry tid score (py_round (t - start_time session) 2)
            (Z.of_nat (List.length (submit_times team_sub)))
            (wrong_count team_sub)
          :: board_entries session rest
      | _, _, _ => board_entries session rest
      end
  end.

(** The state of a task after a series of resumptions; between two of
    them anything may have happened to the store, so each resumption comes
    with the store it finds. *)
Fixpoint task_states (task : FakeTask) (st : TaskState)
    (inputs : list (QuestionSession * World * (nat -> Q))) : TaskState :=
  match inputs with
  | [] => st
  | (captured, w, clock) :: rest =>
      task_states task (fst (task_resume task st captured w clock)) rest
  end.

(** The random values of [r] are in the ranges of their generators. *)
Definition samples_in_range (r : Samples) : Prop :=
  2 <= n_2_3 r <= 3 /\
  1 <= n_1_3 r <= 3 /\
  (0 <= u_score r <= 1)%Q /\
  (0 <= u_delay r <= 1)%Q.



(** [P q k v] holds of every record [v] stored under team id [k] in a
    ledger, real or synthetic, of the session of question [q]. *)
Definition records_all (P : Z -> string -> TeamSubmission -> Prop)
    (w : World) : Prop :=
  forall q s,
    zget (active_questions w) q = Some s ->
    forall k v,
      In (k, v) (team_submissions s) \/ In (k, v) (fake_teams s) ->
      P q k v.

(** A record carries the keys it is stored under. *)
Definition record_identity (q : Z) (k : string) (v : TeamSubmission)
    : Prop :=
  team_id v = k /\ ts_question_id v = q.

(** The counters of a record agree with its audit trail and its flags. *)
Definition record_audit (q : Z) (k : string) (v : TeamSubmission) : Prop :=
  Z.of_nat (List.length (submit_times v)) = wrong_count v + correct_count v /\
  0 <= wrong_count v /\
  0 <= correct_count v /\
  (is_completed v = true <-> 0 < correct_count v) /\
  (is_completed v = true -> first_correct_time v <> None) /\
  (is_completed v = false ->
   final_score v = None /\ first_correct_time v = None).

(** Question ids are unique, a session is stored under its own id, and its
    synthetic ledger has exactly the synthetic team names as keys. *)
Definition sessions_ok (w : World) : Prop :=
  NoDup (Dict.keys (active_questions w)) /\
  forall q s,
    zget (active_questions w) q = Some s ->
    question_id s = q /\ Dict.keys (fake_teams s) = TEAM_NAMES.

(** Team id [t] names a synthetic team of question [q]. *)
Definition is_synthetic (w : World) (q : Z) (t : string) : bool :=
  match zget (active_questions w) q with
  | Some session => smem (fake_teams session) t
  | None => false
  end.

(** The record a submission of team [tid] starts from, given the record
    found for the team and whether the team is synthetic. *)
Definition starting_record (found : option TeamSubmission) (synthetic : bool)
    (qid : Z) (tid : string) (name sid : option string) : TeamSubmission :=
  match found with
  | Some team_sub =>
      if synthetic then team_sub else backfill team_sub name sid
  | None =>
      backfill (new_team_submission tid (name_or_id name tid) sid qid)
        name sid
  end.

(** * Properties *)

(** ** Dictionaries *)

Set Implicit Arguments.

Section DictFacts.
Variables K V : Type.
Variable eqb : K -> K -> bool.
Hypothesis eqb_eq : forall a b, eqb a b = true <-> a = b.

Lemma eqb_refl_true (k : K) : eqb k k = true.
Proof. now apply eqb_eq. Qed.

Lemma eqb_neq_false (a b : K) : a <> b -> eqb a b = false.
Proof.
  intro H. destruct (eqb a b) eqn:E; [|reflexivity].
  apply eqb_eq in E. contradiction.
Qed.

Lemma get_set_same (d : list (K * V)) k v :
  Dict.get eqb (Dict.set eqb d k v) k = Some v.
Proof.
  induction d as [|[k' v'] d IH]; simpl.
  - now rewrite eqb_refl_true.
  - destruct (eqb k' k) eqn:E; simpl; rewrite E; auto.
Qed.

Lemma get_set_other (d : list (K * V)) k k' v :
  k <> k' -> Dict.get eqb (Dict.set eqb d k v) k' = Dict.get eqb d k'.
Proof.
  intro Hne. induction d as [|[k0 v0] d IH]; simpl.
  - now rewrite eqb_neq_false.
  - destruct (eqb k0 k) eqn:E; simpl.
    + apply eqb_eq in E; subst k0. now rewrite eqb_neq_false.
    + now rewrite IH.
Qed.

Lemma get_In (d : list (K * V)) k v :
  Dict.get eqb d k = Some v -> In (k, v) d.
Proof.
  induction d as [|[k0 v0] d IH]; simpl; [discriminate|].
  destruct (eqb k0 k) eqn:E.
  - apply eqb_eq in E; subst. intros [= ->]. now left.
  - auto.
Qed.

Lemma get_None_keys (d : list (K * V)) k :
  Dict.get eqb d k = None <-> ~ In k (Dict.keys d).
Proof.
  induction d as [|[k0 v0] d IH]; simpl.
  - tauto.
  - destruct (eqb k0 k) eqn:E.
    + apply eqb_eq in E. split; [discriminate | intro H; exfalso; auto].
    + rewrite IH. split.
      * intros H [H1 | H1]; [|auto]. subst. now rewrite eqb_refl_true in E.
      * tauto.
Qed.

Lemma In_get (d : list (K * V)) k v :
  NoDup (Dict.keys d) -> In (k, v) d -> Dict.get eqb d k = Some v.
Proof.
  induction d as [|[k0 v0] d IH]; simpl; [tauto|].
  intros Hnd [H | H].
  - injection H as -> ->. now rewrite eqb_refl_true.
  - inversion Hnd as [|? ? Hnot Hnd']; subst.
    destruct (eqb k0 k) eqn:E.
    + apply eqb_eq in E; subst. exfalso. apply Hnot.
      change k with (fst (k, v)). now apply in_map.
    + auto.
Qed.

Lemma In_set (d : list (K * V)) k v x :
  In x (Dict.set eqb d k v) -> x = (k, v) \/ In x d.
Proof.
  induction d as [|[k0 v0] d IH]; simpl.
  - intros [H | []]. now left.
  - destruct (eqb k0 k) eqn:E; simpl.
    + apply eqb_eq in E; subst. intros [H | H]; auto.
    + intros [H | H]; [tauto|]. destruct (IH H); tauto.
Qed.

Lemma keys_set_In (d : list (K * V)) k v x :
  In x (Dict.keys (Dict.set eqb d k v)) <-> x = k \/ In x (Dict.keys d).
Proof.
  induction d as [|[k0 v0] d IH]; simpl.
  - split; intros [H | H]; auto.
  - destruct (eqb k0 k) eqn:E; simpl.
    + apply eqb_eq in E; subst. intuition auto.
    + rewrite IH. intuition auto.
Qed.

Lemma NoDup_keys_set (d : list (K * V)) k v :
  NoDup (Dict.keys d) -> NoDup (Dict.keys (Dict.set eqb d k v)).
Proof.
  induction d as [|[k0 v0] d IH]; simpl; intro Hnd.
  - constructor; [tauto | constructor].
  - inversion Hnd as [|? ? Hnot Hnd']; subst.
    destruct (eqb k0 k) eqn:E; simpl.
    + now constructor.
    + constructor; [|auto].
      rewrite keys_set_In. intros [H | H]; [|auto].
      subst. now rewrite eqb_refl_true in E.
Qed.
End DictFacts.

Unset Implicit Arguments.

Lemma zget_set_same (d : list (Z * QuestionSession)) k v :
  zget (zset d k v) k = Some v.
Proof. exact (@get_set_same _ _ _ Z.eqb_eq d k v). Qed.

Lemma zget_set_other (d : list (Z * QuestionSession)) k k' v :
  k <> k' -> zget (zset d k v) k' = zget d k'.
Proof. exact (@get_set_other _ _ _ Z.eqb_eq d k k' v). Qed.

Lemma zget_None_keys (d : list (Z * QuestionSession)) k :
  zget d k = None <-> ~ In k (Dict.keys d).
Proof. exact (@get_None_keys _ _ _ Z.eqb_eq d k). Qed.

Lemma sget_set_same (d : list (string * TeamSubmission)) k v :
  sget (sset d k v) k = Some v.
Proof. exact (@get_set_same _ _ _ String.eqb_eq d k v). Qed.

Lemma sget_set_other (d : list (string * TeamSubmission)) k k' v :
  k <> k' -> sget (sset d k v) k' = sget d k'.
Proof. exact (@get_set_other _ _ _ String.eqb_eq d k k' v). Qed.

Lemma sget_In (d : list (string * TeamSubmission)) k v :
  sget d k = Some v -> In (k, v) d.
Proof. exact (@get_In _ _ _ String.eqb_eq d k v). Qed.

Lemma sIn_get (d : list (string * TeamSubmission)) k v :
  NoDup (Dict.keys d) -> In (k, v) d -> sget d k = Some v.
Proof. exact (@In_get _ _ _ String.eqb_eq d k v). Qed.

Lemma sIn_set (d : list (string * TeamSubmission)) k v x :
  In x (sset d k v) -> x = (k, v) \/ In x d.
Proof. exact (@In_set _ _ _ String.eqb_eq d k v x). Qed.

Lemma sNoDup_keys_set (d : list (string * TeamSubmission)) k v :
  NoDup (Dict.keys d) -> NoDup (Dict.keys (sset d k v)).
Proof. exact (@NoDup_keys_set _ _ _ String.eqb_eq d k v). Qed.

(** ** Admission control *)

Lemma within_window_iff (s : QuestionSession) (now : Q) :
  within_window s now = true <->
  (now - start_time s <= inject_Z (time_limit s) + inject_Z (buffer_time s))%Q.
Proof.
  unfold within_window. rewrite Qle_bool_iff, inject_Z_plus. reflexivity.
Qed.

Lemma is_question_active_spec (w : World) (now : Q) (qid : Z) :
  is_question_active w now qid = true <->
  exists session,
    get_question_session w qid = Some session /\
    is_active session = true /\
    (now - start_time session
     <= inject_Z (time_limit session) + inject_Z (buffer_time session))%Q.
Proof.
  unfold is_question_active, get_question_session.
  destruct (zget (active_questions w) qid) as [s|].
  - destruct (is_active s) eqn:Ha; simpl.
    + rewrite within_window_iff. split.
      * intro H. exists s. auto.
      * intros (s' & [= <-] & _ & H). exact H.
    + split; [discriminate|].
      intros (s' & [= <-] & H & _). congruence.
  - split; [discriminate|]. intros (s' & H & _). discriminate.
Qed.

Lemma start_question_world (w : World) (now : Q)
    (registry : list (string * RegInfo)) (rnd : string -> Samples)
    (qid limit buffer : Z) :
  exists subs,
    let session :=
      mkQuestionSession qid now limit buffer true subs
        (initialize_fake_teams qid) in
    subs = snapshot_registry qid registry [] /\
    start_question w now registry rnd qid limit buffer =
      (Ok (session,
           schedule_teams qid session rnd (Dict.keys (fake_teams session))),
       mkWorld (zset (active_questions w) qid session) (Some qid)).
Proof.
  eexists. split; [reflexivity|].
  unfold start_question, start_fake_team_submissions.
  cbn [active_questions]. rewrite zget_set_same. reflexivity.
Qed.

Lemma start_question_session (w : World) (now : Q)
    (registry : list (string * RegInfo)) (rnd : string -> Samples)
    (qid limit buffer : Z) :
  get_question_session
    (snd (start_question w now registry rnd qid limit buffer)) qid =
  Some (mkQuestionSession qid now limit buffer true
          (snapshot_registry qid registry []) (initialize_fake_teams qid)).
Proof.
  destruct (start_question_world w now registry rnd qid limit buffer)
    as (subs & -> & ->).
  unfold get_question_session. cbn [snd active_questions].
  apply zget_set_same.
Qed.

(** C2. [is_question_active] holds exactly when the session exists, its
    [is_active] flag is set and the elapsed time is at most
    [time_limit + buffer_time]; a question started with a limit of 300 and a
    buffer of 10 is active 305 seconds after its start and inactive 311
    seconds after it. *)
Theorem C2_is_question_active_iff :
  (forall (w : World) (now : Q) (qid : Z),
      is_question_active w now qid = true <->
      exists session,
        get_question_session w qid = Some session /\
        is_active session = true /\
        (now - start_time session
         <= inject_Z (time_limit session)
            + inject_Z (buffer_time session))%Q) /\
  (forall (w : World) (t0 : Q) registry rnd,
      let w' := snd (start_question w t0 registry rnd 1 300 10) in
      is_question_active w' (t0 + 305) 1 = true /\
      is_question_active w' (t0 + 311) 1 = false).
Proof.
  split.
  - exact is_question_active_spec.
  - intros w t0 registry rnd w'.
    pose proof (start_question_session w t0 registry rnd 1 300 10) as Hs.
    fold w' in Hs. unfold get_question_session in Hs.
    unfold is_question_active. rewrite Hs.
    cbn [is_active negb]. split.
    + apply within_window_iff.
      cbn [start_time time_limit buffer_time]. unfold inject_Z. lra.
    + destruct (within_window _ _) eqn:E; [|reflexivity].
      apply within_window_iff in E.
      cbn [start_time time_limit buffer_time] in E. unfold inject_Z in E. lra.
Qed.

(** ** Unknown question ids *)

(** C6. For a question id without a session the read queries answer with
    an absent, empty or zero result, while [record_submission] raises
    [KeyError]: it returns no record and leaves the store as it was, so no
    session is created. *)
Theorem C6_missing_session_asymmetry (w : World) (qid : Z)
    (H : ~ In qid (Dict.keys (active_questions w))) :
  get_question_session w qid = None /\
  (forall tid, get_team_submission w qid tid = None) /\
  get_question_leaderboard w qid = Ok [] /\
  (forall now, get_elapsed_time w now qid = 0%Q) /\
  (forall now, get_remaining_time w now qid = 0%Q) /\
  (forall t_submit t_first tid is_correct score name sid,
      record_submission w t_submit t_first qid tid is_correct score name sid
      = (Raise KeyError, w)) /\
  (forall t_submit t_first tid is_correct score name sid,
      ~ In qid
          (Dict.keys
             (active_questions
                (snd (record_submission w t_submit t_first qid tid
                        is_correct score name sid))))).
Proof.
  pose proof H as H0. apply zget_None_keys in H0.
  unfold get_team_submission, get_question_leaderboard, get_elapsed_time,
    get_remaining_time, record_submission, get_question_session.
  rewrite H0. simpl. repeat split; auto.
Qed.

Lemma C6_missing_session_asymmetry_witness :
  get_question_session empty_world 7 = None /\
  (forall tid, get_team_submission empty_world 7 tid = None) /\
  get_question_leaderboard empty_world 7 = Ok [] /\
  (forall now, get_elapsed_time empty_world now 7 = 0%Q) /\
  (forall now, get_remaining_time empty_world now 7 = 0%Q) /\
  (forall t_submit t_first tid is_correct score name sid,
      record_submission empty_world t_submit t_first 7 tid is_correct score
        name sid
      = (Raise KeyError, empty_world)) /\
  (forall t_submit t_first tid is_correct score name sid,
      ~ In 7
          (Dict.keys
             (active_questions
                (snd (record_submission empty_world t_submit t_first 7 tid
                        is_correct score name sid))))).
Proof.
  apply (C6_missing_session_asymmetry empty_world 7). simpl. tauto.
Defined.

(** ** The submission ledger *)

Lemma zget_put_same (w : World) (qid : Z) (s : QuestionSession) :
  zget (active_questions (put_session w qid s)) qid = Some s.
Proof. apply zget_set_same. Qed.

Lemma zget_put_other (w : World) (qid q : Z) (s : QuestionSession) :
  qid <> q ->
  zget (active_questions (put_session w qid s)) q
  = zget (active_questions w) q.
Proof. apply zget_set_other. Qed.

Lemma record_submission_ok (w : World) (t_submit t_first : Q) (qid : Z)
    (tid : string) (is_correct : bool) (score : option Q)
    (name sid : option string) (session : QuestionSession) :
  zget (active_questions w) qid = Some session ->
  exists session',
    record_submission w t_submit t_first qid tid is_correct score name sid
    = (Ok (apply_submission (addressed session qid tid name sid)
             t_submit t_first is_correct score),
       put_session w qid session') /\
    start_time session' = start_time session /\
    time_limit session' = time_limit session /\
    buffer_time session' = buffer_time session /\
    is_active session' = is_active session /\
    match sget (fake_teams session) tid with
    | Some _ =>
        team_submissions session' = team_submissions session /\
        fake_teams session' =
          sset (fake_teams session) tid
            (apply_submission (addressed session qid tid name sid)
               t_submit t_first is_correct score)
    | None =>
        fake_teams session' = fake_teams session /\
        team_submissions session' =
          sset (team_submissions session) tid
            (apply_submission (addressed session qid tid name sid)
               t_submit t_first is_correct score)
    end.
Proof.
  intro Hs. unfold record_submission, addressed. rewrite Hs.
  destruct (sget (fake_teams session) tid) as [ts|];
    eexists; (split; [reflexivity|]); cbn; repeat split; reflexivity.
Qed.

Lemma record_submission_missing (w : World) (t_submit t_first : Q) (qid : Z)
    (tid : string) (is_correct : bool) (score : option Q)
    (name sid : option string) :
  zget (active_questions w) qid = None ->
  record_submission w t_submit t_first qid tid is_correct score name sid
  = (Raise KeyError, w).
Proof. intro H. unfold record_submission. now rewrite H. Qed.

(** What a call does to the record it addresses and to every other one. *)
Lemma record_submission_entry (w : World) (t_submit t_first : Q) (qid : Z)
    (tid : string) (is_correct : bool) (score : option Q)
    (name sid : option string) (session : QuestionSession) :
  zget (active_questions w) qid = Some session ->
  let w' :=
    snd (record_submission w t_submit t_first qid tid is_correct score
           name sid) in
  ledger_entry w' qid tid
  = Some (apply_submission (addressed session qid tid name sid)
            t_submit t_first is_correct score) /\
  (forall q t, (q <> qid \/ t <> tid) ->
               ledger_entry w' q t = ledger_entry w q t) /\
  (forall q t, (q <> qid \/ t <> tid) ->
               get_team_submission w' q t = get_team_submission w q t).
Proof.
  intros Hs w'.
  destruct (record_submission_ok w t_submit t_first qid tid is_correct score
              name sid session Hs)
    as (s' & Heq & _ & _ & _ & _ & Hled).
  subst w'. rewrite Heq. cbn [snd].
  unfold ledger_entry, get_team_submission.
  rewrite zget_put_same.
  destruct (sget (fake_teams session) tid) as [ts|] eqn:Hf;
    destruct Hled as [H1 H2]; rewrite ?H1, ?H2.
  - rewrite sget_set_same. split; [reflexivity|]. split.
    + intros q t Hne. destruct (Z.eq_dec qid q) as [<-|Hq].
      * rewrite zget_put_same, Hs, H1, H2.
        destruct Hne as [Hne|Hne]; [congruence|].
        rewrite sget_set_other by congruence. reflexivity.
      * now rewrite zget_put_other.
    + intros q t Hne. destruct (Z.eq_dec qid q) as [<-|Hq].
      * now rewrite zget_put_same, Hs, H1.
      * now rewrite zget_put_other.
  - rewrite Hf, sget_set_same. split; [reflexivity|]. split.
    + intros q t Hne. destruct (Z.eq_dec qid q) as [<-|Hq].
      * rewrite zget_put_same, Hs, H1, H2.
        destruct Hne as [Hne|Hne]; [congruence|].
        rewrite sget_set_other by congruence. reflexivity.
      * now rewrite zget_put_other.
    + intros q t Hne. destruct (Z.eq_dec qid q) as [<-|Hq].
      * rewrite zget_put_same, Hs, H2.
        destruct Hne as [Hne|Hne]; [congruence|].
        rewrite sget_set_other by congruence. reflexivity.
      * now rewrite zget_put_other.
Qed.

Lemma apply_submission_counts (ts : TeamSubmission) (t_submit t_first : Q)
    (is_correct : bool) (score : option Q) :
  let ts' := apply_submission ts t_submit t_first is_correct score in
  submit_times ts' = submit_times ts ++ [t_submit] /\
  wrong_count ts' = wrong_count ts + (if is_correct then 0 else 1) /\
  correct_count ts' = correct_count ts + (if is_correct then 1 else 0) /\
  team_id ts' = team_id ts /\
  team_name ts' = team_name ts /\
  team_session_id ts' = team_session_id ts.
Proof.
  unfold apply_submission.
  destruct is_correct, (is_completed ts); cbn; repeat split; lia.
Qed.

Lemma apply_submission_wrong (ts : TeamSubmission) (t_submit t_first : Q)
    (score : option Q) :
  let ts' := apply_submission ts t_submit t_first false score in
  is_completed ts' = is_completed ts /\
  final_score ts' = final_score ts /\
  first_correct_time ts' = first_correct_time ts.
Proof. cbn. auto. Qed.

Lemma apply_submission_first (ts : TeamSubmission) (t_submit t_first : Q)
    (score : option Q) :
  is_completed ts = false ->
  let ts' := apply_submission ts t_submit t_first true score in
  is_completed ts' = true /\
  final_score ts' = score /\
  first_correct_time ts' = Some t_first.
Proof. intro H. unfold apply_submission. rewrite H. cbn. auto. Qed.

Lemma apply_submission_sticky (ts : TeamSubmission) (t_submit t_first : Q)
    (is_correct : bool) (score : option Q) :
  is_completed ts = true ->
  let ts' := apply_submission ts t_submit t_first is_correct score in
  is_completed ts' = true /\
  final_score ts' = final_score ts /\
  first_correct_time ts' = first_correct_time ts.
Proof.
  intro H. unfold apply_submission. rewrite H.
  destruct is_correct; cbn; auto.
Qed.

Lemma addressed_entry (w : World) (qid : Z) (tid : string)
    (name sid : option string) (session : QuestionSession) :
  zget (active_questions w) qid = Some session ->
  addressed session qid tid name sid =
  match sget (fake_teams session) tid with
  | Some team_sub => team_sub
  | None =>
      backfill
        match ledger_entry w qid tid with
        | Some team_sub => team_sub
        | None => new_team_submission tid (name_or_id name tid) sid qid
        end name sid
  end.
Proof.
  intro Hs. unfold addressed, ledger_entry. rewrite Hs.
  now destruct (sget (fake_teams session) tid).
Qed.

(** C5. On an existing session [record_submission] appends one timestamp
    to the addressed team's [submit_times] and adds one to exactly one of
    [wrong_count] and [correct_count], chosen by [is_correct]; no other
    record changes.  For a real team a non-empty [team_name] or
    [team_session_id] is kept, and an empty one is filled in from a
    non-empty argument. *)
Theorem C5_record_submission_effect (w : World) (t_submit t_first : Q)
    (qid : Z) (tid : string) (is_correct : bool) (score : option Q)
    (name sid : option string) (session : QuestionSession)
    (Hs : get_question_session w qid = Some session) :
  let prev :=
    match ledger_entry w qid tid with
    | Some team_sub => team_sub
    | None => new_team_submission tid (name_or_id name tid) sid qid
    end in
  exists team_sub' w',
    record_submission w t_submit t_first qid tid is_correct score name sid
    = (Ok team_sub', w') /\
    ledger_entry w' qid tid = Some team_sub' /\
    submit_times team_sub' = submit_times prev ++ [t_submit] /\
    wrong_count team_sub'
    = wrong_count prev + (if is_correct then 0 else 1) /\
    correct_count team_sub'
    = correct_count prev + (if is_correct then 1 else 0) /\
    (forall q t, q <> qid \/ t <> tid ->
                 ledger_entry w' q t = ledger_entry w q t) /\
    (sget (fake_teams session) tid = None ->
     (truthy_str (team_name prev) = true ->
      team_name team_sub' = team_name prev) /\
     (truthy_opt_str (team_session_id prev) = true ->
      team_session_id team_sub' = team_session_id prev) /\
     (forall n, truthy_str (team_name prev) = false ->
                name = Some n -> truthy_str n = true ->
                team_name team_sub' = n) /\
     (truthy_opt_str (team_session_id prev) = false ->
      truthy_opt_str sid = true ->
      team_session_id team_sub' = sid)).
Proof.
  intro prev. unfold get_question_session in Hs.
  destruct (record_submission_ok w t_submit t_first qid tid is_correct score
              name sid session Hs) as (s' & Heq & _).
  pose proof (record_submission_entry w t_submit t_first qid tid is_correct
                score name sid session Hs) as (He & Hframe & _).
  rewrite Heq in He, Hframe. cbn [snd] in He, Hframe.
  pose proof (addressed_entry w qid tid name sid session Hs) as Ha.
  fold prev in Ha.
  pose proof (apply_submission_counts (addressed session qid tid name sid)
                t_submit t_first is_correct score)
    as (Ht & Hw & Hc & _ & Hn & Hi).
  eexists. eexists. split; [exact Heq|].
  split; [exact He|].
  assert (Hprev : sget (fake_teams session) tid <> None ->
                  addressed session qid tid name sid = prev).
  { intro Hf. rewrite Ha. subst prev. unfold ledger_entry. rewrite Hs.
    destruct (sget (fake_teams session) tid); [reflexivity|congruence]. }
  destruct (sget (fake_teams session) tid) as [ts|] eqn:Hf.
  - rewrite Ht, Hw, Hc, Hprev by discriminate.
    repeat split; auto; discriminate.
  - rewrite Ht, Hw, Hc, Hn, Hi, Ha. cbn.
    split; [reflexivity|]. split; [reflexivity|]. split; [reflexivity|].
    split; [exact Hframe|]. intros _. repeat split.
    + intro Hp. rewrite Hp. destruct name as [n|]; [|reflexivity].
      now rewrite andb_false_r.
    + intro Hp. rewrite Hp. now rewrite andb_false_r.
    + intros n Hp -> Hn'. now rewrite Hp, Hn'.
    + intros Hp Hsid. now rewrite Hp, Hsid.
Qed.

(** ** What each operation does to the store *)

Lemma refresh_questions (w : World) (clock : nat -> Q) :
  active_questions (snd (_refresh_active_question_id w clock))
  = active_questions w.
Proof.
  unfold _refresh_active_question_id.
  destruct (truthy_int (current_active_question_id w) && _); [reflexivity|].
  destruct (active_candidates w clock 1 (active_questions w)); reflexivity.
Qed.

Lemma stop_question_questions (w : World) (clock : nat -> Q) (qid : Z) :
  active_questions (stop_question w clock qid) =
  match zget (active_questions w) qid with
  | None => active_questions w
  | Some session =>
      zset (active_questions w) qid (set_is_active session false)
  end.
Proof.
  unfold stop_question.
  destruct (zget (active_questions w) qid) as [s|]; [|reflexivity].
  cbn [current_active_question_id].
  destruct (current_active_question_id w) as [c|]; [|reflexivity].
  destruct (c =? qid); [|reflexivity].
  now rewrite refresh_questions.
Qed.

Lemma add_team_questions (w : World) (tid name team_session : string)
    (q : Z) :
  zget (active_questions (add_team_to_active_sessions w tid name
                            team_session)) q
  = option_map (add_team_session tid name team_session q)
      (zget (active_questions w) q).
Proof.
  unfold add_team_to_active_sessions. cbn [active_questions].
  induction (active_questions w) as [|[k s] l IH]; [reflexivity|].
  cbn [map Dict.get].
  unfold add_team_session at 1.
  destruct (smem (team_submissions s) tid) eqn:Hm; cbn [Dict.get];
    destruct (k =? q) eqn:E; auto;
    apply Z.eqb_eq in E; subst k; cbn [option_map];
    unfold add_team_session; now rewrite Hm.
Qed.

(** A resumption of a task changes the store by at most one call of
    [record_submission], made for the task's own question and team. *)
Lemma task_resume_cases (task : FakeTask) (st : TaskState)
    (captured : QuestionSession) (w : World) (clock : nat -> Q) :
  snd (task_resume task st captured w clock) = w \/
  exists t_submit t_first is_correct score,
    snd (task_resume task st captured w clock)
    = snd (record_submission w t_submit t_first (task_question_id task)
             (task_team_name task) is_correct score
             (Some (task_team_name task)) None).
Proof.
  assert (Hc : forall captured i k,
             snd (task_continue task captured w clock i k) = w \/
             exists t_submit t_first is_correct score,
               snd (task_continue task captured w clock i k)
               = snd (record_submission w t_submit t_first
                        (task_question_id task) (task_team_name task)
                        is_correct score (Some (task_team_name task)) None)).
  { intros c i k. unfold task_continue.
    destruct (k <? Z.to_nat (task_wrong_count task))%nat.
    - destruct (negb (_is_accepting_submissions c (clock i))); [now left|].
      right. exists (clock (S i)), (clock (S i)), false, None.
      destruct (record_submission w (clock (S i)) (clock (S i)) _ _ false
                  None _ None) as [[r|e] w']; reflexivity.
    - destruct ((0 <? task_correct_count task)
                && _is_accepting_submissions c (clock i)); [|now left].
      right. now exists (clock (S i)), (clock (S (S i))), true,
        (task_score task). }
  destruct st as [|k|]; cbn [task_resume]; [| apply Hc | now left].
  destruct (zget (active_questions w) (task_question_id task)) as [s|];
    [|now left].
  destruct (negb (_is_accepting_submissions s (clock 0%nat))); [now left|].
  apply Hc.
Qed.

Lemma same_timing_refl (s : QuestionSession) : same_timing s s.
Proof. unfold same_timing. auto. Qed.

Lemma record_submission_session (w : World) (t_submit t_first : Q) (qid : Z)
    (tid : string) (is_correct : bool) (score : option Q)
    (name sid : option string) (q : Z) :
  match zget (active_questions w) q with
  | None =>
      zget (active_questions
              (snd (record_submission w t_submit t_first qid tid is_correct
                      score name sid))) q = None
  | Some s =>
      exists s',
        zget (active_questions
                (snd (record_submission w t_submit t_first qid tid is_correct
                        score name sid))) q = Some s' /\
        same_timing s s'
  end.
Proof.
  destruct (zget (active_questions w) qid) as [session|] eqn:Hs.
  - destruct (record_submission_ok w t_submit t_first qid tid is_correct
                score name sid session Hs)
      as (s' & -> & H1 & H2 & H3 & H4 & _).
    cbn [snd]. destruct (Z.eq_dec qid q) as [<-|Hne].
    + rewrite Hs, zget_put_same. exists s'. split; [reflexivity|].
      unfold same_timing. rewrite H4. auto.
    + rewrite zget_put_other by exact Hne.
      destruct (zget (active_questions w) q) as [s|]; [|reflexivity].
      exists s. split; [reflexivity | apply same_timing_refl].
  - rewrite record_submission_missing by exact Hs. cbn [snd].
    destruct (zget (active_questions w) q) as [s|]; [|reflexivity].
    exists s. split; [reflexivity | apply same_timing_refl].
Qed.

Lemma add_team_session_timing (tid name team_session : string) (q : Z)
    (s : QuestionSession) :
  same_timing s (add_team_session tid name team_session q s).
Proof.
  unfold add_team_session.
  destruct (smem (team_submissions s) tid); unfold same_timing; cbn; auto.
Qed.

(** The session of a question that is not restarted keeps its timing data,
    and no session appears where there was none. *)
Lemma exec_session (w : World) (op : Op) (q : Z) :
  restarts q op = false ->
  match zget (active_questions w) q with
  | None => zget (active_questions (exec w op)) q = None
  | Some s =>
      exists s',
        zget (active_questions (exec w op)) q = Some s' /\ same_timing s s'
  end.
Proof.
  intro Hr.
  assert (Hid : zget (active_questions (exec w op)) q
                = zget (active_questions w) q ->
                match zget (active_questions w) q with
                | None => zget (active_questions (exec w op)) q = None
                | Some s =>
                    exists s',
                      zget (active_questions (exec w op)) q = Some s' /\
                      same_timing s s'
                end).
  { intros ->. destruct (zget (active_questions w) q) as [s|]; [|reflexivity].
    exists s. split; [reflexivity | apply same_timing_refl]. }
  destruct op as [now reg rnd qid l b | clock qid
                 | ts tf qid tid c sc n sd | clock | | tid n sd
                 | task st cap clock].
  - cbn [restarts] in Hr. apply Z.eqb_neq in Hr.
    destruct (start_question_world w now reg rnd qid l b) as (subs & _ & He).
    apply Hid. cbn [exec]. rewrite He. cbn [snd active_questions].
    now apply zget_set_other.
  - cbn [exec]. rewrite stop_question_questions.
    destruct (zget (active_questions w) qid) as [s0|] eqn:Hs0.
    + destruct (Z.eq_dec qid q) as [<-|Hne].
      * rewrite Hs0, zget_set_same. eexists. split; [reflexivity|].
        unfold same_timing. cbn. repeat split; auto. discriminate.
      * rewrite zget_set_other by exact Hne.
        destruct (zget (active_questions w) q) as [s|]; [|reflexivity].
        exists s. split; [reflexivity | apply same_timing_refl].
    + destruct (zget (active_questions w) q) as [s|]; [|reflexivity].
      exists s. split; [reflexivity | apply same_timing_refl].
  - apply record_submission_session.
  - apply Hid. cbn [exec]. unfold get_current_active_question_id.
    now rewrite refresh_questions.
  - discriminate.
  - cbn [exec]. rewrite add_team_questions.
    destruct (zget (active_questions w) q) as [s|]; [|reflexivity].
    cbn [option_map]. eexists. split; [reflexivity|].
    apply add_team_session_timing.
  - cbn [exec].
    destruct (task_resume_cases task st cap w clock)
      as [-> | (ts & tf & c & sc & ->)].
    + destruct (zget (active_questions w) q) as [s|]; [|reflexivity].
      exists s. split; [reflexivity | apply same_timing_refl].
    + apply record_submission_session.
Qed.

(** ** Permanent inactivity *)

(** The step of an induction over a run whose operations all pass a test:
    splits the hypothesis on the run and exposes the first operation. *)
Ltac run_step Hops Hop :=
  cbn [forallb] in Hops;
  apply andb_true_iff in Hops as [Hop Hops];
  apply negb_true_iff in Hop;
  cbn [run fold_left].

Lemma within_window_later (s s' : QuestionSession) (t t' : Q) :
  same_timing s s' -> (t <= t')%Q ->
  within_window s t = false -> within_window s' t' = false.
Proof.
  intros (H1 & H2 & H3 & _) Hle Hw.
  destruct (within_window s' t') eqn:E; [|reflexivity].
  apply within_window_iff in E. rewrite H1, H2, H3 in E.
  assert (Hw' : within_window s t = true) by (apply within_window_iff; lra).
  congruence.
Qed.

Lemma inactive_later (w : World) (qid : Z) (t t' : Q) :
  (t <= t')%Q ->
  is_question_active w t qid = false -> is_question_active w t' qid = false.
Proof.
  unfold is_question_active. intros Hle.
  destruct (zget (active_questions w) qid) as [s|]; [|reflexivity].
  destruct (negb (is_active s)); [reflexivity|].
  apply within_window_later; [apply same_timing_refl | exact Hle].
Qed.

Lemma exec_keeps_inactive (w : World) (op : Op) (qid : Z) (t : Q) :
  starts qid op = false ->
  is_question_active w t qid = false ->
  is_question_active (exec w op) t qid = false.
Proof.
  intros Hst Hdead.
  destruct (restarts qid op) eqn:Hr.
  - destruct op; try discriminate; [cbn in Hst, Hr; congruence|].
    reflexivity.
  - pose proof (exec_session w op qid Hr) as Hs.
    unfold is_question_active in *.
    destruct (zget (active_questions w) qid) as [s|].
    + destruct Hs as (s' & -> & Ht).
      destruct Ht as (H1 & H2 & H3 & H4).
      destruct (is_active s') eqn:Ha'; [|reflexivity].
      cbn [negb]. rewrite (H4 eq_refl) in Hdead. cbn [negb] in Hdead.
      apply (within_window_later s s' t t); [|lra|exact Hdead].
      unfold same_timing. auto.
    + now rewrite Hs.
Qed.

Lemma run_keeps_inactive (ops : list Op) (w : World) (qid : Z) (t : Q) :
  forallb (fun op => negb (starts qid op)) ops = true ->
  is_question_active w t qid = false ->
  is_question_active (run w ops) t qid = false.
Proof.
  revert w. induction ops as [|op ops IH]; intros w Hops Hdead.
  - exact Hdead.
  - run_step Hops Hop.
    apply IH; [exact Hops|]. now apply exec_keeps_inactive.
Qed.

Lemma stop_question_inactive (w : World) (clock : nat -> Q) (qid : Z)
    (t : Q) :
  is_question_active (stop_question w clock qid) t qid = false.
Proof.
  unfold is_question_active. rewrite stop_question_questions.
  destruct (zget (active_questions w) qid) as [s|] eqn:Hs.
  - now rewrite zget_set_same.
  - now rewrite Hs.
Qed.

(** C3. Once a question is inactive it stays so: after [stop_question] it
    is inactive at every time, and when it is inactive at some time [t], for
    whatever reason, it is inactive at every later time [t'], whatever
    operations other than a [start_question] of the same id run in
    between. *)
Theorem C3_permanent_inactivity (w : World) (qid : Z) (ops : list Op)
    (Hops : forallb (fun op => negb (starts qid op)) ops = true) :
  (forall clock t',
      is_question_active (run (stop_question w clock qid) ops) t' qid
      = false) /\
  (forall t t',
      (t <= t')%Q ->
      is_question_active w t qid = false ->
      is_question_active (run w ops) t' qid = false) /\
  (forall session t t',
      get_question_session w qid = Some session ->
      (t - start_time session
       > inject_Z (time_limit session) + inject_Z (buffer_time session))%Q ->
      (t <= t')%Q ->
      is_question_active (run w ops) t' qid = false).
Proof.
  split; [|split].
  - intros clock t'. apply run_keeps_inactive; [exact Hops|].
    apply stop_question_inactive.
  - intros t t' Hle Hdead. apply run_keeps_inactive; [exact Hops|].
    now apply (inactive_later w qid t t').
  - intros s t t' Hs Hgt Hle. apply run_keeps_inactive; [exact Hops|].
    apply (inactive_later w qid t t'); [exact Hle|].
    destruct (is_question_active w t qid) eqn:E; [|reflexivity].
    apply is_question_active_spec in E as (s' & Hs' & _ & Hw).
    rewrite Hs in Hs'. injection Hs' as <-. lra.
Qed.

(** ** Reset *)

Lemma exec_no_sessions (w : World) (op : Op) :
  is_start op = false -> no_sessions w -> no_sessions (exec w op).
Proof.
  intros Hst Hw qid. unfold get_question_session.
  destruct (restarts qid op) eqn:Hr.
  - destruct op; try discriminate. reflexivity.
  - pose proof (exec_session w op qid Hr) as Hs.
    pose proof (Hw qid) as Hq. unfold get_question_session in Hq.
    now rewrite Hq in Hs.
Qed.

Lemma run_no_sessions (ops : list Op) (w : World) :
  forallb (fun op => negb (is_start op)) ops = true ->
  no_sessions w -> no_sessions (run w ops).
Proof.
  revert w. induction ops as [|op ops IH]; intros w Hops Hw; [exact Hw|].
  run_step Hops Hop.
  apply IH; [exact Hops|]. now apply exec_no_sessions.
Qed.

Lemma no_sessions_inactive (w : World) (now : Q) (qid : Z) :
  no_sessions w -> is_question_active w now qid = false.
Proof.
  intro Hw. unfold is_question_active.
  specialize (Hw qid). unfold get_question_session in Hw. now rewrite Hw.
Qed.

Lemma no_sessions_candidates (w : World) (clock : nat -> Q)
    (items : list (Z * QuestionSession)) (i : nat) :
  no_sessions w -> active_candidates w clock i items = [].
Proof.
  intro Hw. revert i. induction items as [|[q s] items IH]; intro i.
  - reflexivity.
  - cbn [active_candidates]. rewrite no_sessions_inactive by exact Hw.
    apply IH.
Qed.

Lemma no_sessions_current (w : World) (clock : nat -> Q) :
  no_sessions w -> fst (get_current_active_question_id w clock) = None.
Proof.
  intro Hw.
  unfold get_current_active_question_id, _refresh_active_question_id.
  rewrite no_sessions_candidates by exact Hw.
  destruct (current_active_question_id w) as [c|].
  - rewrite no_sessions_inactive by exact Hw.
    now rewrite andb_false_r.
  - reflexivity.
Qed.

(** C9. [reset_all_questions] returns the number of tracked sessions and
    leaves an empty store: right after it, and after any further operations
    that start no question, [get_question_session] is absent for every id
    and [get_current_active_question_id] is absent. *)
Theorem C9_reset_all_questions (w : World) (ops : list Op)
    (Hops : forallb (fun op => negb (is_start op)) ops = true) :
  fst (reset_all_questions w)
  = Z.of_nat (List.length (Dict.keys (active_questions w))) /\
  snd (reset_all_questions w) = empty_world /\
  (forall qid,
      get_question_session (snd (reset_all_questions w)) qid = None) /\
  (forall clock,
      fst (get_current_active_question_id (snd (reset_all_questions w))
             clock) = None) /\
  (forall qid,
      get_question_session (run (snd (reset_all_questions w)) ops) qid
      = None) /\
  (forall clock,
      fst (get_current_active_question_id
             (run (snd (reset_all_questions w)) ops) clock) = None).
Proof.
  assert (H0 : no_sessions (snd (reset_all_questions w)))
    by (intro qid; reflexivity).
  assert (H1 : no_sessions (run (snd (reset_all_questions w)) ops))
    by (apply run_no_sessions; assumption).
  split; [|split; [|split; [|split; [|split]]]].
  - unfold reset_all_questions, Dict.keys. cbn [fst].
    now rewrite length_map.
  - reflexivity.
  - exact H0.
  - intro clock. now apply no_sessions_current.
  - exact H1.
  - intro clock. now apply no_sessions_current.
Qed.

(** ** First correct submission wins *)

Lemma ledger_entry_ext (w w' : World) (qid : Z) (tid : string) :
  zget (active_questions w') qid = zget (active_questions w) qid ->
  ledger_entry w' qid tid = ledger_entry w qid tid.
Proof. unfold ledger_entry. now intros ->. Qed.

Lemma addressed_old (w : World) (qid : Z) (tid : string)
    (name sid : option string) (session : QuestionSession)
    (ts : TeamSubmission) :
  zget (active_questions w) qid = Some session ->
  ledger_entry w qid tid = Some ts ->
  let a := addressed session qid tid name sid in
  is_completed a = is_completed ts /\
  final_score a = final_score ts /\
  first_correct_time a = first_correct_time ts /\
  correct_count a = correct_count ts.
Proof.
  intros Hs He. cbn zeta.
  rewrite (addressed_entry w qid tid name sid session Hs), He.
  unfold ledger_entry in He. rewrite Hs in He.
  destruct (sget (fake_teams session) tid) as [x|].
  - injection He as ->. auto.
  - cbn. auto.
Qed.

Lemma addressed_new (w : World) (qid : Z) (tid : string)
    (name sid : option string) (session : QuestionSession) :
  zget (active_questions w) qid = Some session ->
  ledger_entry w qid tid = None ->
  is_completed (addressed session qid tid name sid) = false.
Proof.
  intros Hs He.
  rewrite (addressed_entry w qid tid name sid session Hs), He.
  unfold ledger_entry in He. rewrite Hs in He.
  destruct (sget (fake_teams session) tid); [discriminate|reflexivity].
Qed.

(** The three ways an operation that keeps the session of [qid] can treat
    the record of team [tid]: leave it, create it empty, or run the tail of
    [record_submission] on it. *)
Lemma exec_entry (w : World) (op : Op) (qid : Z) (tid : string) :
  restarts qid op = false ->
  ledger_entry (exec w op) qid tid = ledger_entry w qid tid \/
  (ledger_entry w qid tid = None /\
   exists ts, ledger_entry (exec w op) qid tid = Some ts /\
              is_completed ts = false) \/
  (exists session t_submit t_first is_correct score name sid,
      zget (active_questions w) qid = Some session /\
      ledger_entry (exec w op) qid tid
      = Some (apply_submission (addressed session qid tid name sid)
                t_submit t_first is_correct score) /\
      (is_correct = true -> correct_for qid tid op = true)).
Proof.
  intro Hr.
  assert (Hrec : forall ts tf q t c sc n sd,
             (c = true -> (q =? qid) && String.eqb t tid = true ->
              correct_for qid tid op = true) ->
             exec w op = snd (record_submission w ts tf q t c sc n sd) ->
             ledger_entry (exec w op) qid tid = ledger_entry w qid tid \/
             (ledger_entry w qid tid = None /\
              exists ts, ledger_entry (exec w op) qid tid = Some ts /\
                         is_completed ts = false) \/
             (exists session t_submit t_first is_correct score name sid,
                 zget (active_questions w) qid = Some session /\
                 ledger_entry (exec w op) qid tid
                 = Some (apply_submission (addressed session qid tid name sid)
                           t_submit t_first is_correct score) /\
                 (is_correct = true -> correct_for qid tid op = true))).
  { intros ts tf q t c sc n sd Hc ->.
    destruct (zget (active_questions w) q) as [s|] eqn:Hs.
    - pose proof (record_submission_entry w ts tf q t c sc n sd s Hs)
        as (He & Hframe & _).
      destruct (Z.eq_dec q qid) as [->|Hq];
        [destruct (string_dec t tid) as [->|Ht]|].
      + right. right. exists s, ts, tf, c, sc, n, sd.
        repeat split; auto. intro Hct. apply Hc; [exact Hct|].
        apply andb_true_iff. split;
          [apply Z.eqb_refl | apply String.eqb_refl].
      + left. apply Hframe. right. congruence.
      + left. apply Hframe. left. congruence.
    - left. now rewrite record_submission_missing. }
  destruct op as [now reg rnd q l b | clock q
                 | ts tf q t c sc n sd | clock | | t n sd
                 | task st cap clock].
  - left. apply ledger_entry_ext. cbn [restarts] in Hr.
    apply Z.eqb_neq in Hr.
    destruct (start_question_world w now reg rnd q l b) as (subs & _ & He).
    cbn [exec]. rewrite He. cbn [snd active_questions].
    now apply zget_set_other.
  - left. unfold ledger_entry. cbn [exec].
    rewrite stop_question_questions.
    destruct (zget (active_questions w) q) as [s0|] eqn:Hs0; [|reflexivity].
    destruct (Z.eq_dec q qid) as [->|Hne].
    + now rewrite Hs0, zget_set_same.
    + now rewrite zget_set_other.
  - apply (Hrec ts tf q t c sc n sd); [|reflexivity].
    intros -> Hm. cbn [correct_for]. now rewrite Hm.
  - left. apply ledger_entry_ext. cbn [exec].
    unfold get_current_active_question_id. now rewrite refresh_questions.
  - discriminate.
  - unfold ledger_entry. cbn [exec]. rewrite add_team_questions.
    destruct (zget (active_questions w) qid) as [s|]; [|now left].
    cbn [option_map]. unfold add_team_session, Dict.mem.
    destruct (sget (team_submissions s) t) as [x|] eqn:Hx; [now left|].
    cbn [fake_teams team_submissions set_team_submissions].
    destruct (sget (fake_teams s) tid) as [y|]; [now left|].
    destruct (string_dec t tid) as [->|Ht].
    + right. left. split; [exact Hx|].
      rewrite sget_set_same. eexists. split; reflexivity.
    + left. now rewrite sget_set_other.
  - cbn [exec].
    destruct (task_resume_cases task st cap w clock)
      as [He | (ts & tf & c & sc & He)].
    + left. cbn [exec]. now rewrite He.
    + apply (Hrec ts tf (task_question_id task) (task_team_name task) c sc
               (Some (task_team_name task)) None); [|exact He].
      intros _ Hm. exact Hm.
Qed.

(** A completed record keeps its score and completion time. *)
Lemma exec_entry_sticky (w : World) (op : Op) (qid : Z) (tid : string)
    (ts : TeamSubmission) :
  restarts qid op = false ->
  ledger_entry w qid tid = Some ts ->
  is_completed ts = true ->
  exists ts',
    ledger_entry (exec w op) qid tid = Some ts' /\
    is_completed ts' = true /\
    final_score ts' = final_score ts /\
    first_correct_time ts' = first_correct_time ts.
Proof.
  intros Hr He Hc.
  destruct (exec_entry w op qid tid Hr)
    as [H | [(H & _) | (s & t1 & t2 & c & sc & n & sd & Hs & H & _)]].
  - exists ts. rewrite H. auto.
  - congruence.
  - eexists. split; [exact H|].
    destruct (addressed_old w qid tid n sd s ts Hs He)
      as (Ha1 & Ha2 & Ha3 & _).
    rewrite Hc in Ha1.
    destruct (apply_submission_sticky (addressed s qid tid n sd) t1 t2 c sc
                Ha1) as (H1 & H2 & H3).
    rewrite H1, H2, H3. auto.
Qed.

Lemma all_open_set (d : list (string * TeamSubmission)) k v :
  all_open d -> is_completed v = false -> all_open (sset d k v).
Proof.
  intros Hd Hv k' v' Hin. apply sIn_set in Hin as [[= -> ->] | Hin]; eauto.
Qed.

Lemma all_open_get (d : list (string * TeamSubmission)) k :
  all_open d -> open_entry (sget d k).
Proof.
  intro Hd. destruct (sget d k) as [v|] eqn:E; [|exact I].
  apply sget_In in E. exact (Hd _ _ E).
Qed.

Lemma initialize_fake_teams_open (qid : Z) :
  all_open (initialize_fake_teams qid).
Proof.
  unfold initialize_fake_teams.
  assert (H : forall names d,
             all_open d ->
             all_open
               (fold_left
                  (fun fake name =>
                     sset fake name (new_team_submission name name None qid))
                  names d)).
  { induction names as [|n names IH]; intros d Hd; [exact Hd|].
    cbn [fold_left]. apply IH. now apply all_open_set. }
  apply H. intros k v [].
Qed.

Lemma snapshot_registry_open (qid : Z) (registry : list (string * RegInfo))
    (subs : list (string * TeamSubmission)) :
  all_open subs -> all_open (snapshot_registry qid registry subs).
Proof.
  unfold snapshot_registry. revert subs.
  induction registry as [|[sid info] registry IH]; intros subs Hd;
    [exact Hd|].
  cbn [fold_left]. apply IH.
  destruct (negb (smem subs (reg_team_id info))); [|exact Hd].
  now apply all_open_set.
Qed.

Lemma start_question_entry_open (w : World) (now : Q)
    (registry : list (string * RegInfo)) (rnd : string -> Samples)
    (qid limit buffer : Z) (tid : string) :
  open_entry
    (ledger_entry (snd (start_question w now registry rnd qid limit buffer))
       qid tid).
Proof.
  pose proof (start_question_session w now registry rnd qid limit buffer)
    as Hs.
  unfold get_question_session in Hs. unfold ledger_entry. rewrite Hs.
  cbn [fake_teams team_submissions].
  pose proof (all_open_get (initialize_fake_teams qid) tid
                (initialize_fake_teams_open qid)) as Hf.
  destruct (sget (initialize_fake_teams qid) tid); [exact Hf|].
  apply all_open_get. apply snapshot_registry_open. intros k v [].
Qed.

(** Without a correct submission of the team, its record stays open. *)
Lemma exec_entry_open (w : World) (op : Op) (qid : Z) (tid : string) :
  correct_for qid tid op = false ->
  open_entry (ledger_entry w qid tid) ->
  open_entry (ledger_entry (exec w op) qid tid).
Proof.
  intros Hc Ho.
  destruct (restarts qid op) eqn:Hr.
  - destruct op; try discriminate.
    + cbn [restarts] in Hr. apply Z.eqb_eq in Hr. subst qid0.
      apply start_question_entry_open.
    + exact I.
  - destruct (exec_entry w op qid tid Hr)
      as [H | [(_ & ts & H & Hts)
              | (s & t1 & t2 & c & sc & n & sd & Hs & H & Hcorr)]].
    + now rewrite H.
    + rewrite H. exact Hts.
    + rewrite H. cbn [open_entry].
      destruct c; [specialize (Hcorr eq_refl); congruence|].
      destruct (apply_submission_wrong (addressed s qid tid n sd) t1 t2 sc)
        as (-> & _).
      destruct (ledger_entry w qid tid) as [ts|] eqn:He.
      * destruct (addressed_old w qid tid n sd s ts Hs He) as (-> & _).
        exact Ho.
      * now apply (addressed_new w).
Qed.

Lemma run_session (ops : list Op) (w : World) (qid : Z)
    (s : QuestionSession) :
  forallb (fun op => negb (restarts qid op)) ops = true ->
  zget (active_questions w) qid = Some s ->
  exists s', zget (active_questions (run w ops)) qid = Some s'.
Proof.
  revert w s. induction ops as [|op ops IH]; intros w s Hops Hs.
  - now exists s.
  - run_step Hops Hop.
    pose proof (exec_session w op qid Hop) as H. rewrite Hs in H.
    destruct H as (s' & H & _). exact (IH _ s' Hops H).
Qed.

Lemma run_entry_sticky (ops : list Op) (w : World) (qid : Z) (tid : string)
    (ts : TeamSubmission) :
  forallb (fun op => negb (restarts qid op)) ops = true ->
  ledger_entry w qid tid = Some ts ->
  is_completed ts = true ->
  exists ts',
    ledger_entry (run w ops) qid tid = Some ts' /\
    is_completed ts' = true /\
    final_score ts' = final_score ts /\
    first_correct_time ts' = first_correct_time ts.
Proof.
  revert w ts. induction ops as [|op ops IH]; intros w ts Hops He Hc.
  - exists ts. auto.
  - run_step Hops Hop.
    destruct (exec_entry_sticky w op qid tid ts Hop He Hc)
      as (ts1 & He1 & Hc1 & Hs1 & Ht1).
    destruct (IH _ ts1 Hops He1 Hc1) as (ts' & He' & Hc' & Hs' & Ht').
    exists ts'. split; [exact He'|]. repeat split; congruence.
Qed.

Lemma run_entry_open (ops : list Op) (w : World) (qid : Z) (tid : string) :
  forallb (fun op => negb (correct_for qid tid op)) ops = true ->
  open_entry (ledger_entry w qid tid) ->
  open_entry (ledger_entry (run w ops) qid tid).
Proof.
  revert w. induction ops as [|op ops IH]; intros w Hops Ho; [exact Ho|].
  run_step Hops Hop.
  apply IH; [exact Hops|]. now apply exec_entry_open.
Qed.

(** C1. After [start_question], and as long as the question is not
    restarted, the first [record_submission] with [is_correct = true] for a
    team completes its record and sets [first_correct_time] and
    [final_score]; whatever runs afterwards, a later correct call adds one
    to [correct_count] and returns a record with the [final_score] and
    [first_correct_time] of that first call. *)
Theorem C1_first_correct_wins (w0 : World) (now : Q)
    (registry : list (string * RegInfo)) (rnd : string -> Samples)
    (qid limit buffer : Z) (tid : string) (ops1 ops2 : list Op)
    (t1 t1' t2 t2' : Q) (score1 score2 : option Q)
    (name1 sid1 name2 sid2 : option string)
    (Hfirst : forallb (fun op => negb (correct_for qid tid op)) ops1 = true)
    (Hkeep1 : forallb (fun op => negb (restarts qid op)) ops1 = true)
    (Hkeep2 : forallb (fun op => negb (restarts qid op)) ops2 = true) :
  let w1 :=
    run (snd (start_question w0 now registry rnd qid limit buffer)) ops1 in
  let r1 := record_submission w1 t1 t1' qid tid true score1 name1 sid1 in
  let w2 := run (snd r1) ops2 in
  let r2 := record_submission w2 t2 t2' qid tid true score2 name2 sid2 in
  exists first before second,
    fst r1 = Ok first /\
    is_completed first = true /\
    first_correct_time first = Some t1' /\
    final_score first = score1 /\
    ledger_entry w2 qid tid = Some before /\
    fst r2 = Ok second /\
    correct_count second = correct_count before + 1 /\
    is_completed second = true /\
    final_score second = final_score first /\
    first_correct_time second = first_correct_time first.
Proof.
  intros w1 r1 w2 r2.
  (* the session is there and the record is open before the first call *)
  destruct (run_session ops1
              (snd (start_question w0 now registry rnd qid limit buffer))
              qid _ Hkeep1
              (start_question_session w0 now registry rnd qid limit buffer))
    as (s1 & Hs1).
  fold w1 in Hs1.
  assert (Hopen : open_entry (ledger_entry w1 qid tid)).
  { apply run_entry_open; [exact Hfirst|]. apply start_question_entry_open. }
  assert (Ha1 : is_completed (addressed s1 qid tid name1 sid1) = false).
  { destruct (ledger_entry w1 qid tid) as [ts|] eqn:He.
    - destruct (addressed_old w1 qid tid name1 sid1 s1 ts Hs1 He) as (-> & _).
      exact Hopen.
    - now apply (addressed_new w1). }
  (* the first correct call *)
  destruct (record_submission_ok w1 t1 t1' qid tid true score1 name1 sid1 s1
              Hs1) as (s1' & Hr1 & _).
  pose proof (record_submission_entry w1 t1 t1' qid tid true score1 name1
                sid1 s1 Hs1) as (He1 & _).
  fold r1 in Hr1, He1.
  destruct (apply_submission_first (addressed s1 qid tid name1 sid1) t1 t1'
              score1 Ha1) as (Hc1 & Hf1 & Ht1).
  set (first := apply_submission (addressed s1 qid tid name1 sid1) t1 t1'
                  true score1) in *.
  (* what runs in between keeps the completed record *)
  assert (Hs1' : zget (active_questions (snd r1)) qid = Some s1').
  { rewrite Hr1. apply zget_put_same. }
  destruct (run_session ops2 (snd r1) qid s1' Hkeep2 Hs1') as (s2 & Hs2).
  fold w2 in Hs2.
  destruct (run_entry_sticky ops2 (snd r1) qid tid first Hkeep2 He1 Hc1)
    as (before & He2 & Hc2 & Hf2 & Ht2).
  fold w2 in He2.
  (* the later correct call *)
  destruct (record_submission_ok w2 t2 t2' qid tid true score2 name2 sid2 s2
              Hs2) as (s2' & Hr2 & _).
  fold r2 in Hr2.
  destruct (addressed_old w2 qid tid name2 sid2 s2 before Hs2 He2)
    as (Ha & Hb & Hc & Hd).
  rewrite Hc2 in Ha.
  destruct (apply_submission_sticky (addressed s2 qid tid name2 sid2) t2 t2'
              true score2 Ha) as (Hx & Hy & Hz).
  destruct (apply_submission_counts (addressed s2 qid tid name2 sid2) t2 t2'
              true score2) as (_ & _ & Hcnt & _).
  exists first, before,
    (apply_submission (addressed s2 qid tid name2 sid2) t2 t2' true score2).
  rewrite Hr1, Hr2. cbn [fst]. rewrite Hd in Hcnt.
  repeat split; try assumption; congruence.
Qed.

(** ** Well-formed ledgers *)

Lemma ledger_ok_set (d : list (string * TeamSubmission)) k v :
  ledger_ok d ->
  (is_completed v = true -> first_correct_time v <> None) ->
  ledger_ok (sset d k v).
Proof.
  intros [Hnd Hd] Hv. split.
  - now apply sNoDup_keys_set.
  - intros k' v' Hin. apply sIn_set in Hin as [[= -> ->] | Hin]; eauto.
Qed.

Lemma all_open_ledger_ok (d : list (string * TeamSubmission)) :
  NoDup (Dict.keys d) -> all_open d -> ledger_ok d.
Proof.
  intros Hnd Ho. split; [exact Hnd|].
  intros k v Hin Hc. rewrite (Ho _ _ Hin) in Hc. discriminate.
Qed.

Lemma snapshot_registry_NoDup (qid : Z) (registry : list (string * RegInfo))
    (subs : list (string * TeamSubmission)) :
  NoDup (Dict.keys subs) ->
  NoDup (Dict.keys (snapshot_registry qid registry subs)).
Proof.
  unfold snapshot_registry. revert subs.
  induction registry as [|[sid info] registry IH]; intros subs Hd;
    [exact Hd|].
  cbn [fold_left]. apply IH.
  destruct (negb (smem subs (reg_team_id info))); [|exact Hd].
  now apply sNoDup_keys_set.
Qed.

Lemma apply_submission_ok (a : TeamSubmission) (t_submit t_first : Q)
    (is_correct : bool) (score : option Q) :
  (is_completed a = true -> first_correct_time a <> None) ->
  is_completed (apply_submission a t_submit t_first is_correct score) = true ->
  first_correct_time (apply_submission a t_submit t_first is_correct score)
  <> None.
Proof.
  unfold apply_submission.
  destruct is_correct; cbn [negb]; [destruct (is_completed a) eqn:E|];
    cbn; auto. discriminate.
Qed.

Lemma record_submission_world_ok (w : World) (t_submit t_first : Q) (qid : Z)
    (tid : string) (is_correct : bool) (score : option Q)
    (name sid : option string) :
  world_ok w ->
  world_ok
    (snd (record_submission w t_submit t_first qid tid is_correct score
            name sid)).
Proof.
  intros Hw q s'.
  destruct (zget (active_questions w) qid) as [s|] eqn:Hs.
  - destruct (record_submission_ok w t_submit t_first qid tid is_correct
                score name sid s Hs) as (s1 & -> & _ & _ & _ & _ & Hled).
    cbn [snd]. destruct (Z.eq_dec qid q) as [<-|Hne].
    + rewrite zget_put_same. intros [= <-].
      pose proof (Hw qid s Hs) as Hok.
      unfold addressed in Hled.
      destruct (sget (fake_teams s) tid) as [x|].
      * destruct Hled as [-> _]. exact Hok.
      * destruct Hled as [_ ->]. apply ledger_ok_set; [exact Hok|].
        apply apply_submission_ok. cbn.
        destruct (sget (team_submissions s) tid) as [y|] eqn:Hy.
        -- apply sget_In in Hy. exact (proj2 Hok _ _ Hy).
        -- discriminate.
    + rewrite zget_put_other by exact Hne. apply Hw.
  - rewrite record_submission_missing by exact Hs. apply Hw.
Qed.

Lemma exec_world_ok (w : World) (op : Op) :
  world_ok w -> world_ok (exec w op).
Proof.
  intro Hw.
  destruct op as [now reg rnd q l b | clock q
                 | ts tf q t c sc n sd | clock | | t n sd
                 | task st cap clock].
  - intros q' s'.
    destruct (start_question_world w now reg rnd q l b) as (subs & Hsub & He).
    cbn [exec]. rewrite He. cbn [snd active_questions].
    destruct (Z.eq_dec q q') as [<-|Hne].
    + rewrite zget_set_same. intros [= <-]. cbn [team_submissions].
      subst subs. apply all_open_ledger_ok.
      * apply snapshot_registry_NoDup. constructor.
      * apply snapshot_registry_open. intros k v [].
    + rewrite zget_set_other by exact Hne. apply Hw.
  - intros q' s'. cbn [exec]. rewrite stop_question_questions.
    destruct (zget (active_questions w) q) as [s0|] eqn:Hs0; [|apply Hw].
    destruct (Z.eq_dec q q') as [<-|Hne].
    + rewrite zget_set_same. intros [= <-]. exact (Hw q s0 Hs0).
    + rewrite zget_set_other by exact Hne. apply Hw.
  - now apply record_submission_world_ok.
  - intros q' s'. cbn [exec]. unfold get_current_active_question_id.
    rewrite refresh_questions. apply Hw.
  - intros q' s'. discriminate.
  - intros q' s'. cbn [exec]. rewrite add_team_questions.
    destruct (zget (active_questions w) q') as [s|] eqn:Hs; [|discriminate].
    cbn [option_map]. intros [= <-]. unfold add_team_session.
    pose proof (Hw q' s Hs) as Hok.
    destruct (smem (team_submissions s) t); [exact Hok|].
    cbn [team_submissions set_team_submissions].
    apply ledger_ok_set; [exact Hok | discriminate].
  - cbn [exec].
    destruct (task_resume_cases task st cap w clock)
      as [-> | (ts & tf & c & sc & ->)]; [exact Hw|].
    now apply record_submission_world_ok.
Qed.

Lemma run_world_ok (ops : list Op) (w : World) :
  world_ok w -> world_ok (run w ops).
Proof.
  revert w. induction ops as [|op ops IH]; intros w Hw; [exact Hw|].
  cbn [run fold_left]. apply IH. now apply exec_world_ok.
Qed.

Lemma reachable_world_ok (w : World) : reachable w -> world_ok w.
Proof.
  intros [ops ->]. apply run_world_ok. intros q s. discriminate.
Qed.

(** ** Leaderboard *)

Lemma Qlt_bool_iff (x y : Q) : Qlt_bool x y = true <-> (x < y)%Q.
Proof.
  unfold Qlt_bool. rewrite negb_true_iff. split.
  - intro H. apply Qnot_le_lt. intro Hle.
    apply Qle_bool_iff in Hle. congruence.
  - intro H. destruct (Qle_bool y x) eqn:E; [|reflexivity].
    apply Qle_bool_iff in E. lra.
Qed.

Lemma key_lt_iff (a b : Q * Q) :
  key_lt a b = true <->
  (fst a < fst b \/ (fst a == fst b /\ snd a < snd b))%Q.
Proof.
  unfold key_lt. destruct (Qeq_bool (fst a) (fst b)) eqn:E.
  - apply Qeq_bool_iff in E. rewrite Qlt_bool_iff. split; [auto|].
    intros [H | [_ H]]; [lra | exact H].
  - rewrite Qlt_bool_iff. split; [auto|].
    intros [H | [H _]]; [exact H|].
    apply Qeq_bool_iff in H. congruence.
Qed.

Lemma key_not_lt_iff (a b : Entry) :
  key_lt (sort_key b) (sort_key a) = false <-> ranks_before a b.
Proof.
  unfold ranks_before. rewrite <- not_true_iff_false, key_lt_iff.
  unfold sort_key. cbn [fst snd]. split.
  - intro H.
    destruct (Qlt_le_dec (entry_score b) (entry_score a)) as [Hlt|Hle];
      [now left|].
    right.
    assert (Heq : (entry_score a == entry_score b)%Q).
    { destruct (Qlt_le_dec (entry_score a) (entry_score b)) as [Hlt|Hge];
        [|lra]. exfalso. apply H. left. lra. }
    split; [exact Heq|].
    destruct (Qlt_le_dec (entry_time_taken b) (entry_time_taken a))
      as [Hlt|Hge]; [|exact Hge].
    exfalso. apply H. right. split; [lra | exact Hlt].
  - intros [H | [H1 H2]] [H' | [H1' H2']]; lra.
Qed.

Lemma ranks_before_trans (a b c : Entry) :
  ranks_before a b -> ranks_before b c -> ranks_before a c.
Proof. unfold ranks_before. intros [H | [H1 H2]] [H' | [H1' H2']]; lra. Qed.

Lemma ranks_before_total (a b : Entry) :
  key_lt (sort_key a) (sort_key b) = true -> ranks_before a b.
Proof.
  rewrite key_lt_iff. unfold ranks_before, sort_key. cbn [fst snd].
  intros [H | [H1 H2]]; lra.
Qed.

Lemma insert_entry_perm (x : Entry) (l : list Entry) :
  Permutation (x :: l) (insert_entry x l).
Proof.
  induction l as [|y l IH]; cbn [insert_entry]; [reflexivity|].
  destruct (key_lt (sort_key y) (sort_key x)); [|reflexivity].
  rewrite perm_swap. now apply perm_skip.
Qed.

Lemma sort_entries_perm (l : list Entry) : Permutation l (sort_entries l).
Proof.
  induction l as [|x l IH]; [reflexivity|].
  cbn [sort_entries fold_right]. fold (sort_entries l).
  rewrite <- insert_entry_perm. now apply perm_skip.
Qed.

Lemma insert_entry_sorted (x : Entry) (l : list Entry) :
  StronglySorted ranks_before l ->
  StronglySorted ranks_before (insert_entry x l).
Proof.
  induction 1 as [|y l Hs IH Hy]; cbn [insert_entry].
  - constructor; constructor.
  - destruct (key_lt (sort_key y) (sort_key x)) eqn:E.
    + constructor; [exact IH|].
      rewrite <- (insert_entry_perm x l).
      constructor; [now apply ranks_before_total | exact Hy].
    + apply key_not_lt_iff in E.
      constructor; [now constructor|].
      constructor; [exact E|].
      rewrite Forall_forall in Hy |- *.
      intros z Hz. apply (ranks_before_trans x y z); auto.
Qed.

Lemma sort_entries_sorted (l : list Entry) :
  StronglySorted ranks_before (sort_entries l).
Proof.
  induction l as [|x l IH]; [constructor|].
  cbn [sort_entries fold_right]. now apply insert_entry_sorted.
Qed.

Lemma add_ranks_entries (l : list Entry) (idx : Z) :
  map entry (add_ranks idx l) = l.
Proof.
  revert idx. induction l as [|e l IH]; intro idx; [reflexivity|].
  cbn [add_ranks map entry]. now rewrite IH.
Qed.

Lemma add_ranks_ranks (l : list Entry) (idx : Z) (i : nat) (r : Ranked) :
  nth_error (add_ranks idx l) i = Some r -> rank r = idx + Z.of_nat i + 1.
Proof.
  revert idx i. induction l as [|e l IH]; intros idx i.
  - destruct i; discriminate.
  - destruct i as [|i]; cbn [add_ranks nth_error].
    + intros [= <-]. cbn [rank]. lia.
    + intro H. apply IH in H. lia.
Qed.

Lemma collect_results_spec (session : QuestionSession)
    (items : list (string * TeamSubmission)) :
  (forall k v, In (k, v) items ->
               is_completed v = true -> first_correct_time v <> None) ->
  exists results,
    collect_results session items = Ok results /\
    (forall e, In e results <-> listed session items e) /\
    (forall tid, In tid (map entry_team_id results) ->
                 In tid (Dict.keys items)) /\
    (NoDup (Dict.keys items) -> NoDup (map entry_team_id results)).
Proof.
  induction items as [|[tid ts] items IH]; intro Hok.
  - exists []. split; [reflexivity|]. split; [|split].
    + intro e. split; [intros [] | intros (x & t & [] & _)].
    + intros tid [].
    + constructor.
  - destruct IH as (results & Hres & Hin & Hkeys & Hnd).
    { intros k v Hkv. apply (Hok k v). now right. }
    cbn [collect_results]. rewrite Hres.
    destruct (is_completed ts) eqn:Hc;
      [destruct (final_score ts) as [sc|] eqn:Hf|].
    + destruct (first_correct_time ts) as [t|] eqn:Ht.
      2:{ exfalso. apply (Hok tid ts); [now left | exact Hc | exact Ht]. }
      eexists. split; [reflexivity|]. split; [|split].
      * intro e. cbn [In]. rewrite Hin. split.
        -- intros [<- | (x & t' & Hx & Hrest)].
           ++ exists ts, t. cbn. repeat split; auto.
           ++ exists x, t'. split; [now right | exact Hrest].
        -- intros (x & t' & [[= Hk Hv] | Hx] & H1 & H2 & H3 & H4 & H5 & H6).
           ++ left. destruct e as [et es ett ec ew]. cbn in *.
              subst x et. rewrite Hf in H2. rewrite Ht in H3.
              injection H2 as <-. injection H3 as <-.
              now subst.
           ++ right. exists x, t'. repeat split; auto.
      * cbn [map entry_team_id Dict.keys fst]. intros k [<- | Hk];
          [now left | right; now apply Hkeys].
      * cbn [map entry_team_id Dict.keys fst]. intro H.
        inversion H as [|? ? Hnot Hnd']; subst.
        constructor; [|now apply Hnd].
        intro Hk. apply Hnot. now apply Hkeys.
    + exists results. split; [reflexivity|]. split; [|split].
      * intro e. rewrite Hin. split.
        -- intros (x & t' & Hx & Hrest). exists x, t'.
           split; [now right | exact Hrest].
        -- intros (x & t' & [[= Hk Hv] | Hx] & H1 & H2 & Hrest);
             [subst x; congruence|].
           exists x, t'. repeat split; auto; apply Hrest.
      * intros k Hk. right. now apply Hkeys.
      * intro H. inversion H; subst. now apply Hnd.
    + exists results. split; [reflexivity|]. split; [|split].
      * intro e. rewrite Hin. split.
        -- intros (x & t' & Hx & Hrest). exists x, t'.
           split; [now right | exact Hrest].
        -- intros (x & t' & [[= Hk Hv] | Hx] & H1 & Hrest);
             [subst x; congruence|].
           exists x, t'. repeat split; auto; apply Hrest.
      * intros k Hk. right. now apply Hkeys.
      * intro H. inversion H; subst. now apply Hnd.
Qed.

(** C4, as amended. In every reachable store the leaderboard of an existing
    session lists exactly the completed records with a score of the
    real-team ledger [team_submissions] (records of [fake_teams] are not
    read), each once, with [time_taken] the completion time less the start
    time rounded to two decimals; the list is ordered by score descending,
    then [time_taken] ascending, and the entry at position [i] has rank
    [i + 1].  In the example with scores 90, 90, 70 and times 5, 3, 2 the
    ranks are B (90, 3.00), A (90, 5.00), C (70, 2.00). *)
Theorem C4_leaderboard_real_teams :
  (forall (w : World) (qid : Z) (session : QuestionSession),
      reachable w ->
      get_question_session w qid = Some session ->
      exists rows,
        get_question_leaderboard w qid = Ok rows /\
        (forall e, In e (map entry rows) <-> on_board w qid session e) /\
        NoDup (map (fun r => entry_team_id (entry r)) rows) /\
        StronglySorted ranks_before (map entry rows) /\
        (forall i r, nth_error rows i = Some r ->
                     rank r = Z.of_nat i + 1)) /\
  get_question_leaderboard demo_world 1
  = Ok [ mkRanked (mkEntry "B" 90 (300 # 100) 1 0) 1;
         mkRanked (mkEntry "A" 90 (500 # 100) 1 0) 2;
         mkRanked (mkEntry "C" 70 (200 # 100) 1 0) 3 ].
Proof.
  split; [|vm_compute; reflexivity].
  intros w qid session Hreach Hs.
  unfold get_question_session in Hs.
  pose proof (reachable_world_ok w Hreach qid session Hs) as [Hnd Hok].
  destruct (collect_results_spec session (team_submissions session) Hok)
    as (results & Hres & Hin & _ & Hnd').
  exists (add_ranks 0 (sort_entries results)).
  unfold get_question_leaderboard. rewrite Hs, Hres.
  split; [reflexivity|].
  rewrite add_ranks_entries.
  split; [|split; [|split]].
  - intro e. transitivity (In e results).
    + split; apply Permutation_in;
        [symmetry|]; apply sort_entries_perm.
    + rewrite Hin. unfold listed, on_board, get_team_submission.
      rewrite Hs. split; intros (x & t & Hx & Hrest); exists x, t;
        (split; [|exact Hrest]).
      * now apply sIn_get.
      * now apply sget_In.
  - rewrite <- (map_map entry entry_team_id), add_ranks_entries.
    apply (Permutation_NoDup
             (l := map entry_team_id results)); [|now apply Hnd'].
    apply Permutation_map, sort_entries_perm.
  - apply sort_entries_sorted.
  - intros i r H. apply add_ranks_ranks in H. lia.
Qed.

(** The claim as stated fails: a completed synthetic team with a score is
    missing from the board, and a listed [time_taken] is the rounded, not
    the exact, difference of completion and start time. *)
Lemma C4_counterexample :
  (exists session team_sub,
      get_question_session demo_fake_world 1 = Some session /\
      sget (fake_teams session) "OpenAI" = Some team_sub /\
      is_completed team_sub = true /\
      final_score team_sub = Some 95%Q /\
      first_correct_time team_sub = Some 5%Q /\
      start_time session = 0%Q) /\
  get_question_leaderboard demo_fake_world 1
  = Ok [ mkRanked (mkEntry "A" 80 (33 # 100) 1 0) 1 ] /\
  ~ (33 # 100 == (1 # 3) - 0)%Q.
Proof.
  split; [|split].
  - eexists. eexists. vm_compute. repeat split; reflexivity.
  - vm_compute. reflexivity.
  - intro H. vm_compute in H. discriminate.
Qed.

(** ** Monitoring view *)

Lemma sum_Z_acc (l : list Z) (a : Z) :
  fold_left Z.add l a = a + fold_left Z.add l 0.
Proof.
  revert a. induction l as [|x l IH]; intro a; cbn [fold_left]; [lia|].
  rewrite (IH (a + x)), (IH (0 + x)). lia.
Qed.

Lemma count_submissions_spec (subs : list (string * TeamSubmission)) :
  count_submissions subs
  = Z.of_nat
      (list_sum (map (fun kv => List.length (submit_times (snd kv))) subs)).
Proof.
  unfold count_submissions, sum_Z, Dict.values.
  induction subs as [|[k v] subs IH]; [reflexivity|].
  cbn [map fold_left snd]. rewrite sum_Z_acc, IH.
  unfold list_sum. cbn [fold_right]. rewrite Nat2Z.inj_add. lia.
Qed.

Lemma count_completed_spec (subs : list (string * TeamSubmission)) :
  count_completed subs
  = Z.of_nat
      (List.length (filter (fun kv => is_completed (snd kv)) subs)).
Proof.
  unfold count_completed, sum_Z, Dict.values.
  induction subs as [|[k v] subs IH]; [reflexivity|].
  cbn [map filter snd]. destruct (is_completed v); [|exact IH].
  cbn [map fold_left List.length].
  rewrite sum_Z_acc, IH, Nat2Z.inj_succ. lia.
Qed.

Lemma status_rows_counts (w : World) (clock : nat -> Q)
    (items : list (Z * QuestionSession)) (i : nat) :
  status_counts (status_rows w clock i items) = map real_team_counts items.
Proof.
  revert i. induction items as [|[qid s] items IH]; intro i; [reflexivity|].
  cbn [status_rows status_counts map real_team_counts].
  cbn [status_question_id total_teams total_submissions completed_teams].
  rewrite count_submissions_spec, count_completed_spec.
  f_equal. apply IH.
Qed.

Lemma map_set_same_image {B : Type} (f : Z * QuestionSession -> B)
    (d : list (Z * QuestionSession)) (k : Z) (v v' : QuestionSession) :
  zget d k = Some v ->
  (forall k', f (k', v') = f (k', v)) ->
  map f (zset d k v') = map f d.
Proof.
  intros Hget Hf. induction d as [|[k0 v0] d IH]; [discriminate|].
  cbn [Dict.get Dict.set] in *. destruct (k0 =? k).
  - injection Hget as ->. cbn [map]. now rewrite Hf.
  - cbn [map]. now rewrite IH.
Qed.

(** C10. Every row of [get_all_sessions_status] takes [total_teams],
    [total_submissions] and [completed_teams] from the session's real-team
    ledger alone; a submission recorded for a synthetic team is stored in
    [fake_teams] and changes none of the three counts of any row. *)
Theorem C10_status_counts_real_teams_only (w : World)
    (clock clock' : nat -> Q) (t_submit t_first : Q) (qid : Z) (tid : string)
    (is_correct : bool) (score : option Q) (name sid : option string)
    (session : QuestionSession)
    (Hs : get_question_session w qid = Some session)
    (Hfake : smem (fake_teams session) tid = true) :
  let w' :=
    snd (record_submission w t_submit t_first qid tid is_correct score
           name sid) in
  status_counts (get_all_sessions_status w clock)
  = map real_team_counts (active_questions w) /\
  status_counts (get_all_sessions_status w' clock')
  = status_counts (get_all_sessions_status w clock) /\
  exists before after session',
    sget (fake_teams session) tid = Some before /\
    get_question_session w' qid = Some session' /\
    sget (fake_teams session') tid = Some after /\
    submit_times after = submit_times before ++ [t_submit] /\
    (is_correct = true -> is_completed after = true).
Proof.
  intro w'. unfold get_question_session in Hs.
  unfold get_all_sessions_status. rewrite !status_rows_counts.
  destruct (record_submission_ok w t_submit t_first qid tid is_correct score
              name sid session Hs) as (s' & Heq & _ & _ & _ & _ & Hled).
  unfold Dict.mem in Hfake. unfold addressed in Heq, Hled.
  destruct (sget (fake_teams session) tid) as [before|] eqn:Hb;
    [|discriminate].
  destruct Hled as [Hsubs Hfk].
  assert (Hw' : w' = put_session w qid s') by (subst w'; now rewrite Heq).
  split; [reflexivity|]. split.
  - rewrite Hw'. cbn [put_session active_questions].
    apply (map_set_same_image real_team_counts _ qid session s' Hs).
    intro k'. cbn [real_team_counts]. now rewrite Hsubs.
  - exists before,
      (apply_submission before t_submit t_first is_correct score), s'.
    split; [reflexivity|]. split.
    + rewrite Hw'. apply zget_put_same.
    + split; [rewrite Hfk; apply sget_set_same|].
      destruct (apply_submission_counts before t_submit t_first is_correct
                  score) as (Ht & _).
      split; [exact Ht|].
      intros ->. unfold apply_submission. cbn [negb].
      destruct (is_completed before) eqn:E; cbn; auto.
Qed.

(** ** Synthetic scheduling *)

Lemma initialize_fake_teams_keys (qid : Z) :
  Dict.keys (initialize_fake_teams qid) = TEAM_NAMES.
Proof. reflexivity. Qed.

Lemma initialize_fake_teams_records (qid : Z) (k : string)
    (v : TeamSubmission) :
  In (k, v) (initialize_fake_teams qid) ->
  v = new_team_submission k k None qid.
Proof.
  unfold initialize_fake_teams.
  assert (H : forall names d,
             (forall k v, In (k, v) d ->
                          v = new_team_submission k k None qid) ->
             forall k v,
               In (k, v)
                 (fold_left
                    (fun fake name =>
                       sset fake name
                         (new_team_submission name name None qid))
                    names d) ->
               v = new_team_submission k k None qid).
  { induction names as [|n names IH]; intros d Hd k0 v0; [apply Hd|].
    cbn [fold_left]. apply IH. intros k1 v1 Hin.
    apply sIn_set in Hin as [[= -> ->] | Hin]; [reflexivity | now apply Hd]. }
  apply H. intros k0 v0 [].
Qed.

(** Every synthetic team starts a question with a record without any
    submission. *)
Lemma initialize_fake_teams_blank (qid : Z) (name : string) :
  In name TEAM_NAMES ->
  sget (initialize_fake_teams qid) name
  = Some (new_team_submission name name None qid).
Proof.
  intro Hin. rewrite <- (initialize_fake_teams_keys qid) in Hin.
  destruct (sget (initialize_fake_teams qid) name) as [v|] eqn:Hv.
  - apply sget_In, initialize_fake_teams_records in Hv. now subst v.
  - apply (@get_None_keys _ _ _ String.eqb_eq) in Hv. contradiction.
Qed.

Lemma schedule_team_name (qid : Z) (session : QuestionSession)
    (rnd : string -> Samples) (name : string) (task : FakeTask) :
  schedule_team qid session rnd name = Some task ->
  task_team_name task = name /\ task_question_id task = qid.
Proof.
  unfold schedule_team.
  destruct (generate_submission_attempts (rnd name)) as [wrong correct].
  destruct ((wrong =? 0) && (correct =? 0));
    [destruct (String.eqb name SPECIAL_TEAM)|];
    try discriminate; intros [= <-]; auto.
Qed.

Lemma schedule_teams_In (qid : Z) (session : QuestionSession)
    (rnd : string -> Samples) (names : list string) (task : FakeTask) :
  In task (schedule_teams qid session rnd names) <->
  exists name,
    In name names /\ schedule_team qid session rnd name = Some task.
Proof.
  induction names as [|n names IH]; cbn [schedule_teams].
  - split; [intros [] | intros (n & [] & _)].
  - destruct (schedule_team qid session rnd n) as [t|] eqn:E.
    + cbn [In]. rewrite IH. split.
      * intros [<- | (m & Hm & Ht)]; [exists n | exists m]; auto.
      * intros (m & [<- | Hm] & Ht); [left; congruence | right; eauto].
    + rewrite IH. split.
      * intros (m & Hm & Ht). exists m. cbn [In]. auto.
      * intros (m & [<- | Hm] & Ht); [congruence | eauto].
Qed.

(** A task touches no record but its own team's. *)
Lemma task_resume_frame (task : FakeTask) (st : TaskState)
    (captured : QuestionSession) (w : World) (clock : nat -> Q) (q : Z)
    (tid : string) :
  task_team_name task <> tid ->
  ledger_entry (snd (task_resume task st captured w clock)) q tid
  = ledger_entry w q tid.
Proof.
  intro Hne.
  destruct (task_resume_cases task st captured w clock)
    as [-> | (ts & tf & c & sc & ->)]; [reflexivity|].
  destruct (zget (active_questions w) (task_question_id task)) as [s|] eqn:Hs.
  - pose proof (record_submission_entry w ts tf (task_question_id task)
                  (task_team_name task) c sc (Some (task_team_name task))
                  None s Hs) as (_ & Hframe & _).
    apply Hframe. right. congruence.
  - now rewrite record_submission_missing.
Qed.

(** An operation that keeps the session and does not submit for a team
    leaves the team's record as it is. *)
Lemma exec_entry_kept (w : World) (op : Op) (qid : Z) (tid : string)
    (ts : TeamSubmission) :
  restarts qid op = false ->
  submits_for qid tid op = false ->
  ledger_entry w qid tid = Some ts ->
  ledger_entry (exec w op) qid tid = Some ts.
Proof.
  intros Hr Hsub He.
  assert (Hrec : forall t_s t_f q t c sc n sd,
             (q =? qid) && String.eqb t tid = false ->
             ledger_entry
               (snd (record_submission w t_s t_f q t c sc n sd)) qid tid
             = ledger_entry w qid tid).
  { intros t_s t_f q t c sc n sd Hm.
    destruct (zget (active_questions w) q) as [s|] eqn:Hs.
    - pose proof (record_submission_entry w t_s t_f q t c sc n sd s Hs)
        as (_ & Hframe & _).
      apply Hframe. apply andb_false_iff in Hm as [Hm|Hm].
      + left. apply Z.eqb_neq in Hm. congruence.
      + right. apply String.eqb_neq in Hm. congruence.
    - now rewrite record_submission_missing. }
  rewrite <- He.
  destruct op as [now reg rnd q l b | clock q
                 | t_s t_f q t c sc n sd | clock | | t n sd
                 | task st cap clock]; cbn [submits_for] in Hsub.
  - apply ledger_entry_ext. cbn [restarts] in Hr. apply Z.eqb_neq in Hr.
    destruct (start_question_world w now reg rnd q l b) as (subs & _ & Hw).
    cbn [exec]. rewrite Hw. cbn [snd active_questions].
    now apply zget_set_other.
  - unfold ledger_entry. cbn [exec]. rewrite stop_question_questions.
    destruct (zget (active_questions w) q) as [s0|] eqn:Hs0; [|reflexivity].
    destruct (Z.eq_dec q qid) as [->|Hne].
    + now rewrite Hs0, zget_set_same.
    + now rewrite zget_set_other.
  - cbn [exec]. now apply Hrec.
  - apply ledger_entry_ext. cbn [exec].
    unfold get_current_active_question_id. now rewrite refresh_questions.
  - discriminate.
  - unfold ledger_entry in He |- *. cbn [exec]. rewrite add_team_questions.
    destruct (zget (active_questions w) qid) as [s|]; [|reflexivity].
    cbn [option_map]. unfold add_team_session, Dict.mem.
    destruct (sget (team_submissions s) t) as [x|] eqn:Hx; [reflexivity|].
    cbn [fake_teams team_submissions set_team_submissions].
    destruct (sget (fake_teams s) tid) as [y|]; [reflexivity|].
    destruct (string_dec t tid) as [Heq|Ht].
    + subst t. rewrite Hx in He. discriminate.
    + now rewrite sget_set_other.
  - cbn [exec].
    destruct (task_resume_cases task st cap w clock)
      as [Hw | (t_s & t_f & c & sc & Hw)]; rewrite Hw;
      [reflexivity | now apply Hrec].
Qed.

(** A run in which none of the scheduler's tasks belongs to a team, and
    nobody else submits for it, leaves the team's record as it is. *)
Lemma run_entry_kept (tasks : list FakeTask) (ops : list Op) (w : World)
    (qid : Z) (tid : string) (ts : TeamSubmission) :
  (forall task, In task tasks -> task_team_name task <> tid) ->
  Forall (scheduler_only tasks qid tid) ops ->
  ledger_entry w qid tid = Some ts ->
  ledger_entry (run w ops) qid tid = Some ts.
Proof.
  intros Hnone Hops. revert w.
  induction Hops as [|op ops [Hr Hop] _ IH]; intros w He; [exact He|].
  cbn [run fold_left]. apply IH. apply exec_entry_kept; auto.
  destruct op as [now reg rnd q l b | clock q
                 | t_s t_f q t c sc n sd | clock | | t n sd
                 | task st cap clock]; cbn [submits_for]; try reflexivity.
  - exact Hop.
  - apply andb_false_iff.
    destruct (Z.eqb_spec (task_question_id task) qid) as [Hq|Hq];
      [right | now left].
    apply String.eqb_neq. apply Hnone. now apply Hop.
Qed.

(** C8, as amended. When the draw of a synthetic team at a
    [start_question] is (0, 0): the sentinel team "0THING2LOSE" still gets
    a task, and that task carries one correct submission (with a score,
    after 5 seconds); any other team gets no task from this call.  So no
    task this call created changes the team's record, and the record stays
    without a submission over every run that keeps the session, in which
    the tasks resumed for the question are tasks of this call and no
    caller submits under the team's name.  Tasks left from an earlier start
    of the same question id are outside this statement. *)
Theorem C8_no_attempt_draws (w0 : World) (now : Q)
    (registry : list (string * RegInfo)) (rnd : string -> Samples)
    (qid limit buffer : Z) (name : string)
    (Hname : In name TEAM_NAMES)
    (Hdraw : generate_submission_attempts (rnd name) = (0, 0)) :
  exists session tasks,
    start_question w0 now registry rnd qid limit buffer
    = (Ok (session, tasks),
       mkWorld (zset (active_questions w0) qid session) (Some qid)) /\
    start_fake_team_submissions
      (snd (start_question w0 now registry rnd qid limit buffer)) rnd qid
    = Ok tasks /\
    (name = "0THING2LOSE" ->
     exists task,
       In task tasks /\
       task = mkFakeTask qid "0THING2LOSE" 5 0 1
                (Some (py_round (uniform 90 99 (u_score (rnd name))) 1)) /\
       0 < task_correct_count task /\
       forall task', In task' tasks ->
                     task_team_name task' = "0THING2LOSE" -> task' = task) /\
    (name <> "0THING2LOSE" ->
     (forall task, In task tasks -> task_team_name task <> name) /\
     (forall task st captured w clock q,
         In task tasks ->
         ledger_entry (snd (task_resume task st captured w clock)) q name
         = ledger_entry w q name) /\
     (forall ops,
         Forall (scheduler_only tasks qid name) ops ->
         exists team_sub,
           ledger_entry
             (run (snd (start_question w0 now registry rnd qid limit
                          buffer)) ops) qid name
           = Some team_sub /\
           blank team_sub)).
Proof.
  destruct (start_question_world w0 now registry rnd qid limit buffer)
    as (subs & _ & He).
  cbn zeta in He. cbn [fake_teams] in He.
  rewrite initialize_fake_teams_keys in He.
  set (session := mkQuestionSession qid now limit buffer true subs
                    (initialize_fake_teams qid)) in *.
  exists session, (schedule_teams qid session rnd TEAM_NAMES).
  split; [exact He|]. split.
  { rewrite He. cbn [snd]. unfold start_fake_team_submissions.
    cbn [active_questions]. rewrite zget_set_same.
    cbn [fake_teams session]. now rewrite initialize_fake_teams_keys. }
  split.
  - intros ->.
    assert (Hs : schedule_team qid session rnd "0THING2LOSE"
                 = Some (mkFakeTask qid "0THING2LOSE" 5 0 1
                           (Some (py_round
                                    (uniform 90 99
                                       (u_score (rnd "0THING2LOSE"))) 1)))).
    { unfold schedule_team. rewrite Hdraw. reflexivity. }
    eexists. split; [|split; [reflexivity|split; [reflexivity|]]].
    + apply schedule_teams_In. exists "0THING2LOSE". auto.
    + intros task' Hin Hn. apply schedule_teams_In in Hin as (m & _ & Hm).
      destruct (schedule_team_name qid session rnd m task' Hm) as [Hm' _].
      rewrite Hn in Hm'. subst m. congruence.
  - intro Hne.
    assert (Hnone : forall task, In task (schedule_teams qid session rnd
                                            TEAM_NAMES) ->
                                 task_team_name task <> name).
    { intros task Hin Hn. apply schedule_teams_In in Hin as (m & _ & Hm).
      destruct (schedule_team_name qid session rnd m task Hm) as [Hm' _].
      rewrite Hn in Hm'. subst m.
      unfold schedule_team in Hm. rewrite Hdraw in Hm.
      apply String.eqb_neq in Hne. unfold SPECIAL_TEAM in Hm.
      rewrite Hne in Hm. discriminate. }
    split; [exact Hnone|]. split.
    + intros task st captured w clock q Hin.
      apply task_resume_frame. now apply Hnone.
    + intros ops Hops.
      exists (new_team_submission name name None qid).
      split; [|unfold blank; cbn; auto 6].
      apply (run_entry_kept _ _ _ _ _ _ Hnone Hops).
      rewrite He. unfold ledger_entry. cbn [snd active_questions].
      rewrite zget_set_same. cbn [fake_teams session].
      now rewrite (initialize_fake_teams_blank qid name Hname).
Qed.

(** The claim as stated fails: question 1 is started at time 0, where
    "OpenAI" draws (1, 1) and gets a task with a delay of 6 seconds, and
    started again at time 2, where "OpenAI" draws (0, 0) and gets no task.
    The task of the first start wakes at time 6, finds the new session
    under its question id and records a wrong attempt in it, and at time 9
    a correct one: the scheduler has recorded two submissions for the team
    in the session whose draw was (0, 0). *)
Lemma C8_counterexample :
  In demo_leftover_task
    match fst demo_first_start with
    | Ok (_, tasks) => tasks
    | Raise _ => []
    end /\
  "OpenAI" <> "0THING2LOSE" /\
  generate_submission_attempts (quiet_rnd "OpenAI") = (0, 0) /\
  exists session tasks session' team_sub,
    fst demo_restart = Ok (session, tasks) /\
    get_question_session (snd demo_restart) 1 = Some session /\
    (forall task, In task tasks -> task_team_name task <> "OpenAI") /\
    fst demo_leftover_woken = Paused 1 /\
    fst demo_leftover_done = Finished /\
    get_question_session (snd demo_leftover_done) 1 = Some session' /\
    start_time session' = start_time session /\
    start_time session = 2%Q /\
    sget (fake_teams session') "OpenAI" = Some team_sub /\
    submit_times team_sub = [6%Q; 9%Q] /\
    wrong_count team_sub = 1 /\
    correct_count team_sub = 1 /\
    is_completed team_sub = true /\
    final_score team_sub = task_score demo_leftover_task /\
    (task_delay demo_leftover_task == 6)%Q /\
    (generate_weighted_score (busy_rnd "OpenAI") == 80)%Q.
Proof.
  split; [vm_compute; tauto|].
  split; [discriminate|]. split; [reflexivity|].
  do 4 eexists.
  split; [vm_compute; reflexivity|].
  split; [vm_compute; reflexivity|].
  split.
  { intros task [<- | []]. discriminate. }
  repeat split; vm_compute; reflexivity.
Qed.

(** ** The cached active question *)

(** C7, failing input. Question 0 was started last, is cached and is still
    active at time 11, yet [get_current_active_question_id] answers 1 and
    caches 1: the truthiness test of the cached id reads 0 as no id, and the
    scan prefers the larger id among equal start times. *)
Theorem C7_cached_zero_is_dropped :
  current_active_question_id demo_tie_world = Some 0 /\
  is_question_active demo_tie_world 11 0 = true /\
  fst (get_current_active_question_id demo_tie_world (fun _ => 11%Q))
  = Some 1 /\
  current_active_question_id
    (snd (get_current_active_question_id demo_tie_world (fun _ => 11%Q)))
  = Some 1.
Proof. vm_compute. repeat split; reflexivity. Qed.

(** What does hold of [_refresh_active_question_id]. *)

Lemma refresh_cached_kept (w : World) (clock : nat -> Q) (c : Z) :
  current_active_question_id w = Some c ->
  c <> 0 ->
  is_question_active w (clock O) c = true ->
  _refresh_active_question_id w clock = (Some c, w).
Proof.
  intros Hc Hnz Ha. unfold _refresh_active_question_id.
  rewrite Hc. cbn [truthy_int]. apply Z.eqb_neq in Hnz.
  now rewrite Hnz, Ha.
Qed.

Lemma candidate_lt_iff (a b : Q * Z) :
  candidate_lt a b = true <->
  ((fst a < fst b)%Q \/ ((fst a == fst b)%Q /\ snd a < snd b)).
Proof.
  unfold candidate_lt. destruct (Qeq_bool (fst a) (fst b)) eqn:E.
  - apply Qeq_bool_iff in E. rewrite Z.ltb_lt. split; [auto|].
    intros [H | [_ H]]; [lra | exact H].
  - rewrite Qlt_bool_iff. split; [auto|].
    intros [H | [H _]]; [exact H|].
    apply Qeq_bool_iff in H. congruence.
Qed.

Lemma candidate_not_lt (a b : Q * Z) :
  candidate_lt a b = false -> candidate_ge a b.
Proof.
  intro H. apply not_true_iff_false in H. rewrite candidate_lt_iff in H.
  unfold candidate_ge.
  destruct (Qlt_le_dec (fst b) (fst a)) as [Hlt|Hle]; [now left|].
  right.
  destruct (Qlt_le_dec (fst a) (fst b)) as [Hlt'|Hge];
    [exfalso; apply H; now left|].
  split; [lra|].
  destruct (Z_lt_le_dec (snd a) (snd b)) as [Hz|Hz]; [|exact Hz].
  exfalso. apply H. right. split; [lra | exact Hz].
Qed.

Lemma candidate_ge_trans (a b c : Q * Z) :
  candidate_ge a b -> candidate_ge b c -> candidate_ge a c.
Proof.
  unfold candidate_ge.
  intros [H | [H1 H2]] [H' | [H1' H2']];
    try (left; lra). right. split; [lra | lia].
Qed.

Lemma py_max_spec (rest : list (Q * Z)) (first : Q * Z) :
  In (py_max first rest) (first :: rest) /\
  forall x, In x (first :: rest) -> candidate_ge (py_max first rest) x.
Proof.
  unfold py_max. revert first.
  induction rest as [|y rest IH]; intro first; cbn [fold_left].
  - split; [now left|]. intros x [<- | []].
    unfold candidate_ge. right. split; [lra | lia].
  - destruct (candidate_lt first y) eqn:E.
    + destruct (IH y) as [Hin Hge]. split.
      * right. exact Hin.
      * intros x [<- | Hx]; [|now apply Hge].
        apply (candidate_ge_trans _ y); [apply Hge; now left|].
        apply candidate_lt_iff in E. unfold candidate_ge.
        destruct E as [E | [E1 E2]]; [now left | right; split; [lra|lia]].
    + destruct (IH first) as [Hin Hge]. split.
      * destruct Hin as [Hin | Hin]; [now left | right; now right].
      * intros x [<- | [<- | Hx]].
        -- apply Hge. now left.
        -- apply (candidate_ge_trans _ first); [apply Hge; now left|].
           now apply candidate_not_lt.
        -- apply Hge. now right.
Qed.

Lemma active_candidates_In (w : World) (clock : nat -> Q)
    (items : list (Z * QuestionSession)) (i : nat) (c : Q * Z) :
  In c (active_candidates w clock i items) <->
  exists j session,
    nth_error items j = Some (snd c, session) /\
    fst c = start_time session /\
    is_question_active w (clock (i + j)%nat) (snd c) = true.
Proof.
  revert i. induction items as [|[q s] items IH]; intro i.
  - split; [intros [] | intros ([|j] & s & H & _); discriminate].
  - cbn [active_candidates].
    assert (Hshift : forall j, clock (S i + j)%nat = clock (i + S j)%nat)
      by (intro j; f_equal; lia).
    destruct (is_question_active w (clock i) q) eqn:E.
    + cbn [In]. rewrite IH. split.
      * intros [<- | (j & s' & H1 & H2 & H3)].
        -- exists O, s. cbn [nth_error snd fst].
           rewrite Nat.add_0_r. auto.
        -- exists (S j), s'. rewrite <- Hshift. auto.
      * intros ([|j] & s' & H1 & H2 & H3).
        -- left. cbn [nth_error] in H1. injection H1 as -> ->.
           destruct c; cbn in *. congruence.
        -- right. exists j, s'. rewrite Hshift. auto.
    + rewrite IH. split.
      * intros (j & s' & H1 & H2 & H3).
        exists (S j), s'. rewrite <- Hshift. auto.
      * intros ([|j] & s' & H1 & H2 & H3).
        -- cbn [nth_error] in H1. injection H1 as -> ->.
           rewrite Nat.add_0_r in H3. congruence.
        -- exists j, s'. rewrite Hshift. auto.
Qed.

(** When the cached id is absent, zero or inactive, the scan answers with
    and caches an active session that no active session exceeds in
    [(start_time, qid)], or nothing when no session is active. *)
Lemma refresh_scan (w : World) (clock : nat -> Q) :
  (truthy_int (current_active_question_id w)
   && match current_active_question_id w with
      | Some c => is_question_active w (clock O) c
      | None => false
      end = false) ->
  let r := _refresh_active_question_id w clock in
  snd r = set_current w (fst r) /\
  match fst r with
  | Some qid =>
      exists i session,
        nth_error (active_questions w) i = Some (qid, session) /\
        is_question_active w (clock (S i)) qid = true /\
        forall j qid' session',
          nth_error (active_questions w) j = Some (qid', session') ->
          is_question_active w (clock (S j)) qid' = true ->
          candidate_ge (start_time session, qid) (start_time session', qid')
  | None =>
      forall j qid' session',
        nth_error (active_questions w) j = Some (qid', session') ->
        is_question_active w (clock (S j)) qid' = false
  end.
Proof.
  intros Hc r. subst r. unfold _refresh_active_question_id. rewrite Hc.
  destruct (active_candidates w clock 1 (active_questions w))
    as [|first rest] eqn:E.
  - cbn [fst snd]. split; [reflexivity|].
    intros j q' s' Hj.
    destruct (is_question_active w (clock (S j)) q') eqn:Ha; [|reflexivity].
    assert (Hin : In (start_time s', q')
                    (active_candidates w clock 1 (active_questions w))).
    { apply active_candidates_In. exists j, s'. cbn [fst snd]. auto. }
    rewrite E in Hin. destruct Hin.
  - cbn [fst snd]. split; [reflexivity|].
    destruct (py_max_spec rest first) as [Hin Hge].
    rewrite <- E in Hin.
    apply active_candidates_In in Hin as (i & s & H1 & H2 & H3).
    exists i, s. split; [exact H1|]. split; [exact H3|].
    intros j q' s' Hj Ha.
    assert (Hin' : In (start_time s', q') (first :: rest)).
    { rewrite <- E. apply active_candidates_In. exists j, s'.
      cbn [fst snd]. auto. }
    apply Hge in Hin'. rewrite <- H2.
    now destruct (py_max first rest).
Qed.

(** ** Instances on the concrete runs *)

Lemma C1_first_correct_wins_witness :
  forallb (fun op => negb (correct_for 1 "A" op)) demo_before = true /\
  forallb (fun op => negb (restarts 1 op)) demo_before = true /\
  forallb (fun op => negb (restarts 1 op)) demo_between = true /\
  let w1 := run demo_started demo_before in
  let r1 :=
    record_submission w1 3 (31 # 10) 1 "A" true (Some 90%Q) None None in
  let w2 := run (snd r1) demo_between in
  let r2 :=
    record_submission w2 7 (71 # 10) 1 "A" true (Some 50%Q) None None in
  exists first before second,
    fst r1 = Ok first /\
    is_completed first = true /\
    first_correct_time first = Some (31 # 10)%Q /\
    final_score first = Some 90%Q /\
    ledger_entry w2 1 "A" = Some before /\
    fst r2 = Ok second /\
    correct_count second = correct_count before + 1 /\
    is_completed second = true /\
    final_score second = final_score first /\
    first_correct_time second = first_correct_time first.
Proof.
  split; [reflexivity|]. split; [reflexivity|]. split; [reflexivity|].
  apply (C1_first_correct_wins empty_world 0 demo_registry demo_rnd 1 300 10
           "A" demo_before demo_between 3 (31 # 10) 7 (71 # 10)
           (Some 90%Q) (Some 50%Q) None None None None);
    reflexivity.
Defined.

Lemma C3_permanent_inactivity_witness :
  forallb (fun op => negb (starts 1 op)) demo_between = true /\
  (forall clock t',
      is_question_active (run (stop_question demo_started clock 1)
                            demo_between) t' 1 = false) /\
  (forall t t',
      (t <= t')%Q ->
      is_question_active demo_started t 1 = false ->
      is_question_active (run demo_started demo_between) t' 1 = false) /\
  (forall session t t',
      get_question_session demo_started 1 = Some session ->
      (t - start_time session
       > inject_Z (time_limit session) + inject_Z (buffer_time session))%Q ->
      (t <= t')%Q ->
      is_question_active (run demo_started demo_between) t' 1 = false).
Proof.
  split; [reflexivity|].
  apply (C3_permanent_inactivity demo_started 1 demo_between). reflexivity.
Defined.

Lemma demo_world_session :
  get_question_session demo_world 1 = Some demo_session.
Proof. vm_compute. reflexivity. Qed.

Lemma C4_leaderboard_real_teams_witness :
  reachable demo_world /\
  get_question_session demo_world 1 = Some demo_session /\
  exists rows,
    get_question_leaderboard demo_world 1 = Ok rows /\
    (forall e, In e (map entry rows) <-> on_board demo_world 1 demo_session e) /\
    NoDup (map (fun r => entry_team_id (entry r)) rows) /\
    StronglySorted ranks_before (map entry rows) /\
    (forall i r, nth_error rows i = Some r -> rank r = Z.of_nat i + 1).
Proof.
  assert (Hr : reachable demo_world) by (exists demo_ops; reflexivity).
  split; [exact Hr|]. split; [exact demo_world_session|].
  exact (proj1 C4_leaderboard_real_teams demo_world 1 demo_session Hr
           demo_world_session).
Defined.

Lemma C5_record_submission_effect_witness :
  get_question_session demo_started 1 = Some demo_started_session /\
  exists team_sub' w',
    record_submission demo_started 3 (31 # 10) 1 "A" true (Some 90%Q)
      (Some "Alpha Prime") (Some "other-session")
    = (Ok team_sub', w') /\
    ledger_entry w' 1 "A" = Some team_sub' /\
    submit_times team_sub' = [3%Q] /\
    wrong_count team_sub' = 0 /\
    correct_count team_sub' = 1 /\
    team_name team_sub' = "Alpha" /\
    team_session_id team_sub' = Some "session-a".
Proof.
  assert (Hs : get_question_session demo_started 1
               = Some demo_started_session)
    by apply start_question_session.
  split; [exact Hs|].
  destruct (C5_record_submission_effect demo_started 3 (31 # 10) 1 "A" true
              (Some 90%Q) (Some "Alpha Prime") (Some "other-session")
              demo_started_session Hs)
    as (ts & w' & H1 & H2 & H3 & H4 & H5 & _ & H6).
  destruct (H6 eq_refl) as (H7 & H8 & _).
  exists ts, w'. repeat split; auto.
Defined.

Lemma C8_no_attempt_draws_witness :
  In "OpenAI" TEAM_NAMES /\
  generate_submission_attempts (quiet_rnd "OpenAI") = (0, 0) /\
  exists session tasks,
    fst (start_question empty_world 0 [] quiet_rnd 1 300 10)
    = Ok (session, tasks) /\
    (forall task, In task tasks -> task_team_name task <> "OpenAI") /\
    Forall (scheduler_only tasks 1 "OpenAI") demo_between /\
    exists team_sub,
      ledger_entry
        (run (snd (start_question empty_world 0 [] quiet_rnd 1 300 10))
           demo_between) 1 "OpenAI"
      = Some team_sub /\
      blank team_sub.
Proof.
  assert (Hin : In "OpenAI" TEAM_NAMES).
  { unfold TEAM_NAMES. repeat (first [left; reflexivity | right]). }
  split; [exact Hin|]. split; [reflexivity|].
  destruct (C8_no_attempt_draws empty_world 0 [] quiet_rnd 1 300 10 "OpenAI"
              Hin eq_refl)
    as (session & tasks & H1 & _ & _ & H2).
  assert (Hne : "OpenAI" <> "0THING2LOSE") by discriminate.
  destruct (H2 Hne) as (H3 & _ & H4).
  assert (Hops : Forall (scheduler_only tasks 1 "OpenAI") demo_between).
  { unfold demo_between, scheduler_only.
    repeat constructor. }
  exists session, tasks. split; [now rewrite H1|].
  split; [exact H3|]. split; [exact Hops|].
  exact (H4 demo_between Hops).
Defined.

Lemma C9_reset_all_questions_witness :
  forallb (fun op => negb (is_start op)) demo_between = true /\
  fst (reset_all_questions demo_world) = 1 /\
  (forall qid,
      get_question_session
        (run (snd (reset_all_questions demo_world)) demo_between) qid
      = None) /\
  (forall clock,
      fst (get_current_active_question_id
             (run (snd (reset_all_questions demo_world)) demo_between) clock)
      = None).
Proof.
  split; [reflexivity|].
  destruct (C9_reset_all_questions demo_world demo_between eq_refl)
    as (H1 & _ & _ & _ & H2 & H3).
  repeat split; auto.
Defined.

Lemma C10_status_counts_real_teams_only_witness :
  get_question_session demo_started 1 = Some demo_started_session /\
  smem (fake_teams demo_started_session) "OpenAI" = true /\
  forall clock clock',
    status_counts
      (get_all_sessions_status
         (snd (record_submission demo_started 5 5 1 "OpenAI" true
                 (Some 95%Q) (Some "OpenAI") None)) clock')
    = status_counts (get_all_sessions_status demo_started clock).
Proof.
  assert (Hs : get_question_session demo_started 1
               = Some demo_started_session)
    by apply start_question_session.
  split; [exact Hs|]. split; [reflexivity|].
  intros clock clock'.
  apply (C10_status_counts_real_teams_only demo_started clock clock' 5 5 1
           "OpenAI" true (Some 95%Q) (Some "OpenAI") None
           demo_started_session Hs eq_refl).
Defined.

(** * Further properties of the code *)

(** ** More on dictionaries *)

Section DictKeys.
Variables K V : Type.
Variable eqb : K -> K -> bool.
Hypothesis eqb_eq : forall a b, eqb a b = true <-> a = b.

Lemma get_Some_keys_gen (d : list (K * V)) (k : K) (v : V) :
  Dict.get eqb d k = Some v -> In k (Dict.keys d).
Proof.
  intro H. apply (@get_In _ _ _ eqb_eq) in H.
  change k with (fst (k, v)). now apply in_map.
Qed.

Lemma keys_set_present_gen (d : list (K * V)) (k : K) (v : V) :
  In k (Dict.keys d) -> Dict.keys (Dict.set eqb d k v) = Dict.keys d.
Proof.
  induction d as [|[k0 v0] d IH]; simpl; [tauto|].
  destruct (eqb k0 k) eqn:E; simpl; [reflexivity|].
  intros [H | H].
  - subst. now rewrite (@eqb_refl_true _ _ eqb_eq) in E.
  - now rewrite IH.
Qed.

Lemma keys_set_absent_gen (d : list (K * V)) (k : K) (v : V) :
  ~ In k (Dict.keys d) -> Dict.keys (Dict.set eqb d k v) = Dict.keys d ++ [k].
Proof.
  induction d as [|[k0 v0] d IH]; simpl; [reflexivity|].
  intro Hnot. destruct (eqb k0 k) eqn:E; simpl.
  - apply eqb_eq in E. exfalso. auto.
  - rewrite IH; auto.
Qed.

(** Storing the value a key already has changes nothing. *)
Lemma set_same_value (d : list (K * V)) (k : K) (v : V) :
  Dict.get eqb d k = Some v -> Dict.set eqb d k v = d.
Proof.
  induction d as [|[k0 v0] d IH]; simpl; [discriminate|].
  destruct (eqb k0 k) eqn:E.
  - now intros [= ->].
  - intro H. now rewrite IH.
Qed.
End DictKeys.

(** ** Randomised behaviour *)

Lemma round_half_even_ge (x : Q) (n : Z) :
  (inject_Z n <= x)%Q -> n <= round_half_even x.
Proof.
  intro H. apply Qfloor_resp_le in H. rewrite Qfloor_Z in H.
  unfold round_half_even.
  destruct (Qcompare (x - inject_Z (Qfloor x)) (1 # 2));
    [destruct (Z.even (Qfloor x))| |]; lia.
Qed.

Lemma round_half_even_le (x : Q) (m : Z) :
  (x <= inject_Z m)%Q -> round_half_even x <= m.
Proof.
  intro H. pose proof (Qfloor_resp_le _ _ H) as Hf. rewrite Qfloor_Z in Hf.
  unfold round_half_even.
  destruct (Z.eq_dec (Qfloor x) m) as [Heq|Hne].
  - assert (Hx : (x - inject_Z (Qfloor x) < 1 # 2)%Q).
    { pose proof (Qfloor_le x) as Hl. rewrite Heq in *. lra. }
    destruct (Qcompare (x - inject_Z (Qfloor x)) (1 # 2)) eqn:E.
    + apply Qeq_alt in E. lra.
    + lia.
    + apply Qgt_alt in E. lra.
  - destruct (Qcompare (x - inject_Z (Qfloor x)) (1 # 2));
      [destruct (Z.even (Qfloor x))| |]; lia.
Qed.

(** Rounding to one decimal keeps a value between two integer bounds. *)
Lemma py_round_1_bounds (q : Q) (a b : Z) :
  (inject_Z a <= q <= inject_Z b)%Q ->
  (inject_Z a <= py_round q 1 <= inject_Z b)%Q.
Proof.
  intros [Ha Hb]. unfold py_round.
  change (Z.pow 10 (Z.of_nat 1)) with 10.
  change (Z.to_pos 10) with 10%positive.
  assert (H1 : 10 * a <= round_half_even (q * inject_Z 10)).
  { apply round_half_even_ge. rewrite inject_Z_mult.
    change (inject_Z 10) with 10%Q. lra. }
  assert (H2 : round_half_even (q * inject_Z 10) <= 10 * b).
  { apply round_half_even_le. rewrite inject_Z_mult.
    change (inject_Z 10) with 10%Q. lra. }
  set (n := round_half_even (q * inject_Z 10)) in *. clearbody n.
  unfold Qle, inject_Z. cbn [Qnum Qden]. lia.
Qed.

Lemma uniform_bounds (a b u : Q) :
  (a <= b)%Q -> (0 <= u <= 1)%Q -> (a <= uniform a b u <= b)%Q.
Proof. unfold uniform. intros Hab [H0 H1]. split; nra. Qed.

(** Helper bounds shared by the statements on the generators and on the
    scheduler. *)
Lemma weighted_band (a b : Z) (u : Q) :
  a <= b -> (0 <= u <= 1)%Q ->
  (inject_Z a <= py_round (uniform (inject_Z a) (inject_Z b) u) 1
   <= inject_Z b)%Q.
Proof.
  intros Hab Hu. apply py_round_1_bounds, uniform_bounds; [|exact Hu].
  rewrite <- Zle_Qle. exact Hab.
Qed.

Lemma generate_weighted_score_range (r : Samples) :
  (0 <= u_score r <= 1)%Q -> (0 <= generate_weighted_score r <= 100)%Q.
Proof.
  intro Hu.
  pose proof (weighted_band 80 100 _ ltac:(lia) Hu) as H1.
  pose proof (weighted_band 60 80 _ ltac:(lia) Hu) as H2.
  pose proof (weighted_band 40 60 _ ltac:(lia) Hu) as H3.
  pose proof (weighted_band 0 40 _ ltac:(lia) Hu) as H4.
  unfold inject_Z in H1, H2, H3, H4. unfold generate_weighted_score.
  destruct (Qlt_bool (u_band r) (10 # 100));
    [|destruct (Qlt_bool (u_band r) (40 # 100));
      [|destruct (Qlt_bool (u_band r) (75 # 100))]]; lra.
Qed.

Lemma generate_submission_attempts_counts (r : Samples) :
  2 <= n_2_3 r <= 3 -> 1 <= n_1_3 r <= 3 ->
  0 <= fst (generate_submission_attempts r) <= 3 /\
  (snd (generate_submission_attempts r) = 0 \/
   snd (generate_submission_attempts r) = 1).
Proof.
  intros H23 H13. unfold generate_submission_attempts.
  destruct (negb (should_submit r)); [cbn; split; [lia | now left]|].
  destruct (Qlt_bool (u_kind r) (60 # 100));
    [|destruct (Qlt_bool (u_kind r) (85 # 100));
      [|destruct (Qlt_bool (u_kind r) (95 # 100))]];
    cbn [fst snd]; split; auto; lia.
Qed.

Lemma generate_submit_delay_window (limit : Q) (r : Samples) :
  (0 <= u_delay r <= 1)%Q -> (1 <= limit)%Q ->
  (1 # 2 <= generate_submit_delay limit r <= limit * (6 # 10))%Q.
Proof.
  intros [Hu0 Hu1] Hl. unfold generate_submit_delay, py_max2, uniform.
  destruct (Qle_bool limit 0) eqn:E0;
    [apply Qle_bool_iff in E0; lra|].
  destruct (Qlt_bool (1 # 2) (limit * (2 # 100))) eqn:E1;
    [apply Qlt_bool_iff in E1
    |apply not_true_iff_false in E1; rewrite Qlt_bool_iff in E1];
    match goal with
    | |- context [Qlt_bool ?a ?b] =>
        destruct (Qlt_bool a b) eqn:E2;
        [apply Qlt_bool_iff in E2
        |apply not_true_iff_false in E2; rewrite Qlt_bool_iff in E2]
    end; split; try lra; nra.
Qed.

(** [generate_weighted_score]: the score lies in the band chosen by the
    first random number, hence between 0 and 100. *)
Theorem generate_weighted_score_bands (r : Samples)
    (Hu : (0 <= u_score r <= 1)%Q) :
  let score := generate_weighted_score r in
  (0 <= score <= 100)%Q /\
  ((u_band r < 10 # 100)%Q -> (80 <= score <= 100)%Q) /\
  ((10 # 100 <= u_band r)%Q -> (u_band r < 40 # 100)%Q ->
   (60 <= score <= 80)%Q) /\
  ((40 # 100 <= u_band r)%Q -> (u_band r < 75 # 100)%Q ->
   (40 <= score <= 60)%Q) /\
  ((75 # 100 <= u_band r)%Q -> (0 <= score <= 40)%Q).
Proof.
  pose proof (weighted_band 80 100 _ ltac:(lia) Hu) as H1.
  pose proof (weighted_band 60 80 _ ltac:(lia) Hu) as H2.
  pose proof (weighted_band 40 60 _ ltac:(lia) Hu) as H3.
  pose proof (weighted_band 0 40 _ ltac:(lia) Hu) as H4.
  unfold inject_Z in H1, H2, H3, H4.
  cbn zeta. unfold generate_weighted_score.
  destruct (Qlt_bool (u_band r) (10 # 100)) eqn:E1;
    [|destruct (Qlt_bool (u_band r) (40 # 100)) eqn:E2;
      [|destruct (Qlt_bool (u_band r) (75 # 100)) eqn:E3]];
    repeat match goal with
      | H : Qlt_bool _ _ = true |- _ => apply Qlt_bool_iff in H
      | H : Qlt_bool _ _ = false |- _ =>
          apply not_true_iff_false in H; rewrite Qlt_bool_iff in H
      end;
    repeat split; intros; lra.
Qed.

Lemma generate_weighted_score_bands_witness :
  (0 <= u_score (mkSamples 0 0 2 1 (1 # 2) (1 # 3) 0) <= 1)%Q /\
  (40 <= generate_weighted_score (mkSamples 0 0 2 1 (1 # 2) (1 # 3) 0)
   <= 60)%Q.
Proof.
  assert (Hu : (0 <= u_score (mkSamples 0 0 2 1 (1 # 2) (1 # 3) 0) <= 1)%Q)
    by (cbn; lra).
  split; [exact Hu|].
  destruct (generate_weighted_score_bands _ Hu) as (_ & _ & _ & H & _).
  apply H; cbn; lra.
Defined.

(** [generate_submission_attempts]: at most three wrong attempts and at
    most one correct one, and "no attempt at all" exactly when
    [should_submit] says no. *)
Theorem generate_submission_attempts_range (r : Samples)
    (H23 : 2 <= n_2_3 r <= 3) (H13 : 1 <= n_1_3 r <= 3) :
  let '(wrong, correct) := generate_submission_attempts r in
  0 <= wrong <= 3 /\
  (correct = 0 \/ correct = 1) /\
  (wrong = 0 /\ correct = 0 <-> should_submit r = false) /\
  (correct = 0 -> should_submit r = true -> 1 <= wrong).
Proof.
  unfold generate_submission_attempts.
  destruct (should_submit r); cbn [negb].
  - destruct (Qlt_bool (u_kind r) (60 # 100));
      [|destruct (Qlt_bool (u_kind r) (85 # 100));
        [|destruct (Qlt_bool (u_kind r) (95 # 100))]];
      repeat split; try lia; try (intros [? ?]; lia); try discriminate;
      auto.
  - repeat split; try lia; auto.
Qed.

Lemma generate_submission_attempts_range_witness :
  2 <= n_2_3 (mkSamples 0 (9 # 10) 3 1 0 0 0) <= 3 /\
  1 <= n_1_3 (mkSamples 0 (9 # 10) 3 1 0 0 0) <= 3 /\
  generate_submission_attempts (mkSamples 0 (9 # 10) 3 1 0 0 0) = (3, 1).
Proof.
  assert (H23 : 2 <= n_2_3 (mkSamples 0 (9 # 10) 3 1 0 0 0) <= 3)
    by (cbn; lia).
  assert (H13 : 1 <= n_1_3 (mkSamples 0 (9 # 10) 3 1 0 0 0) <= 3)
    by (cbn; lia).
  split; [exact H23|]. split; [exact H13|].
  pose proof (generate_submission_attempts_range _ H23 H13) as H.
  destruct (generate_submission_attempts (mkSamples 0 (9 # 10) 3 1 0 0 0))
    as [wrong correct] eqn:E.
  vm_compute in E. injection E as <- <-. reflexivity.
Defined.

(** [generate_submit_delay]: a fixed second for a limit that is not
    positive; else at least half a second and at least 2% of the limit, and
    for a limit of a second or more at most 60% of it. *)
Theorem generate_submit_delay_bounds (limit : Q) (r : Samples)
    (Hu : (0 <= u_delay r <= 1)%Q) :
  ((limit <= 0)%Q -> generate_submit_delay limit r = 1%Q) /\
  ((0 < limit)%Q ->
   (1 # 2 <= generate_submit_delay limit r)%Q /\
   (limit * (2 # 100) <= generate_submit_delay limit r)%Q) /\
  ((1 <= limit)%Q -> (generate_submit_delay limit r <= limit * (6 # 10))%Q).
Proof.
  unfold generate_submit_delay, py_max2, uniform.
  destruct (Qle_bool limit 0) eqn:E0.
  - apply Qle_bool_iff in E0. repeat split; intros; try reflexivity; lra.
  - apply not_true_iff_false in E0. rewrite Qle_bool_iff in E0.
    destruct (Qlt_bool (1 # 2) (limit * (2 # 100))) eqn:E1;
      [apply Qlt_bool_iff in E1
      |apply not_true_iff_false in E1; rewrite Qlt_bool_iff in E1];
      match goal with
      | |- context [Qlt_bool ?a ?b] =>
          destruct (Qlt_bool a b) eqn:E2;
          [apply Qlt_bool_iff in E2
          |apply not_true_iff_false in E2; rewrite Qlt_bool_iff in E2]
      end;
      destruct Hu as [Hu0 Hu1];
      repeat split; intros; try lra; try nra.
Qed.

Lemma generate_submit_delay_bounds_witness :
  (0 <= u_delay (mkSamples 0 0 2 1 0 0 (1 # 2)) <= 1)%Q /\
  (1 # 2 <= generate_submit_delay 300 (mkSamples 0 0 2 1 0 0 (1 # 2))
   <= 300 * (6 # 10))%Q.
Proof.
  assert (Hu : (0 <= u_delay (mkSamples 0 0 2 1 0 0 (1 # 2)) <= 1)%Q)
    by (cbn; lra).
  split; [exact Hu|].
  destruct (generate_submit_delay_bounds 300 _ Hu) as (_ & H1 & H2).
  split; [apply H1; lra | apply H2; lra].
Defined.

(** ** Elapsed and remaining time *)



(** ** Registration of a team while questions run *)

Lemma smem_set_same (d : list (string * TeamSubmission)) k v :
  smem (sset d k v) k = true.
Proof. unfold Dict.mem. now rewrite sget_set_same. Qed.

Lemma add_team_session_again (tid name team_session name' team_session' :
                                string) (q : Z) (s : QuestionSession) :
  add_team_session tid name' team_session' q
    (add_team_session tid name team_session q s)
  = add_team_session tid name team_session q s.
Proof.
  unfold add_team_session.
  destruct (smem (team_submissions s) tid) eqn:E.
  - now rewrite E.
  - cbn [team_submissions set_team_submissions].
    now rewrite smem_set_same.
Qed.

Lemma add_team_keys (w : World) (tid name team_session : string) :
  Dict.keys
    (active_questions (add_team_to_active_sessions w tid name team_session))
  = Dict.keys (active_questions w).
Proof.
  unfold add_team_to_active_sessions, Dict.keys. cbn [active_questions].
  rewrite map_map. apply map_ext. intros [q s].
  now destruct (smem (team_submissions s) tid).
Qed.

(** [add_team_to_active_sessions] gives the team a blank record in every
    session that has none for it and changes nothing else: a record the team
    already has, the records of other teams, the synthetic ledger, timing
    and the cached id stay as they are; a second registration of the same
    team id, under whatever name, changes nothing at all. *)
Theorem add_team_to_active_sessions_effect (w : World)
    (tid name team_session : string) :
  let w' := add_team_to_active_sessions w tid name team_session in
  (forall q, get_question_session w q = None ->
             get_question_session w' q = None) /\
  (forall q session,
      get_question_session w q = Some session ->
      exists session',
        get_question_session w' q = Some session' /\
        fake_teams session' = fake_teams session /\
        start_time session' = start_time session /\
        time_limit session' = time_limit session /\
        buffer_time session' = buffer_time session /\
        is_active session' = is_active session /\
        get_team_submission w' q tid
        = Some match get_team_submission w q tid with
               | Some team_sub => team_sub
               | None => new_team_submission tid name (Some team_session) q
               end /\
        (forall t, t <> tid ->
                   get_team_submission w' q t = get_team_submission w q t)) /\
  Dict.keys (active_questions w') = Dict.keys (active_questions w) /\
  current_active_question_id w' = current_active_question_id w /\
  (forall name' team_session',
      add_team_to_active_sessions w' tid name' team_session' = w').
Proof.
  cbn zeta. unfold get_question_session, get_team_submission.
  split; [|split; [|split; [|split]]].
  - intros q Hq. now rewrite add_team_questions, Hq.
  - intros q s Hq. rewrite add_team_questions, Hq. cbn [option_map].
    eexists. split; [reflexivity|].
    unfold add_team_session, Dict.mem.
    destruct (sget (team_submissions s) tid) as [x|] eqn:Hx.
    + rewrite Hx. repeat split; auto.
    + cbn [fake_teams start_time time_limit buffer_time is_active
             team_submissions set_team_submissions].
      rewrite sget_set_same. repeat split; auto.
      intros t Ht. now rewrite sget_set_other by congruence.
  - apply add_team_keys.
  - reflexivity.
  - intros name' ts'. unfold add_team_to_active_sessions.
    cbn [active_questions current_active_question_id]. f_equal.
    rewrite map_map. apply map_ext. intros [q s].
    pose proof (add_team_session_again tid name team_session name' ts' q s)
      as H.
    unfold add_team_session in H.
    destruct (smem (team_submissions s) tid) eqn:E.
    + now rewrite E.
    + cbn [team_submissions set_team_submissions] in *.
      rewrite smem_set_same in *. reflexivity.
Qed.

Lemma add_team_to_active_sessions_effect_witness :
  get_question_session demo_started 1 = Some demo_started_session /\
  get_team_submission
    (add_team_to_active_sessions demo_started "D" "Delta" "session-d") 1 "D"
  = Some (new_team_submission "D" "Delta" (Some "session-d") 1) /\
  get_team_submission
    (add_team_to_active_sessions demo_started "A" "Other" "session-x") 1 "A"
  = Some (new_team_submission "A" "Alpha" (Some "session-a") 1).
Proof.
  assert (Hs : get_question_session demo_started 1
               = Some demo_started_session)
    by apply start_question_session.
  split; [exact Hs|].
  destruct (add_team_to_active_sessions_effect demo_started "D" "Delta"
              "session-d") as (_ & H & _).
  destruct (H 1 _ Hs) as (s' & _ & _ & _ & _ & _ & _ & HD & _).
  destruct (add_team_to_active_sessions_effect demo_started "A" "Other"
              "session-x") as (_ & H' & _).
  destruct (H' 1 _ Hs) as (s'' & _ & _ & _ & _ & _ & _ & HA & _).
  split; [exact HD | exact HA].
Defined.

(** ** Starting a question *)

Lemma snapshot_registry_get (qid : Z) (registry : list (string * RegInfo))
    (subs : list (string * TeamSubmission)) (tid : string) :
  sget (snapshot_registry qid registry subs) tid =
  match sget subs tid with
  | Some team_sub => Some team_sub
  | None =>
      match first_registration registry tid with
      | Some (sid, info) =>
          Some (new_team_submission tid (reg_team_name info) (Some sid) qid)
      | None => None
      end
  end.
Proof.
  unfold snapshot_registry. revert subs.
  induction registry as [|[sid info] registry IH]; intro subs.
  - cbn. now destruct (sget subs tid).
  - cbn [fold_left first_registration]. rewrite IH. unfold Dict.mem.
    destruct (sget subs (reg_team_id info)) as [x|] eqn:Hx; cbn [negb].
    + destruct (String.eqb_spec (reg_team_id info) tid) as [<-|Hne];
        [now rewrite Hx | reflexivity].
    + destruct (String.eqb_spec (reg_team_id info) tid) as [<-|Hne].
      * now rewrite sget_set_same, Hx.
      * now rewrite sget_set_other by exact Hne.
Qed.

(** [start_question] makes the question the cached one and replaces any
    session of the same id by a fresh one: every record of the new session
    is blank, real records exist exactly for the registered teams (with the
    name and session id of the team's first registration), the leaderboard
    is empty, and the sessions of other questions are untouched. *)
Theorem start_question_fresh (w : World) (now : Q)
    (registry : list (string * RegInfo)) (rnd : string -> Samples)
    (qid limit buffer : Z) :
  let w' := snd (start_question w now registry rnd qid limit buffer) in
  current_active_question_id w' = Some qid /\
  (forall q, q <> qid ->
             get_question_session w' q = get_question_session w q) /\
  (forall tid team_sub,
      ledger_entry w' qid tid = Some team_sub -> blank team_sub) /\
  (forall tid,
      get_team_submission w' qid tid =
      match first_registration registry tid with
      | Some (sid, info) =>
          Some (new_team_submission tid (reg_team_name info) (Some sid) qid)
      | None => None
      end) /\
  get_question_leaderboard w' qid = Ok [] /\
  Dict.keys (active_questions w')
  = if Dict.mem Z.eqb (active_questions w) qid
    then Dict.keys (active_questions w)
    else Dict.keys (active_questions w) ++ [qid].
Proof.
  cbn zeta.
  destruct (start_question_world w now registry rnd qid limit buffer)
    as (subs & Hsubs & He).
  rewrite He. cbn [snd current_active_question_id].
  unfold get_question_session, ledger_entry, get_team_submission,
    get_question_leaderboard.
  cbn [active_questions]. rewrite zget_set_same.
  cbn [fake_teams team_submissions start_time].
  assert (Hget : forall tid,
             sget subs tid =
             match first_registration registry tid with
             | Some (sid, info) =>
                 Some (new_team_submission tid (reg_team_name info)
                         (Some sid) qid)
             | None => None
             end).
  { intro tid. subst subs. now rewrite snapshot_registry_get. }
  split; [reflexivity|]. split; [|split; [|split; [|split]]].
  - intros q Hq. apply zget_set_other. congruence.
  - intros tid ts.
    destruct (sget (initialize_fake_teams qid) tid) as [x|] eqn:Hx.
    + intros [= <-]. apply sget_In, initialize_fake_teams_records in Hx.
      subst x. repeat split.
    + rewrite Hget.
      destruct (first_registration registry tid) as [[sid info]|];
        [|discriminate].
      intros [= <-]. repeat split.
  - exact Hget.
  - assert (Hopen : all_open subs).
    { subst subs. apply snapshot_registry_open. intros k v []. }
    assert (Hc : forall s items,
               all_open items -> collect_results s items = Ok []).
    { intros s items. induction items as [|[k v] items IH]; intro Ho;
        [reflexivity|].
      cbn [collect_results]. rewrite (Ho k v) by now left.
      apply IH. intros k' v' Hin. apply (Ho k' v'). now right. }
    now rewrite Hc.
  - unfold Dict.mem.
    destruct (zget (active_questions w) qid) as [s|] eqn:Hs.
    + apply (@keys_set_present_gen _ _ _ Z.eqb_eq).
      now apply (@get_Some_keys_gen _ _ _ Z.eqb_eq _ _ s).
    + apply (@keys_set_absent_gen _ _ _ Z.eqb_eq).
      now apply zget_None_keys.
Qed.

(** ** The updated record *)

Lemma record_submission_stored (w : World) (t_submit t_first : Q) (qid : Z)
    (tid : string) (is_correct : bool) (score : option Q)
    (name sid : option string) (session : QuestionSession) :
  get_question_session w qid = Some session ->
  exists team_sub' w',
    record_submission w t_submit t_first qid tid is_correct score name sid
    = (Ok team_sub', w') /\
    ledger_entry w' qid tid = Some team_sub' /\
    (exists times, submit_times team_sub' = times ++ [t_submit]) /\
    (is_correct = true -> is_completed team_sub' = true).
Proof.
  intro Hs. unfold get_question_session in Hs.
  destruct (record_submission_ok w t_submit t_first qid tid is_correct score
              name sid session Hs) as (s' & Heq & _).
  pose proof (record_submission_entry w t_submit t_first qid tid is_correct
                score name sid session Hs) as (He & _).
  rewrite Heq in He. cbn [snd] in He.
  eexists. eexists. split; [exact Heq|]. split; [exact He|].
  destruct (apply_submission_counts (addressed session qid tid name sid)
              t_submit t_first is_correct score) as (Ht & _).
  split; [eexists; exact Ht|].
  intros ->. unfold apply_submission. cbn [negb].
  destruct (is_completed (addressed session qid tid name sid)) eqn:E;
    cbn; auto.
Qed.

(** ** Stopping a question *)

Lemma collect_results_start (s s' : QuestionSession)
    (items : list (string * TeamSubmission)) :
  start_time s = start_time s' ->
  collect_results s items = collect_results s' items.
Proof.
  intro H. induction items as [|[k v] items IH]; [reflexivity|].
  cbn [collect_results]. now rewrite IH, H.
Qed.

Lemma stop_question_session (w : World) (clock : nat -> Q) (qid q : Z) :
  get_question_session (stop_question w clock qid) q =
  if q =? qid
  then option_map (fun s => set_is_active s false)
         (get_question_session w qid)
  else get_question_session w q.
Proof.
  unfold get_question_session. rewrite stop_question_questions.
  destruct (Z.eqb_spec q qid) as [->|Hne].
  - destruct (zget (active_questions w) qid) as [s|] eqn:Hs.
    + now rewrite zget_set_same.
    + now rewrite Hs.
  - destruct (zget (active_questions w) qid) as [s|]; [|reflexivity].
    apply zget_set_other. congruence.
Qed.

Lemma stop_question_cache (w : World) (clock : nat -> Q) (qid : Z) :
  get_question_session w qid <> None ->
  current_active_question_id (stop_question w clock qid) <> Some qid.
Proof.
  unfold get_question_session, stop_question. intro Hs.
  destruct (zget (active_questions w) qid) as [s|] eqn:Hq; [|congruence].
  cbn [current_active_question_id].
  destruct (current_active_question_id w) as [c|] eqn:Hc; [|discriminate].
  destruct (Z.eqb_spec c qid) as [->|Hne]; [|cbn; congruence].
  set (w' := mkWorld (zset (active_questions w) qid (set_is_active s false))
               (Some qid)).
  assert (Hdead : forall t, is_question_active w' t qid = false).
  { intro t. unfold is_question_active. subst w'. cbn [active_questions].
    now rewrite zget_set_same. }
  destruct (refresh_scan w' clock) as [Hsnd Hfst].
  { change (current_active_question_id w') with (Some qid).
    cbv iota. rewrite Hdead. apply andb_false_r. }
  rewrite Hsnd. cbn [set_current current_active_question_id].
  destruct (fst (_refresh_active_question_id w' clock)) as [r|];
    [|discriminate].
  destruct Hfst as (i & s' & _ & Ha & _). intros [= ->].
  rewrite Hdead in Ha. discriminate.
Qed.

(** [stop_question] does nothing for an unknown id.  For a tracked one it
    clears [is_active] and changes no ledger and no other session, so the
    leaderboards stay as they are; the cached id is not the stopped question
    afterwards; and stopping twice is stopping once. *)
Theorem stop_question_effect (w : World) (clock : nat -> Q) (qid : Z) :
  let w' := stop_question w clock qid in
  (get_question_session w qid = None -> w' = w) /\
  (forall session,
      get_question_session w qid = Some session ->
      get_question_session w' qid = Some (set_is_active session false) /\
      current_active_question_id w' <> Some qid) /\
  (forall q, q <> qid ->
             get_question_session w' q = get_question_session w q) /\
  (forall q tid, ledger_entry w' q tid = ledger_entry w q tid) /\
  (forall q, get_question_leaderboard w' q = get_question_leaderboard w q) /\
  (forall clock', stop_question w' clock' qid = w').
Proof.
  cbn zeta.
  assert (Hled : forall q tid,
             ledger_entry (stop_question w clock qid) q tid
             = ledger_entry w q tid).
  { intros q tid.
    pose proof (stop_question_session w clock qid q) as H.
    unfold get_question_session in H. unfold ledger_entry. rewrite H.
    destruct (Z.eqb_spec q qid) as [Heq|Hne]; [subst q|reflexivity].
    destruct (zget (active_questions w) qid); reflexivity. }
  split; [|split; [|split; [|split; [|split]]]].
  - unfold get_question_session, stop_question. now intros ->.
  - intros s Hs. split.
    + now rewrite stop_question_session, Z.eqb_refl, Hs.
    + apply stop_question_cache. congruence.
  - intros q Hq. rewrite stop_question_session.
    now destruct (Z.eqb_spec q qid).
  - exact Hled.
  - intro q. unfold get_question_leaderboard.
    pose proof (stop_question_session w clock qid q) as H.
    unfold get_question_session in H. rewrite H.
    destruct (Z.eqb_spec q qid) as [Heq|Hne]; [subst q|reflexivity].
    destruct (zget (active_questions w) qid) as [s|]; [|reflexivity].
    cbn [option_map]. cbn [set_is_active team_submissions].
    now rewrite (collect_results_start (set_is_active s false) s).
  - intro clock'.
    destruct (get_question_session w qid) as [s|] eqn:Hs.
    + pose proof (stop_question_cache w clock qid) as Hc.
      rewrite Hs in Hc. specialize (Hc ltac:(discriminate)).
      pose proof (stop_question_session w clock qid qid) as Hq.
      rewrite Z.eqb_refl, Hs in Hq. cbn [option_map] in Hq.
      unfold get_question_session in Hq.
      set (w' := stop_question w clock qid) in *.
      unfold stop_question. rewrite Hq.
      change (set_is_active (set_is_active s false) false)
        with (set_is_active s false).
      rewrite (set_same_value Z QuestionSession Z.eqb _ _ _ Hq).
      cbn [current_active_question_id].
      destruct (current_active_question_id w') as [c|] eqn:Hcur.
      * destruct (Z.eqb_spec c qid) as [->|Hne]; [congruence|].
        destruct w'. cbn in *. now subst.
      * destruct w'. cbn in *. now subst.
    + unfold get_question_session in Hs.
      unfold stop_question. now rewrite Hs, Hs.
Qed.

(** ** Submissions are not gated *)

(** [record_submission] does not look at [is_active] or at the clock: on a
    question that was stopped, or whose window has passed, it still returns
    the updated record and stores the submission, and the question stays
    inactive. *)
Theorem record_submission_ignores_window (w : World) (t_submit t_first : Q)
    (qid : Z) (tid : string) (is_correct : bool) (score : option Q)
    (name sid : option string) (session : QuestionSession)
    (Hs : get_question_session w qid = Some session)
    (Hclosed : is_question_active w t_submit qid = false) :
  exists team_sub' w',
    record_submission w t_submit t_first qid tid is_correct score name sid
    = (Ok team_sub', w') /\
    ledger_entry w' qid tid = Some team_sub' /\
    last (submit_times team_sub') 0%Q = t_submit /\
    (is_correct = true -> is_completed team_sub' = true) /\
    is_question_active w' t_submit qid = false.
Proof.
  destruct (record_submission_stored w t_submit t_first qid tid is_correct score name
              sid session Hs) as (ts' & w' & He & Hl & (times & Ht) & Hc).
  exists ts', w'. split; [exact He|]. split; [exact Hl|].
  split; [|split].
  - rewrite Ht. apply last_last.
  - exact Hc.
  - replace w' with (exec w (OpRecord t_submit t_first qid tid is_correct
                               score name sid))
      by (cbn [exec]; now rewrite He).
    now apply exec_keeps_inactive.
Qed.

(** ** The current question within one clock tick *)

Lemma is_question_active_ext (w w' : World) (now : Q) (q : Z) :
  active_questions w' = active_questions w ->
  is_question_active w' now q = is_question_active w now q.
Proof. unfold is_question_active. now intros ->. Qed.

Lemma active_candidates_ext (w w' : World) (clock : nat -> Q)
    (items : list (Z * QuestionSession)) (i : nat) :
  active_questions w' = active_questions w ->
  active_candidates w' clock i items = active_candidates w clock i items.
Proof.
  intro H. revert i. induction items as [|[q s] items IH]; intro i;
    [reflexivity|].
  cbn [active_candidates].
  now rewrite (is_question_active_ext w w' _ q H), IH.
Qed.

Lemma active_somewhere (w : World) (now : Q) (q : Z) :
  is_question_active w now q = true ->
  exists j session, nth_error (active_questions w) j = Some (q, session).
Proof.
  unfold is_question_active.
  destruct (zget (active_questions w) q) as [s|] eqn:Hs; [|discriminate].
  intros _. apply (@get_In _ _ _ Z.eqb_eq) in Hs.
  apply In_nth_error in Hs as [j Hj]. now exists j, s.
Qed.

(** When all readings of one call are the same [now]:
    [get_current_active_question_id] answers with a question that is
    active, answers nothing exactly when no question is active, leaves the
    sessions alone and caches its answer; asking again at the same time
    gives the same answer and store. *)
Theorem get_current_active_question_id_instant (w : World) (now : Q) :
  let r := get_current_active_question_id w (instant now) in
  (forall q, fst r = Some q -> is_question_active w now q = true) /\
  (fst r = None <-> forall q, is_question_active w now q = false) /\
  active_questions (snd r) = active_questions w /\
  current_active_question_id (snd r) = fst r /\
  get_current_active_question_id (snd r) (instant now) = r.
Proof.
  cbn zeta. unfold get_current_active_question_id.
  pose proof (refresh_scan w (instant now)) as Hscan. cbn zeta in Hscan.
  pose proof (refresh_questions w (instant now)) as Hq.
  unfold _refresh_active_question_id in *.
  destruct (truthy_int (current_active_question_id w)
            && match current_active_question_id w with
               | Some c => is_question_active w (instant now 0%nat) c
               | None => false
               end) eqn:Hcond.
  - (* the cached id is kept *)
    cbn [fst snd]. apply andb_true_iff in Hcond as [Ht Ha].
    destruct (current_active_question_id w) as [c|] eqn:Hc;
      [|discriminate].
    split; [now intros q [= <-]|]. split.
    + split; [discriminate|]. intro H. unfold instant in Ha.
      rewrite H in Ha. discriminate.
    + split; [reflexivity|]. split; [reflexivity|].
      now rewrite Ht, Ha.
  - (* the scan *)
    specialize (Hscan eq_refl). destruct Hscan as [Hsnd Hfst].
    destruct (active_candidates w (instant now) 1 (active_questions w))
      as [|first rest] eqn:Hcand; cbn [fst snd] in *.
    + split; [discriminate|]. split; [|split; [reflexivity|split]].
      * split; [|reflexivity]. intros _ q.
        destruct (is_question_active w now q) eqn:Ha; [|reflexivity].
        destruct (active_somewhere w now q Ha) as (j & s & Hj).
        pose proof (Hfst j q s Hj) as Hd. unfold instant in Hd.
        congruence.
      * reflexivity.
      * cbn [set_current current_active_question_id truthy_int andb].
        rewrite (active_candidates_ext w (set_current w None)) by reflexivity.
        cbn [active_questions set_current]. now rewrite Hcand.
    + destruct Hfst as (i & s & Hi & Ha & _).
      set (q0 := snd (py_max first rest)) in *.
      split; [now intros q [= <-]|]. split; [|split; [reflexivity|split]].
      * split; [discriminate|]. intro H. unfold instant in Ha.
        rewrite H in Ha. discriminate.
      * reflexivity.
      * cbn [set_current current_active_question_id truthy_int].
        rewrite (is_question_active_ext w (set_current w (Some q0)))
          by reflexivity.
        change (instant now 0%nat) with (instant now (S i)).
        rewrite Ha, andb_true_r.
        destruct (q0 =? 0) eqn:Hz; cbn [negb]; [|reflexivity].
        rewrite (active_candidates_ext w (set_current w (Some q0)))
          by reflexivity.
        cbn [active_questions set_current]. rewrite Hcand.
        reflexivity.
Qed.

(** ** Ties on the leaderboard *)




Lemma collect_results_board (session : QuestionSession)
    (items : list (string * TeamSubmission)) :
  (forall k v, In (k, v) items ->
               is_completed v = true -> first_correct_time v <> None) ->
  collect_results session items = Ok (board_entries session items).
Proof.
  induction items as [|[tid ts] items IH]; intro Hok; [reflexivity|].
  cbn [collect_results board_entries]. rewrite IH.
  2:{ intros k v Hin. apply (Hok k v). now right. }
  destruct (is_completed ts) eqn:Hc; [|reflexivity].
  destruct (final_score ts) as [sc|]; [|reflexivity].
  destruct (first_correct_time ts) as [t|] eqn:Ht; [reflexivity|].
  exfalso. apply (Hok tid ts); [now left | exact Hc | exact Ht].
Qed.



(** ** Synthetic team tasks *)

Lemma task_continue_cases (task : FakeTask) (captured : QuestionSession)
    (w : World) (clock : nat -> Q) (i k : nat) :
  (_is_accepting_submissions captured (clock i) = false ->
   task_continue task captured w clock i k = (Finished, w)) /\
  (forall k', fst (task_continue task captured w clock i k) = Paused k' ->
              k' = S k /\ (k < Z.to_nat (task_wrong_count task))%nat) /\
  (snd (task_continue task captured w clock i k) = w \/
   exists t_submit t_first is_correct score,
     snd (task_continue task captured w clock i k)
     = snd (record_submission w t_submit t_first (task_question_id task)
              (task_team_name task) is_correct score
              (Some (task_team_name task)) None) /\
     (is_correct = true -> 0 < task_correct_count task) /\
     (is_correct = false -> (k < Z.to_nat (task_wrong_count task))%nat)).
Proof.
  unfold task_continue.
  destruct (k <? Z.to_nat (task_wrong_count task))%nat eqn:Hk.
  - apply Nat.ltb_lt in Hk.
    destruct (_is_accepting_submissions captured (clock i)) eqn:Ha;
      cbn [negb].
    + split; [discriminate|].
      destruct (record_submission w (clock (S i)) (clock (S i))
                  (task_question_id task) (task_team_name task) false None
                  (Some (task_team_name task)) None) as [[r|e] w'] eqn:Hr.
      * split; [now intros k' [= <-]|].
        right. exists (clock (S i)), (clock (S i)), false, None.
        rewrite Hr. repeat split; auto. discriminate.
      * split; [discriminate|].
        right. exists (clock (S i)), (clock (S i)), false, None.
        rewrite Hr. repeat split; auto. discriminate.
    + split; [reflexivity|]. split; [discriminate | now left].
  - destruct (0 <? task_correct_count task) eqn:Hc; cbn [andb].
    + apply Z.ltb_lt in Hc.
      destruct (_is_accepting_submissions captured (clock i)) eqn:Ha.
      * split; [discriminate|]. split; [discriminate|].
        right. exists (clock (S i)), (clock (S (S i))), true,
          (task_score task).
        repeat split; auto. discriminate.
      * split; [reflexivity|]. split; [discriminate | now left].
    + split; [reflexivity|]. split; [discriminate | now left].
Qed.

(** A resumed task does nothing to a question that [is_question_active]
    reports inactive, and ends: this holds for a task that wakes from its
    initial sleep, and for a later resumption as long as the session the
    task captured is still the stored one (the question was not restarted
    in between). *)
Theorem task_resume_closed (task : FakeTask) (st : TaskState)
    (captured : QuestionSession) (w : World) (clock : nat -> Q)
    (Hlive : forall k,
        st = Paused k ->
        get_question_session w (task_question_id task) = Some captured)
    (Hclosed : is_question_active w (clock O) (task_question_id task)
               = false) :
  task_resume task st captured w clock = (Finished, w).
Proof.
  unfold is_question_active, get_question_session in *.
  destruct st as [|k|]; cbn [task_resume].
  - destruct (zget (active_questions w) (task_question_id task)) as [s|];
      [|reflexivity].
    unfold _is_accepting_submissions. now rewrite Hclosed.
  - apply task_continue_cases.
    rewrite (Hlive k eq_refl) in Hclosed. exact Hclosed.
  - reflexivity.
Qed.

Lemma task_resume_closed_witness :
  (forall k,
      Paused 1 = Paused k ->
      get_question_session (stop_question demo_started (instant 7) 1) 1
      = Some (set_is_active demo_started_session false)) /\
  is_question_active (stop_question demo_started (instant 7) 1)
    (instant 8 O) 1 = false /\
  task_resume (mkFakeTask 1 "OpenAI" 6 2 1 (Some 80%Q)) (Paused 1)
    (set_is_active demo_started_session false)
    (stop_question demo_started (instant 7) 1) (instant 8)
  = (Finished, stop_question demo_started (instant 7) 1).
Proof.
  assert (Hs : get_question_session
                 (stop_question demo_started (instant 7) 1) 1
               = Some (set_is_active demo_started_session false)).
  { rewrite stop_question_session, Z.eqb_refl.
    change (get_question_session demo_started 1)
      with (get_question_session
              (snd (start_question empty_world 0 demo_registry demo_rnd 1
                      300 10)) 1).
    now rewrite start_question_session. }
  assert (Hc : is_question_active (stop_question demo_started (instant 7) 1)
                 (instant 8 O) 1 = false)
    by apply stop_question_inactive.
  split; [intros k _; exact Hs|]. split; [exact Hc|].
  apply (task_resume_closed (mkFakeTask 1 "OpenAI" 6 2 1 (Some 80%Q))
           (Paused 1) (set_is_active demo_started_session false)
           (stop_question demo_started (instant 7) 1) (instant 8));
    [intros k _; exact Hs | exact Hc].
Defined.

(** After its initial sleep a task judges admission on the session object
    it captured, not on the store: when that object accepts, a task with
    wrong attempts left records one in whatever session the store holds
    under the question id, be that question active or not. *)
Theorem task_resume_uses_captured (task : FakeTask) (k : nat)
    (captured session : QuestionSession) (w : World) (clock : nat -> Q)
    (Hleft : (k < Z.to_nat (task_wrong_count task))%nat)
    (Haccepts : _is_accepting_submissions captured (clock O) = true)
    (Hs : get_question_session w (task_question_id task) = Some session) :
  exists team_sub' w',
    task_resume task (Paused k) captured w clock = (Paused (S k), w') /\
    record_submission w (clock 1%nat) (clock 1%nat) (task_question_id task)
      (task_team_name task) false None (Some (task_team_name task)) None
    = (Ok team_sub', w') /\
    ledger_entry w' (task_question_id task) (task_team_name task)
    = Some team_sub' /\
    last (submit_times team_sub') 0%Q = clock 1%nat.
Proof.
  destruct (record_submission_stored w (clock 1%nat) (clock 1%nat)
              (task_question_id task) (task_team_name task) false None
              (Some (task_team_name task)) None session Hs)
    as (ts' & w' & He & Hl & (times & Ht) & _).
  exists ts', w'. cbn [task_resume]. unfold task_continue.
  apply Nat.ltb_lt in Hleft. rewrite Hleft, Haccepts. cbn [negb].
  rewrite He. split; [reflexivity|]. split; [reflexivity|].
  split; [exact Hl|]. rewrite Ht. apply last_last.
Qed.

Lemma task_resume_uses_captured_witness :
  (1 < Z.to_nat (task_wrong_count (mkFakeTask 1 "OpenAI" 6 2 1 (Some 80%Q))))%nat
  /\
  _is_accepting_submissions demo_started_session (instant 8 O) = true /\
  get_question_session (stop_question demo_started (instant 7) 1) 1
  = Some (set_is_active demo_started_session false) /\
  is_question_active (stop_question demo_started (instant 7) 1) 8 1 = false /\
  exists team_sub' w',
    task_resume (mkFakeTask 1 "OpenAI" 6 2 1 (Some 80%Q)) (Paused 1)
      demo_started_session (stop_question demo_started (instant 7) 1)
      (instant 8)
    = (Paused 2, w') /\
    ledger_entry w' 1 "OpenAI" = Some team_sub' /\
    last (submit_times team_sub') 0%Q = 8%Q.
Proof.
  assert (Hk : (1 < Z.to_nat
                      (task_wrong_count
                         (mkFakeTask 1 "OpenAI" 6 2 1 (Some 80%Q))))%nat)
    by (cbn; lia).
  assert (Ha : _is_accepting_submissions demo_started_session (instant 8 O)
               = true) by reflexivity.
  assert (Hs : get_question_session
                 (stop_question demo_started (instant 7) 1) 1
               = Some (set_is_active demo_started_session false)).
  { rewrite stop_question_session, Z.eqb_refl.
    change (get_question_session demo_started 1)
      with (get_question_session
              (snd (start_question empty_world 0 demo_registry demo_rnd 1
                      300 10)) 1).
    now rewrite start_question_session. }
  split; [exact Hk|]. split; [exact Ha|]. split; [exact Hs|].
  split; [apply stop_question_inactive|].
  destruct (task_resume_uses_captured
              (mkFakeTask 1 "OpenAI" 6 2 1 (Some 80%Q)) 1
              demo_started_session _ _ (instant 8) Hk Ha Hs)
    as (ts' & w' & H1 & _ & H2 & H3).
  exists ts', w'. auto.
Defined.

Lemma task_resume_step (task : FakeTask) (st : TaskState)
    (captured : QuestionSession) (w : World) (clock : nat -> Q) (k' : nat) :
  fst (task_resume task st captured w clock) = Paused k' ->
  (k' <= Z.to_nat (task_wrong_count task))%nat /\
  (st = Sleeping /\ k' = 1%nat \/ st = Paused (pred k') /\ (0 < pred k')%nat
   \/ st = Paused O /\ k' = 1%nat).
Proof.
  destruct st as [|k|]; cbn [task_resume].
  - destruct (zget (active_questions w) (task_question_id task)) as [s|];
      [|discriminate].
    destruct (negb (_is_accepting_submissions s (clock O)));
      [discriminate|].
    intro H. apply task_continue_cases in H as [-> Hk].
    split; [lia | now left].
  - intro H. apply task_continue_cases in H as [-> Hk].
    split; [lia|]. destruct k; [right; right | right; left]; cbn; auto.
    split; [reflexivity | lia].
  - discriminate.
Qed.

Lemma task_states_finished (task : FakeTask)
    (inputs : list (QuestionSession * World * (nat -> Q))) :
  task_states task Finished inputs = Finished.
Proof.
  induction inputs as [|[[c w] clk] inputs IH]; [reflexivity|exact IH].
Qed.

Lemma task_states_paused (task : FakeTask)
    (inputs : list (QuestionSession * World * (nat -> Q))) (k : nat) :
  (Z.to_nat (task_wrong_count task) < k + List.length inputs)%nat ->
  (k <= Z.to_nat (task_wrong_count task))%nat ->
  task_states task (Paused k) inputs = Finished.
Proof.
  revert k. induction inputs as [|[[c w] clk] inputs IH]; intros k Hlen Hk.
  - cbn [List.length] in Hlen. lia.
  - cbn [task_states].
    destruct (fst (task_resume task (Paused k) c w clk)) as [|k'|] eqn:E.
    + exfalso. cbn [task_resume] in E. unfold task_continue in E.
      destruct (k <? Z.to_nat (task_wrong_count task))%nat;
        [destruct (negb (_is_accepting_submissions c (clk O)));
         [discriminate|];
         destruct (record_submission w (clk 1%nat) (clk 1%nat) _ _ false
                     None _ None) as [[r|e] w']; discriminate|].
      destruct ((0 <? task_correct_count task)
                && _is_accepting_submissions c (clk O)); discriminate.
    + cbn [task_resume] in E.
      apply task_continue_cases in E as [-> Hlt].
      apply IH; [cbn [List.length] in Hlen; lia | lia].
    + apply task_states_finished.
Qed.

(** A task is over after at most [wrong_count + 1] resumptions, whatever
    happens to the store in between, and an ended task stays ended. *)
Theorem task_terminates (task : FakeTask)
    (inputs : list (QuestionSession * World * (nat -> Q)))
    (Hlen : (Z.to_nat (task_wrong_count task) < List.length inputs)%nat) :
  task_states task Sleeping inputs = Finished /\
  forall more, task_states task Sleeping (inputs ++ more) = Finished.
Proof.
  assert (H : forall l,
             (Z.to_nat (task_wrong_count task) < List.length l)%nat ->
             task_states task Sleeping l = Finished).
  { intros [|[[c w] clk] l] Hl; [cbn in Hl; lia|].
    cbn [task_states].
    destruct (fst (task_resume task Sleeping c w clk)) as [|k'|] eqn:E.
    - exfalso. cbn [task_resume] in E.
      destruct (zget (active_questions w) (task_question_id task)) as [s|];
        [|discriminate].
      destruct (negb (_is_accepting_submissions s (clk O)));
        [discriminate|].
      unfold task_continue in E.
      destruct (0 <? Z.to_nat (task_wrong_count task))%nat;
        [destruct (negb (_is_accepting_submissions s (clk 1%nat)));
         [discriminate|];
         destruct (record_submission w (clk 2%nat) (clk 2%nat) _ _ false
                     None _ None) as [[r|e] w']; discriminate|].
      destruct ((0 <? task_correct_count task)
                && _is_accepting_submissions s (clk 1%nat)); discriminate.
    - destruct (task_resume_step task Sleeping c w clk k' E) as [Hk Hst].
      assert (k' = 1%nat) as ->
          by (destruct Hst as [[_ ?] | [[? _] | [? _]]]; congruence).
      apply task_states_paused; [cbn [List.length] in Hl; lia | exact Hk].
    - apply task_states_finished. }
  split; [now apply H|].
  intro more. apply H. rewrite length_app. lia.
Qed.

Lemma task_terminates_witness :
  (Z.to_nat (task_wrong_count (mkFakeTask 1 "OpenAI" 6 2 1 (Some 80%Q)))
   < List.length
       [ (demo_started_session, demo_started, instant 6);
         (demo_started_session, demo_started, instant 8);
         (demo_started_session, demo_started, instant 11) ])%nat /\
  task_states (mkFakeTask 1 "OpenAI" 6 2 1 (Some 80%Q)) Sleeping
    [ (demo_started_session, demo_started, instant 6);
      (demo_started_session, demo_started, instant 8);
      (demo_started_session, demo_started, instant 11) ]
  = Finished.
Proof.
  assert (H : (Z.to_nat
                 (task_wrong_count (mkFakeTask 1 "OpenAI" 6 2 1 (Some 80%Q)))
               < List.length
                   [ (demo_started_session, demo_started, instant 6);
                     (demo_started_session, demo_started, instant 8);
                     (demo_started_session, demo_started, instant 11) ])%nat)
    by (cbn; lia).
  split; [exact H|].
  exact (proj1 (task_terminates _ _ H)).
Defined.

(** A task whose [correct_count] is not positive never completes a record:
    a record that is absent or open before a resumption is so after it. *)
Theorem task_without_correct_never_completes (task : FakeTask)
    (st : TaskState) (captured : QuestionSession) (w : World)
    (clock : nat -> Q) (q : Z) (tid : string)
    (Hnone : task_correct_count task <= 0)
    (Hopen : open_entry (ledger_entry w q tid)) :
  open_entry (ledger_entry (snd (task_resume task st captured w clock)) q tid).
Proof.
  assert (Hc : forall c i k,
             open_entry
               (ledger_entry (snd (task_continue task c w clock i k)) q tid)).
  { intros c i k.
    destruct (task_continue_cases task c w clock i k)
      as (_ & _ & [-> | (ts & tf & ok & sc & -> & Hok & _)]);
      [exact Hopen|].
    destruct ok; [specialize (Hok eq_refl); lia|].
    apply (exec_entry_open w
             (OpRecord ts tf (task_question_id task) (task_team_name task)
                false sc (Some (task_team_name task)) None) q tid);
      [|exact Hopen].
    cbn [correct_for]. apply andb_false_r. }
  destruct st as [|k|]; cbn [task_resume]; [|apply Hc|exact Hopen].
  destruct (zget (active_questions w) (task_question_id task)) as [s|];
    [|exact Hopen].
  destruct (negb (_is_accepting_submissions s (clock O)));
    [exact Hopen | apply Hc].
Qed.

Lemma task_without_correct_never_completes_witness :
  task_correct_count (mkFakeTask 1 "OpenAI" 6 2 0 None) <= 0 /\
  open_entry (ledger_entry demo_started 1 "OpenAI") /\
  open_entry
    (ledger_entry
       (snd (task_resume (mkFakeTask 1 "OpenAI" 6 2 0 None) Sleeping
               demo_started_session demo_started (instant 6)))
       1 "OpenAI").
Proof.
  assert (H1 : task_correct_count (mkFakeTask 1 "OpenAI" 6 2 0 None) <= 0)
    by (cbn; lia).
  assert (H2 : open_entry (ledger_entry demo_started 1 "OpenAI"))
    by apply start_question_entry_open.
  split; [exact H1|]. split; [exact H2|].
  exact (task_without_correct_never_completes _ _ _ _ _ _ _ H1 H2).
Defined.

(** ** Invariants of the store *)

Lemma snapshot_registry_records (qid : Z)
    (registry : list (string * RegInfo))
    (subs : list (string * TeamSubmission)) (k : string)
    (v : TeamSubmission) :
  In (k, v) (snapshot_registry qid registry subs) ->
  In (k, v) subs \/
  exists name sid, v = new_team_submission k name sid qid.
Proof.
  unfold snapshot_registry. revert subs.
  induction registry as [|[sid info] registry IH]; intros subs Hin;
    [now left|].
  cbn [fold_left] in Hin. apply IH in Hin as [Hin | Hin]; [|now right].
  destruct (negb (smem subs (reg_team_id info))); [|now left].
  apply sIn_set in Hin as [[= -> ->] | Hin]; [|now left].
  right. eauto.
Qed.

(** The session [record_submission] stores. *)
Lemma record_submission_shape (w : World) (t_submit t_first : Q) (qid : Z)
    (tid : string) (is_correct : bool) (score : option Q)
    (name sid : option string) (session : QuestionSession) :
  zget (active_questions w) qid = Some session ->
  let team_sub' :=
    apply_submission (addressed session qid tid name sid) t_submit t_first
      is_correct score in
  snd (record_submission w t_submit t_first qid tid is_correct score
         name sid)
  = put_session w qid
      match sget (fake_teams session) tid with
      | Some _ =>
          set_fake_teams session (sset (fake_teams session) tid team_sub')
      | None =>
          set_team_submissions session
            (sset (team_submissions session) tid team_sub')
      end.
Proof.
  intro Hs. cbn zeta. unfold record_submission, addressed. rewrite Hs.
  now destruct (sget (fake_teams session) tid).
Qed.

Section RecordInvariant.
Variable P : Z -> string -> TeamSubmission -> Prop.
Hypothesis P_new :
  forall q k name sid, P q k (new_team_submission k name sid q).
Hypothesis P_backfill :
  forall q k v name sid, P q k v -> P q k (backfill v name sid).
Hypothesis P_apply :
  forall q k v t_submit t_first is_correct score,
    P q k v -> P q k (apply_submission v t_submit t_first is_correct score).

Lemma addressed_inv (q : Z) (session : QuestionSession) (tid : string)
    (name sid : option string) :
  (forall k v,
      In (k, v) (team_submissions session) \/ In (k, v) (fake_teams session) ->
      P q k v) ->
  P q tid (addressed session q tid name sid).
Proof.
  intro H. unfold addressed.
  destruct (sget (fake_teams session) tid) as [x|] eqn:Hx.
  - apply H. right. now apply sget_In.
  - apply P_backfill.
    destruct (sget (team_submissions session) tid) as [y|] eqn:Hy.
    + apply H. left. now apply sget_In.
    + apply P_new.
Qed.

Lemma record_submission_records_all (w : World) (t_submit t_first : Q)
    (qid : Z) (tid : string) (is_correct : bool) (score : option Q)
    (name sid : option string) :
  records_all P w ->
  records_all P
    (snd (record_submission w t_submit t_first qid tid is_correct score
            name sid)).
Proof.
  intros Hw q s'.
  destruct (zget (active_questions w) qid) as [s|] eqn:Hs.
  - rewrite (record_submission_shape w t_submit t_first qid tid is_correct
               score name sid s Hs).
    destruct (Z.eq_dec qid q) as [<-|Hne].
    + rewrite zget_put_same. intros [= <-] k v.
      pose proof (addressed_inv qid s tid name sid (Hw qid s Hs)) as Ha.
      apply (P_apply _ _ _ t_submit t_first is_correct score) in Ha.
      destruct (sget (fake_teams s) tid);
        cbn [team_submissions fake_teams set_fake_teams
               set_team_submissions];
        intros [Hin | Hin];
        try (apply sIn_set in Hin as [[= -> ->] | Hin]; [exact Ha|]);
        apply (Hw qid s Hs); auto.
    + rewrite zget_put_other by exact Hne. apply Hw.
  - rewrite record_submission_missing by exact Hs. apply Hw.
Qed.

Lemma exec_records_all (w : World) (op : Op) :
  records_all P w -> records_all P (exec w op).
Proof.
  intro Hw.
  destruct op as [now reg rnd q l b | clock q
                 | ts tf q t c sc n sd | clock | | t n sd
                 | task st cap clock].
  - intros q' s'.
    destruct (start_question_world w now reg rnd q l b) as (subs & Hsub & He).
    cbn [exec]. rewrite He. cbn [snd active_questions].
    destruct (Z.eq_dec q q') as [<-|Hne].
    + rewrite zget_set_same. intros [= <-] k v.
      cbn [team_submissions fake_teams]. intros [Hin | Hin].
      * subst subs.
        apply snapshot_registry_records in Hin
          as [[] | (name & sid & ->)].
        apply P_new.
      * apply initialize_fake_teams_records in Hin. subst v. apply P_new.
    + rewrite zget_set_other by exact Hne. apply Hw.
  - intros q' s'. cbn [exec].
    pose proof (stop_question_session w clock q q') as H.
    unfold get_question_session in H. rewrite H.
    destruct (q' =? q) eqn:E; [|apply Hw].
    apply Z.eqb_eq in E. subst q'.
    destruct (zget (active_questions w) q) as [s|] eqn:Hs; [|discriminate].
    cbn [option_map]. intros [= <-]. exact (Hw q s Hs).
  - now apply record_submission_records_all.
  - intros q' s'. cbn [exec]. unfold get_current_active_question_id.
    rewrite refresh_questions. apply Hw.
  - intros q' s'. discriminate.
  - intros q' s'. cbn [exec]. rewrite add_team_questions.
    destruct (zget (active_questions w) q') as [s|] eqn:Hs; [|discriminate].
    cbn [option_map]. intros [= <-] k v. unfold add_team_session.
    destruct (smem (team_submissions s) t); [exact (Hw q' s Hs k v)|].
    cbn [team_submissions fake_teams set_team_submissions].
    intros [Hin | Hin]; [|apply (Hw q' s Hs); auto].
    apply sIn_set in Hin as [[= -> ->] | Hin];
      [apply P_new | apply (Hw q' s Hs); auto].
  - cbn [exec].
    destruct (task_resume_cases task st cap w clock)
      as [-> | (ts & tf & c & sc & ->)]; [exact Hw|].
    now apply record_submission_records_all.
Qed.

Lemma reachable_records_all (w : World) : reachable w -> records_all P w.
Proof.
  intros [ops ->].
  assert (H : forall w0, records_all P w0 -> records_all P (run w0 ops)).
  { induction ops as [|op ops IH]; intros w0 Hw0; [exact Hw0|].
    cbn [run fold_left]. apply IH. now apply exec_records_all. }
  apply H. intros q s. discriminate.
Qed.
End RecordInvariant.

Lemma records_all_lookup (P : Z -> string -> TeamSubmission -> Prop)
    (w : World) (q : Z) (tid : string) (team_sub : TeamSubmission) :
  records_all P w ->
  ledger_entry w q tid = Some team_sub \/
  get_team_submission w q tid = Some team_sub ->
  P q tid team_sub.
Proof.
  unfold ledger_entry, get_team_submission. intros Hw H.
  destruct (zget (active_questions w) q) as [s|] eqn:Hs;
    [|destruct H; discriminate].
  apply (Hw q s Hs).
  destruct H as [H | H].
  - destruct (sget (fake_teams s) tid) as [x|] eqn:Hx.
    + injection H as <-. right. now apply sget_In.
    + left. now apply sget_In.
  - left. now apply sget_In.
Qed.

(** In every reachable store a record found under a team id and a question
    id names that team and that question. *)
Theorem reachable_record_identity (w : World) (q : Z) (tid : string)
    (team_sub : TeamSubmission)
    (Hreach : reachable w)
    (Hfound : ledger_entry w q tid = Some team_sub \/
              get_team_submission w q tid = Some team_sub) :
  team_id team_sub = tid /\ ts_question_id team_sub = q.
Proof.
  apply (records_all_lookup record_identity w q tid team_sub);
    [|exact Hfound].
  apply reachable_records_all; [| | |exact Hreach].
  - intros; split; reflexivity.
  - intros q0 k v name sid [H1 H2]. split; assumption.
  - intros q0 k v t1 t2 c sc [H1 H2].
    destruct (apply_submission_counts v t1 t2 c sc) as (_ & _ & _ & Hid & _).
    split; [congruence|].
    unfold apply_submission. destruct c, (is_completed v); exact H2.
Qed.

(** In every reachable store the audit trail of a record has one timestamp
    per counted submission, the counters are not negative, a record is
    completed exactly when it counts a correct submission, a completed
    record has its completion time, and an open one has neither score nor
    completion time. *)
Theorem reachable_record_audit (w : World) (q : Z) (tid : string)
    (team_sub : TeamSubmission)
    (Hreach : reachable w)
    (Hfound : ledger_entry w q tid = Some team_sub \/
              get_team_submission w q tid = Some team_sub) :
  Z.of_nat (List.length (submit_times team_sub))
  = wrong_count team_sub + correct_count team_sub /\
  0 <= wrong_count team_sub /\
  0 <= correct_count team_sub /\
  (is_completed team_sub = true <-> 0 < correct_count team_sub) /\
  (is_completed team_sub = true -> first_correct_time team_sub <> None) /\
  (is_completed team_sub = false ->
   final_score team_sub = None /\ first_correct_time team_sub = None).
Proof.
  apply (records_all_lookup record_audit w q tid team_sub); [|exact Hfound].
  apply reachable_records_all; [| | |exact Hreach].
  - intros. unfold record_audit. cbn.
    repeat split; try lia; try discriminate; auto.
  - intros q0 k v name sid H. exact H.
  - intros q0 k v t1 t2 c sc (H1 & H2 & H3 & H4 & H5 & H6).
    unfold record_audit, apply_submission.
    destruct c; cbn [negb]; [destruct (is_completed v) eqn:Hc|];
      cbn [negb submit_times wrong_count correct_count is_completed
             final_score first_correct_time];
      rewrite length_app; cbn [List.length];
      (split; [lia|]); (split; [lia|]); (split; [lia|]).
    + split; [split; [intros _; lia | reflexivity]|].
      split; [exact H5 | discriminate].
    + split; [split; [intros _; lia | reflexivity]|].
      split; [discriminate | discriminate].
    + split; [exact H4|]. split; [exact H5 | exact H6].
Qed.

Lemma reachable_record_audit_witness :
  reachable demo_world /\
  exists team_sub,
    get_team_submission demo_world 1 "A" = Some team_sub /\
    is_completed team_sub = true /\
    Z.of_nat (List.length (submit_times team_sub))
    = wrong_count team_sub + correct_count team_sub.
Proof.
  assert (Hr : reachable demo_world) by (exists demo_ops; reflexivity).
  split; [exact Hr|].
  destruct (get_team_submission demo_world 1 "A") as [ts|] eqn:Hts;
    [|vm_compute in Hts; discriminate].
  exists ts.
  destruct (reachable_record_audit demo_world 1 "A" ts Hr (or_intror Hts))
    as (H1 & _ & _ & H4 & _).
  split; [reflexivity|]. split; [|exact H1].
  vm_compute in Hts. injection Hts as <-. reflexivity.
Defined.

Lemma reachable_record_identity_witness :
  reachable demo_world /\
  exists team_sub,
    ledger_entry demo_world 1 "OpenAI" = Some team_sub /\
    team_id team_sub = "OpenAI" /\
    ts_question_id team_sub = 1.
Proof.
  assert (Hr : reachable demo_world) by (exists demo_ops; reflexivity).
  split; [exact Hr|].
  destruct (ledger_entry demo_world 1 "OpenAI") as [ts|] eqn:Hts;
    [|vm_compute in Hts; discriminate].
  exists ts. split; [reflexivity|].
  exact (reachable_record_identity demo_world 1 "OpenAI" ts Hr
           (or_introl Hts)).
Defined.

Lemma keys_put_other (d : list (Z * QuestionSession)) (q : Z)
    (s : QuestionSession) :
  NoDup (Dict.keys d) -> NoDup (Dict.keys (zset d q s)).
Proof. exact (@NoDup_keys_set _ _ _ Z.eqb_eq d q s). Qed.

Lemma record_submission_sessions_ok (w : World) (t_submit t_first : Q)
    (qid : Z) (tid : string) (is_correct : bool) (score : option Q)
    (name sid : option string) :
  sessions_ok w ->
  sessions_ok
    (snd (record_submission w t_submit t_first qid tid is_correct score
            name sid)).
Proof.
  intros [Hnd Hw].
  destruct (zget (active_questions w) qid) as [s|] eqn:Hs.
  - rewrite (record_submission_shape w t_submit t_first qid tid is_correct
               score name sid s Hs).
    split; [now apply keys_put_other|].
    intros q s'. destruct (Z.eq_dec qid q) as [<-|Hne].
    + rewrite zget_put_same. intros [= <-].
      destruct (Hw qid s Hs) as [Hid Hk].
      destruct (sget (fake_teams s) tid) as [x|] eqn:Hx;
        cbn [question_id fake_teams set_fake_teams set_team_submissions];
        (split; [exact Hid|]); [|exact Hk].
      rewrite <- Hk.
      apply (keys_set_present_gen string TeamSubmission String.eqb
               String.eqb_eq).
      now apply (get_Some_keys_gen string TeamSubmission String.eqb
                   String.eqb_eq _ _ x).
    + rewrite zget_put_other by exact Hne. apply Hw.
  - rewrite record_submission_missing by exact Hs. now split.
Qed.

Lemma exec_sessions_ok (w : World) (op : Op) :
  sessions_ok w -> sessions_ok (exec w op).
Proof.
  intros [Hnd Hw].
  destruct op as [now reg rnd q l b | clock q
                 | ts tf q t c sc n sd | clock | | t n sd
                 | task st cap clock].
  - destruct (start_question_world w now reg rnd q l b) as (subs & Hsub & He).
    cbn [exec]. rewrite He. cbn [snd active_questions]. split.
    + now apply keys_put_other.
    + intros q' s'. cbn [active_questions].
      destruct (Z.eq_dec q q') as [<-|Hne].
      * rewrite zget_set_same. intros [= <-]. split; [reflexivity|].
        apply initialize_fake_teams_keys.
      * rewrite zget_set_other by exact Hne. apply Hw.
  - cbn [exec]. split.
    + rewrite stop_question_questions.
      destruct (zget (active_questions w) q); [|exact Hnd].
      now apply keys_put_other.
    + intros q' s'.
      pose proof (stop_question_session w clock q q') as H.
      unfold get_question_session in H. rewrite H.
      destruct (q' =? q) eqn:E; [|apply Hw].
      apply Z.eqb_eq in E. subst q'.
      destruct (zget (active_questions w) q) as [s|] eqn:Hs;
        [|discriminate].
      cbn [option_map]. intros [= <-]. exact (Hw q s Hs).
  - apply record_submission_sessions_ok. now split.
  - cbn [exec]. unfold get_current_active_question_id.
    unfold sessions_ok. rewrite refresh_questions. now split.
  - split; [constructor | intros q' s'; discriminate].
  - cbn [exec]. split.
    + now rewrite add_team_keys.
    + intros q' s'. rewrite add_team_questions.
      destruct (zget (active_questions w) q') as [s|] eqn:Hs;
        [|discriminate].
      cbn [option_map]. intros [= <-]. unfold add_team_session.
      destruct (smem (team_submissions s) t); exact (Hw q' s Hs).
  - cbn [exec].
    destruct (task_resume_cases task st cap w clock)
      as [-> | (ts & tf & c & sc & ->)]; [now split|].
    apply record_submission_sessions_ok. now split.
Qed.

Lemma reachable_sessions_inv (w : World) : reachable w -> sessions_ok w.
Proof.
  intros [ops ->].
  assert (H : forall w0, sessions_ok w0 -> sessions_ok (run w0 ops)).
  { induction ops as [|op ops IH]; intros w0 Hw0; [exact Hw0|].
    cbn [run fold_left]. apply IH. now apply exec_sessions_ok. }
  apply H. split; [constructor | intros q s; discriminate].
Qed.

(** In every reachable store question ids are unique (so a tracked session
    is found under its id and [reset_all_questions] counts questions), a
    session carries the id it is stored under, its synthetic ledger holds
    exactly the synthetic team names, and the team ids of its real ledger
    are unique. *)
Theorem reachable_sessions_ok (w : World) (Hreach : reachable w) :
  NoDup (Dict.keys (active_questions w)) /\
  (forall q s, In (q, s) (active_questions w) <->
               get_question_session w q = Some s) /\
  (forall q s,
      get_question_session w q = Some s ->
      question_id s = q /\
      Dict.keys (fake_teams s) = TEAM_NAMES /\
      NoDup (Dict.keys (team_submissions s))).
Proof.
  destruct (reachable_sessions_inv w Hreach) as [Hnd Hw].
  split; [exact Hnd|]. split.
  - intros q s. unfold get_question_session. split.
    + now apply (@In_get _ _ _ Z.eqb_eq).
    + now apply (@get_In _ _ _ Z.eqb_eq).
  - intros q s Hs. unfold get_question_session in Hs.
    destruct (Hw q s Hs) as [H1 H2]. split; [exact H1|]. split; [exact H2|].
    exact (proj1 (reachable_world_ok w Hreach q s Hs)).
Qed.

Lemma reachable_sessions_ok_witness :
  reachable demo_tie_world /\
  NoDup (Dict.keys (active_questions demo_tie_world)) /\
  Dict.keys (active_questions demo_tie_world) = [1; 0].
Proof.
  assert (Hr : reachable demo_tie_world) by (eexists; reflexivity).
  split; [exact Hr|].
  split; [exact (proj1 (reachable_sessions_ok _ Hr)) | reflexivity].
Defined.

Lemma sget_None_keys_gen (d : list (string * TeamSubmission)) (k : string) :
  sget d k = None -> ~ In k (Dict.keys d).
Proof. apply (@get_None_keys _ _ _ String.eqb_eq). Qed.

(** ** A real team under a synthetic team's name *)

(** A submission under a team id that is a synthetic team's name always
    goes to the synthetic record: in a reachable store it changes no record
    of any real-team ledger and no leaderboard, even when a real team is
    registered under that id. *)
Theorem synthetic_name_shadows_real_team (w : World) (t_submit t_first : Q)
    (qid : Z) (tid : string) (is_correct : bool) (score : option Q)
    (name sid : option string)
    (Hreach : reachable w)
    (Hname : In tid TEAM_NAMES) :
  let w' :=
    snd (record_submission w t_submit t_first qid tid is_correct score
           name sid) in
  (forall q t, get_team_submission w' q t = get_team_submission w q t) /\
  (forall q, get_question_leaderboard w' q = get_question_leaderboard w q).
Proof.
  cbn zeta.
  destruct (zget (active_questions w) qid) as [s|] eqn:Hs.
  2:{ rewrite record_submission_missing by exact Hs. now split. }
  destruct (reachable_sessions_inv w Hreach) as (_ & Hall).
  destruct (Hall qid s Hs) as (_ & Hk).
  rewrite (record_submission_shape w t_submit t_first qid tid is_correct
             score name sid s Hs).
  destruct (sget (fake_teams s) tid) as [x|] eqn:Hx.
  2:{ apply sget_None_keys_gen in Hx. rewrite Hk in Hx. contradiction. }
  unfold get_team_submission, get_question_leaderboard.
  split; intro q; [intro t|];
    (destruct (Z.eq_dec qid q) as [<-|Hne];
     [rewrite zget_put_same, Hs | now rewrite zget_put_other]).
  - reflexivity.
  - cbn [team_submissions set_fake_teams].
    now rewrite (collect_results_start _ s).
Qed.

Lemma synthetic_name_shadows_real_team_witness :
  let w :=
    snd (start_question empty_world 0
           [("session-o", mkRegInfo "OpenAI" "Real OpenAI")] demo_rnd 1 300
           10) in
  reachable w /\
  In "OpenAI" TEAM_NAMES /\
  get_team_submission
    (snd (record_submission w 5 5 1 "OpenAI" true (Some 95%Q)
            (Some "Real OpenAI") (Some "session-o"))) 1 "OpenAI"
  = Some (new_team_submission "OpenAI" "Real OpenAI" (Some "session-o") 1) /\
  get_question_leaderboard
    (snd (record_submission w 5 5 1 "OpenAI" true (Some 95%Q)
            (Some "Real OpenAI") (Some "session-o"))) 1
  = Ok [].
Proof.
  cbn zeta.
  set (w := snd (start_question empty_world 0
                   [("session-o", mkRegInfo "OpenAI" "Real OpenAI")]
                   demo_rnd 1 300 10)).
  assert (Hr : reachable w).
  { exists [OpStart 0 [("session-o", mkRegInfo "OpenAI" "Real OpenAI")]
              demo_rnd 1 300 10]. reflexivity. }
  assert (Hin : In "OpenAI" TEAM_NAMES).
  { unfold TEAM_NAMES. repeat (first [left; reflexivity | right]). }
  split; [exact Hr|]. split; [exact Hin|].
  destruct (synthetic_name_shadows_real_team w 5 5 1 "OpenAI" true
              (Some 95%Q) (Some "Real OpenAI") (Some "session-o") Hr Hin)
    as [H1 H2].
  rewrite H1, H2.
  split; vm_compute; reflexivity.
Defined.

(** ** The audit trail only grows *)

Lemma addressed_old_audit (w : World) (qid : Z) (tid : string)
    (name sid : option string) (session : QuestionSession)
    (ts : TeamSubmission) :
  zget (active_questions w) qid = Some session ->
  ledger_entry w qid tid = Some ts ->
  let a := addressed session qid tid name sid in
  submit_times a = submit_times ts /\
  wrong_count a = wrong_count ts /\
  correct_count a = correct_count ts /\
  team_id a = team_id ts.
Proof.
  intros Hs He. cbn zeta.
  rewrite (addressed_entry w qid tid name sid session Hs), He.
  unfold ledger_entry in He. rewrite Hs in He.
  destruct (sget (fake_teams session) tid) as [x|].
  - injection He as ->. auto.
  - cbn. auto.
Qed.

Lemma exec_entry_grows (w : World) (op : Op) (q : Z) (tid : string)
    (ts : TeamSubmission) :
  restarts q op = false ->
  ledger_entry w q tid = Some ts ->
  exists ts' extra,
    ledger_entry (exec w op) q tid = Some ts' /\
    submit_times ts' = submit_times ts ++ extra /\
    wrong_count ts <= wrong_count ts' /\
    correct_count ts <= correct_count ts' /\
    Z.of_nat (List.length extra)
    = (wrong_count ts' - wrong_count ts)
      + (correct_count ts' - correct_count ts) /\
    team_id ts' = team_id ts.
Proof.
  intros Hr He.
  destruct (exec_entry w op q tid Hr)
    as [H | [(H & _) | (s & t1 & t2 & c & sc & n & sd & Hs & H & _)]].
  - exists ts, []. rewrite H, app_nil_r. cbn. repeat split; auto; lia.
  - congruence.
  - destruct (addressed_old_audit w q tid n sd s ts Hs He)
      as (Ha1 & Ha2 & Ha3 & Ha4).
    destruct (apply_submission_counts (addressed s q tid n sd) t1 t2 c sc)
      as (H1 & H2 & H3 & H4 & _).
    eexists. exists [t1]. split; [exact H|].
    rewrite H1, H2, H3, H4, Ha1, Ha2, Ha3, Ha4. cbn [List.length].
    destruct c; repeat split; auto; lia.
Qed.

(** As long as the question is not restarted, a record is never removed,
    [submit_times] only grows at its end, the counters never go down, and
    every added timestamp is counted by exactly one of them. *)
Theorem ledger_append_only (ops : list Op) (w : World) (q : Z)
    (tid : string) (ts : TeamSubmission)
    (Hkeep : forallb (fun op => negb (restarts q op)) ops = true)
    (He : ledger_entry w q tid = Some ts) :
  exists ts' extra,
    ledger_entry (run w ops) q tid = Some ts' /\
    submit_times ts' = submit_times ts ++ extra /\
    wrong_count ts <= wrong_count ts' /\
    correct_count ts <= correct_count ts' /\
    Z.of_nat (List.length extra)
    = (wrong_count ts' - wrong_count ts)
      + (correct_count ts' - correct_count ts) /\
    team_id ts' = team_id ts.
Proof.
  revert w ts He. induction ops as [|op ops IH]; intros w ts He.
  - exists ts, []. rewrite app_nil_r. cbn. repeat split; auto; lia.
  - run_step Hkeep Hop.
    destruct (exec_entry_grows w op q tid ts Hop He)
      as (ts1 & e1 & He1 & Ht1 & Hw1 & Hc1 & Hl1 & Hi1).
    destruct (IH Hkeep _ ts1 He1)
      as (ts2 & e2 & He2 & Ht2 & Hw2 & Hc2 & Hl2 & Hi2).
    exists ts2, (e1 ++ e2). split; [exact He2|].
    rewrite Ht2, Ht1, app_assoc, length_app, Nat2Z.inj_add.
    repeat split; try lia. congruence.
Qed.

Lemma ledger_append_only_witness :
  forallb (fun op => negb (restarts 1 op)) demo_between = true /\
  ledger_entry demo_world 1 "A"
  = Some (mkTeamSubmission "A" "Alpha" (Some "session-a") 1 [5%Q] 0 1 true
            (Some 90%Q) (Some 5%Q)) /\
  exists ts' extra,
    ledger_entry (run demo_world demo_between) 1 "A" = Some ts' /\
    submit_times ts' = [5%Q] ++ extra /\
    0 <= wrong_count ts' /\ 1 <= correct_count ts'.
Proof.
  assert (He : ledger_entry demo_world 1 "A"
               = Some (mkTeamSubmission "A" "Alpha" (Some "session-a") 1
                         [5%Q] 0 1 true (Some 90%Q) (Some 5%Q)))
    by (vm_compute; reflexivity).
  split; [reflexivity|]. split; [exact He|].
  destruct (ledger_append_only demo_between demo_world 1 "A" _ eq_refl He)
    as (ts' & extra & H1 & H2 & H3 & H4 & _).
  exists ts', extra. auto.
Defined.

Lemma record_submission_ignores_window_witness :
  get_question_session (stop_question demo_started (instant 1) 1) 1
  = Some (set_is_active demo_started_session false) /\
  is_question_active (stop_question demo_started (instant 1) 1) 2 1 = false /\
  exists team_sub' w',
    record_submission (stop_question demo_started (instant 1) 1) 2 2 1 "A"
      true (Some 90%Q) None None
    = (Ok team_sub', w') /\
    is_completed team_sub' = true.
Proof.
  assert (Hs : get_question_session (stop_question demo_started (instant 1) 1)
                 1
               = Some (set_is_active demo_started_session false)).
  { rewrite stop_question_session, Z.eqb_refl.
    change (get_question_session demo_started 1)
      with (get_question_session
              (snd (start_question empty_world 0 demo_registry demo_rnd 1
                      300 10)) 1).
    now rewrite start_question_session. }
  assert (Hc : is_question_active (stop_question demo_started (instant 1) 1)
                 2 1 = false)
    by apply stop_question_inactive.
  split; [exact Hs|]. split; [exact Hc|].
  destruct (record_submission_ignores_window _ 2 2 1 "A" true (Some 90%Q)
              None None _ Hs Hc)
    as (ts' & w' & H1 & _ & _ & H2 & _).
  exists ts', w'. auto.
Defined.

(** ** What the scheduler creates *)

Lemma TEAM_NAMES_NoDup : NoDup TEAM_NAMES.
Proof.
  rewrite <- (initialize_fake_teams_keys 0). unfold initialize_fake_teams.
  assert (H : forall names d,
             NoDup (Dict.keys d) ->
             NoDup
               (Dict.keys
                  (fold_left
                     (fun fake name =>
                        sset fake name (new_team_submission name name None 0))
                     names d))).
  { induction names as [|n names IH]; intros d Hd; [exact Hd|].
    cbn [fold_left]. apply IH. now apply sNoDup_keys_set. }
  apply H. constructor.
Qed.

Lemma schedule_teams_NoDup (qid : Z) (session : QuestionSession)
    (rnd : string -> Samples) (names : list string) :
  NoDup names ->
  NoDup (map task_team_name (schedule_teams qid session rnd names)).
Proof.
  induction names as [|n names IH]; intro Hnd; [constructor|].
  inversion Hnd as [|? ? Hnot Hnd']; subst.
  cbn [schedule_teams].
  destruct (schedule_team qid session rnd n) as [t|] eqn:E; [|now apply IH].
  cbn [map]. constructor; [|now apply IH].
  destruct (schedule_team_name qid session rnd n t E) as [-> _].
  intro Hin. apply in_map_iff in Hin as (t' & Hn & Hin).
  apply schedule_teams_In in Hin as (m & Hm & Ht').
  destruct (schedule_team_name qid session rnd m t' Ht') as [Hm' _].
  apply Hnot. congruence.
Qed.

Lemma schedule_team_wellformed (qid : Z) (session : QuestionSession)
    (rnd : string -> Samples) (name : string) (task : FakeTask) :
  samples_in_range (rnd name) ->
  1 <= time_limit session ->
  schedule_team qid session rnd name = Some task ->
  0 <= task_wrong_count task <= 3 /\
  (task_correct_count task = 0 \/ task_correct_count task = 1) /\
  1 <= task_wrong_count task + task_correct_count task /\
  (task_score task = None <-> task_correct_count task = 0) /\
  (forall sc, task_score task = Some sc -> (0 <= sc <= 100)%Q) /\
  (name = SPECIAL_TEAM -> task_delay task = 5%Q) /\
  (name <> SPECIAL_TEAM ->
   (1 # 2 <= task_delay task
    <= inject_Z (time_limit session) * (6 # 10))%Q).
Proof.
  intros (H23 & H13 & Hus & Hud) Hlimit.
  pose proof (generate_submission_attempts_counts (rnd name) H23 H13) as Hr.
  pose proof (generate_weighted_score_range (rnd name) Hus) as Hsc.
  assert (Hsp : (0 <= py_round (uniform 90 99 (u_score (rnd name))) 1
                 <= 100)%Q).
  { pose proof (py_round_1_bounds
                  (uniform (inject_Z 90) (inject_Z 99) (u_score (rnd name)))
                  90 99) as H.
    unfold inject_Z in H.
    destruct H as [H1 H2]; [apply uniform_bounds; [lra | exact Hus]|].
    lra. }
  assert (Hl : (1 <= inject_Z (time_limit session))%Q).
  { change 1%Q with (inject_Z 1). now rewrite <- Zle_Qle. }
  pose proof (generate_submit_delay_window (inject_Z (time_limit session))
                (rnd name) Hud Hl) as Hd.
  unfold schedule_team.
  destruct (generate_submission_attempts (rnd name)) as [wrong correct].
  cbn [fst snd] in Hr. destruct Hr as (Hw & Hc).
  assert (Hgo : forall correct',
             (correct' = 0 \/ correct' = 1) ->
             1 <= wrong + correct' ->
             Some
               (mkFakeTask qid name
                  (if String.eqb name SPECIAL_TEAM then 5%Q
                   else generate_submit_delay
                          (inject_Z (time_limit session)) (rnd name))
                  wrong correct'
                  (if 0 <? correct'
                   then Some (if negb (String.eqb name SPECIAL_TEAM)
                              then generate_weighted_score (rnd name)
                              else py_round
                                     (uniform 90 99 (u_score (rnd name))) 1)
                   else None))
             = Some task ->
             0 <= task_wrong_count task <= 3 /\
             (task_correct_count task = 0 \/ task_correct_count task = 1) /\
             1 <= task_wrong_count task + task_correct_count task /\
             (task_score task = None <-> task_correct_count task = 0) /\
             (forall sc, task_score task = Some sc -> (0 <= sc <= 100)%Q) /\
             (name = SPECIAL_TEAM -> task_delay task = 5%Q) /\
             (name <> SPECIAL_TEAM ->
              (1 # 2 <= task_delay task
               <= inject_Z (time_limit session) * (6 # 10))%Q)).
  { intros c' Hc' Hsum [= <-].
    cbn [task_wrong_count task_correct_count task_score task_delay].
    split; [exact Hw|]. split; [exact Hc'|]. split; [exact Hsum|].
    split; [|split; [|split]].
    - destruct Hc' as [-> | ->]; cbn; split; intro; try discriminate;
        auto; lia.
    - intros sc. destruct (0 <? c'); [|discriminate].
      destruct (String.eqb name SPECIAL_TEAM); cbn [negb];
        intros [= <-]; assumption.
    - intros ->. now rewrite String.eqb_refl.
    - intro Hne. apply String.eqb_neq in Hne. rewrite Hne. exact Hd. }
  destruct ((wrong =? 0) && (correct =? 0)) eqn:E.
  - destruct (String.eqb name SPECIAL_TEAM); [|discriminate].
    apply andb_true_iff in E as [E1 E2]. apply Z.eqb_eq in E1.
    apply Hgo; [now right | lia].
  - apply Hgo; [exact Hc|].
    apply andb_false_iff in E as [E | E]; apply Z.eqb_neq in E; lia.
Qed.

(** With random values in the ranges of their generators and a time limit
    of at least a second, [start_question] creates at most one task per
    synthetic team, and every task makes at least one attempt: at most
    three wrong ones and at most one correct one, with a score between 0
    and 100 exactly when there is a correct one; the sentinel's task waits 5
    seconds, any other between half a second and 60% of the limit. *)
Theorem scheduled_tasks_wellformed (w0 : World) (now : Q)
    (registry : list (string * RegInfo)) (rnd : string -> Samples)
    (qid limit buffer : Z)
    (Hrnd : forall name, samples_in_range (rnd name))
    (Hlimit : 1 <= limit) :
  exists session tasks,
    fst (start_question w0 now registry rnd qid limit buffer)
    = Ok (session, tasks) /\
    NoDup (map task_team_name tasks) /\
    forall task,
      In task tasks ->
      In (task_team_name task) TEAM_NAMES /\
      task_question_id task = qid /\
      0 <= task_wrong_count task <= 3 /\
      (task_correct_count task = 0 \/ task_correct_count task = 1) /\
      1 <= task_wrong_count task + task_correct_count task /\
      (task_score task = None <-> task_correct_count task = 0) /\
      (forall sc, task_score task = Some sc -> (0 <= sc <= 100)%Q) /\
      (task_team_name task = "0THING2LOSE" -> task_delay task = 5%Q) /\
      (task_team_name task <> "0THING2LOSE" ->
       (1 # 2 <= task_delay task <= inject_Z limit * (6 # 10))%Q).
Proof.
  destruct (start_question_world w0 now registry rnd qid limit buffer)
    as (subs & _ & He).
  cbn zeta in He. cbn [fake_teams] in He.
  rewrite initialize_fake_teams_keys in He.
  set (session := mkQuestionSession qid now limit buffer true subs
                    (initialize_fake_teams qid)) in *.
  exists session, (schedule_teams qid session rnd TEAM_NAMES).
  rewrite He. split; [reflexivity|]. split.
  - apply schedule_teams_NoDup, TEAM_NAMES_NoDup.
  - intros task Hin. apply schedule_teams_In in Hin as (name & Hname & Ht).
    destruct (schedule_team_name qid session rnd name task Ht) as [Hn Hq].
    rewrite Hn. split; [exact Hname|]. split; [exact Hq|].
    exact (schedule_team_wellformed qid session rnd name task (Hrnd name)
             Hlimit Ht).
Qed.

Lemma scheduled_tasks_wellformed_witness :
  (forall name, samples_in_range (demo_rnd name)) /\
  1 <= 300 /\
  exists session tasks,
    fst (start_question empty_world 0 [] demo_rnd 1 300 10)
    = Ok (session, tasks) /\
    NoDup (map task_team_name tasks).
Proof.
  assert (H : forall name, samples_in_range (demo_rnd name)).
  { intro name. unfold samples_in_range, demo_rnd. cbn.
    repeat split; try lia; lra. }
  split; [exact H|]. split; [lia|].
  destruct (scheduled_tasks_wellformed empty_world 0 [] demo_rnd 1 300 10 H
              ltac:(lia)) as (session & tasks & H1 & H2 & _).
  exists session, tasks. auto.
Defined.

(** ** The started question is the current one *)

(** A question just started is active exactly until [time_limit +
    buffer_time] after its start, and, when its id is not 0, it is what
    [get_current_active_question_id] answers as long as it is active, without
    any change of the store. *)
Theorem start_question_is_current (w : World) (now : Q)
    (registry : list (string * RegInfo)) (rnd : string -> Samples)
    (qid limit buffer : Z) :
  let w' := snd (start_question w now registry rnd qid limit buffer) in
  (forall t,
      is_question_active w' t qid = true <->
      (t - now <= inject_Z limit + inject_Z buffer)%Q) /\
  (forall clock,
      qid <> 0 ->
      (clock O - now <= inject_Z limit + inject_Z buffer)%Q ->
      get_current_active_question_id w' clock = (Some qid, w')).
Proof.
  cbn zeta.
  pose proof (start_question_session w now registry rnd qid limit buffer)
    as Hs.
  assert (Hact : forall t,
             is_question_active
               (snd (start_question w now registry rnd qid limit buffer)) t
               qid = true <->
             (t - now <= inject_Z limit + inject_Z buffer)%Q).
  { intro t. rewrite is_question_active_spec, Hs. split.
    - intros (s & [= <-] & _ & H). exact H.
    - intro H. eexists. split; [reflexivity|]. split; [reflexivity|exact H]. }
  split; [exact Hact|].
  intros clock Hnz Hwin. unfold get_current_active_question_id.
  apply refresh_cached_kept; [|exact Hnz|now apply Hact].
  destruct (start_question_world w now registry rnd qid limit buffer)
    as (subs & _ & ->). reflexivity.
Qed.

Lemma start_question_is_current_witness :
  1 <> 0 /\
  (instant 100 O - 0 <= inject_Z 300 + inject_Z 10)%Q /\
  get_current_active_question_id demo_started (instant 100)
  = (Some 1, demo_started).
Proof.
  assert (H1 : 1 <> 0) by lia.
  assert (H2 : (instant 100 O - 0 <= inject_Z 300 + inject_Z 10)%Q)
    by (unfold instant, inject_Z; lra).
  split; [exact H1|]. split; [exact H2|].
  exact (proj2 (start_question_is_current empty_world 0 demo_registry
                  demo_rnd 1 300 10) (instant 100) H1 H2).
Defined.

(** ** The order of the real-team ledger *)

(** The first submission of a real team that has no record yet creates the
    record at the end of the ledger, under the given name or, without one,
    under the team id; a submission of a team that has a record leaves the
    order of the ledger as it is.  The synthetic ledger keeps its keys. *)
Theorem record_submission_ledger_order (w : World) (t_submit t_first : Q)
    (qid : Z) (tid : string) (is_correct : bool) (score : option Q)
    (name sid : option string) (session : QuestionSession)
    (Hs : get_question_session w qid = Some session)
    (Hreal : sget (fake_teams session) tid = None) :
  exists session',
    get_question_session
      (snd (record_submission w t_submit t_first qid tid is_correct score
              name sid)) qid = Some session' /\
    fake_teams session' = fake_teams session /\
    (get_team_submission w qid tid = None ->
     Dict.keys (team_submissions session')
     = Dict.keys (team_submissions session) ++ [tid] /\
     get_team_submission
       (snd (record_submission w t_submit t_first qid tid is_correct score
               name sid)) qid tid
     = Some (apply_submission
               (new_team_submission tid (name_or_id name tid) sid qid)
               t_submit t_first is_correct score)) /\
    (get_team_submission w qid tid <> None ->
     Dict.keys (team_submissions session')
     = Dict.keys (team_submissions session)).
Proof.
  unfold get_question_session in *. unfold get_team_submission.
  rewrite (record_submission_shape w t_submit t_first qid tid is_correct
             score name sid session Hs).
  rewrite zget_put_same, Hs, Hreal. eexists. split; [reflexivity|].
  cbn [fake_teams team_submissions set_team_submissions].
  split; [reflexivity|]. split.
  - intro Hnew. split.
    + apply (keys_set_absent_gen string TeamSubmission String.eqb
               String.eqb_eq).
      now apply sget_None_keys_gen.
    + rewrite sget_set_same. unfold addressed. rewrite Hreal, Hnew.
      f_equal. f_equal. unfold backfill, new_team_submission, name_or_id.
      cbn [team_name team_session_id team_id ts_question_id submit_times
             wrong_count correct_count is_completed final_score
             first_correct_time].
      f_equal.
      * destruct name as [n|]; [|reflexivity].
        destruct (truthy_str n) eqn:E; [now rewrite E|reflexivity].
      * destruct (truthy_opt_str sid); reflexivity.
  - intro Hold.
    destruct (sget (team_submissions session) tid) as [x|] eqn:Hx;
      [|congruence].
    apply (keys_set_present_gen string TeamSubmission String.eqb
             String.eqb_eq).
    now apply (get_Some_keys_gen string TeamSubmission String.eqb
                 String.eqb_eq _ _ x).
Qed.

Lemma record_submission_ledger_order_witness :
  get_question_session demo_started 1 = Some demo_started_session /\
  sget (fake_teams demo_started_session) "Zulu" = None /\
  exists session',
    get_question_session
      (snd (record_submission demo_started 4 4 1 "Zulu" false None None None))
      1 = Some session' /\
    Dict.keys (team_submissions session') = ["A"; "B"; "C"; "Zulu"].
Proof.
  assert (Hs : get_question_session demo_started 1
               = Some demo_started_session)
    by apply start_question_session.
  assert (Hr : sget (fake_teams demo_started_session) "Zulu" = None)
    by reflexivity.
  split; [exact Hs|]. split; [exact Hr|].
  destruct (record_submission_ledger_order demo_started 4 4 1 "Zulu" false
              None None None _ Hs Hr) as (s' & H1 & _ & H2 & _).
  exists s'. split; [exact H1|].
  destruct H2 as [H2 _]; [reflexivity|]. rewrite H2. reflexivity.
Defined.

(** ** Submissions of different teams do not interfere *)

Lemma addressed_starting (w : World) (qid : Z) (tid : string)
    (name sid : option string) (session : QuestionSession) :
  zget (active_questions w) qid = Some session ->
  addressed session qid tid name sid
  = starting_record (ledger_entry w qid tid) (is_synthetic w qid tid) qid tid
      name sid.
Proof.
  intro Hs. unfold addressed, starting_record, ledger_entry, is_synthetic,
    Dict.mem.
  rewrite Hs. destruct (sget (fake_teams session) tid) as [x|];
    [reflexivity|].
  now destruct (sget (team_submissions session) tid).
Qed.

Lemma smem_set_present (d : list (string * TeamSubmission)) (k k' : string)
    (v x : TeamSubmission) :
  sget d k = Some x -> smem (sset d k v) k' = smem d k'.
Proof.
  intro H. unfold Dict.mem. destruct (string_dec k k') as [<-|Hne].
  - now rewrite sget_set_same, H.
  - now rewrite sget_set_other.
Qed.

Lemma record_submission_observables (w : World) (t_submit t_first : Q)
    (qid : Z) (tid : string) (is_correct : bool) (score : option Q)
    (name sid : option string) :
  let r :=
    record_submission w t_submit t_first qid tid is_correct score name sid in
  let team_sub' :=
    apply_submission
      (starting_record (ledger_entry w qid tid) (is_synthetic w qid tid) qid
         tid name sid)
      t_submit t_first is_correct score in
  fst r = match zget (active_questions w) qid with
          | Some _ => Ok team_sub'
          | None => Raise KeyError
          end /\
  (forall q, zget (active_questions (snd r)) q = None <->
             zget (active_questions w) q = None) /\
  (forall q t, is_synthetic (snd r) q t = is_synthetic w q t) /\
  ledger_entry (snd r) qid tid
  = match zget (active_questions w) qid with
    | Some _ => Some team_sub'
    | None => None
    end /\
  (forall q t, q <> qid \/ t <> tid ->
               ledger_entry (snd r) q t = ledger_entry w q t).
Proof.
  cbn zeta.
  destruct (zget (active_questions w) qid) as [s|] eqn:Hs.
  - pose proof (record_submission_shape w t_submit t_first qid tid
                  is_correct score name sid s Hs) as Hshape.
    cbn zeta in Hshape.
    destruct (record_submission_ok w t_submit t_first qid tid is_correct
                score name sid s Hs) as (s' & Heq & _).
    destruct (record_submission_entry w t_submit t_first qid tid is_correct
                score name sid s Hs) as (He & Hframe & _).
    rewrite <- (addressed_starting w qid tid name sid s Hs).
    split; [now rewrite Heq|]. split; [|split; [|split]].
    + intro q.
      pose proof (record_submission_session w t_submit t_first qid tid
                    is_correct score name sid q) as H.
      destruct (zget (active_questions w) q) as [x|].
      * destruct H as (x' & -> & _). split; discriminate.
      * rewrite H. tauto.
    + intros q t. unfold is_synthetic. rewrite Hshape.
      destruct (Z.eq_dec qid q) as [<-|Hne];
        [|now rewrite zget_put_other].
      rewrite zget_put_same, Hs.
      destruct (sget (fake_teams s) tid) as [x|] eqn:Hx;
        cbn [fake_teams set_fake_teams set_team_submissions];
        [|reflexivity].
      now apply (smem_set_present _ _ _ _ x).
    + exact He.
    + exact Hframe.
  - rewrite record_submission_missing by exact Hs. cbn [fst snd].
    unfold ledger_entry at 1. rewrite Hs. repeat split; auto; tauto.
Qed.

(** Two submissions for different records can be recorded in either order:
    each call returns the same record in both orders, and afterwards every
    team's record is the same.  (Only the order of records that both calls
    create differs.) *)
Theorem record_submission_commute (w : World)
    (t1 t1' : Q) (q1 : Z) (tid1 : string) (c1 : bool) (score1 : option Q)
    (name1 sid1 : option string)
    (t2 t2' : Q) (q2 : Z) (tid2 : string) (c2 : bool) (score2 : option Q)
    (name2 sid2 : option string)
    (Hdiff : q1 <> q2 \/ tid1 <> tid2) :
  let first w0 :=
    record_submission w0 t1 t1' q1 tid1 c1 score1 name1 sid1 in
  let second w0 :=
    record_submission w0 t2 t2' q2 tid2 c2 score2 name2 sid2 in
  fst (first (snd (second w))) = fst (first w) /\
  fst (second (snd (first w))) = fst (second w) /\
  forall q t,
    ledger_entry (snd (second (snd (first w)))) q t
    = ledger_entry (snd (first (snd (second w)))) q t.
Proof.
  cbn zeta.
  destruct (record_submission_observables w t1 t1' q1 tid1 c1 score1 name1
              sid1) as (Hf1 & Hx1 & Hy1 & He1 & Hfr1).
  destruct (record_submission_observables w t2 t2' q2 tid2 c2 score2 name2
              sid2) as (Hf2 & Hx2 & Hy2 & He2 & Hfr2).
  set (w1 := snd (record_submission w t1 t1' q1 tid1 c1 score1 name1 sid1))
    in *.
  set (w2 := snd (record_submission w t2 t2' q2 tid2 c2 score2 name2 sid2))
    in *.
  destruct (record_submission_observables w2 t1 t1' q1 tid1 c1 score1 name1
              sid1) as (Hf21 & _ & _ & He21 & Hfr21).
  destruct (record_submission_observables w1 t2 t2' q2 tid2 c2 score2 name2
              sid2) as (Hf12 & _ & _ & He12 & Hfr12).
  assert (Hd12 : q2 <> q1 \/ tid2 <> tid1)
    by (destruct Hdiff; [left | right]; congruence).
  assert (Hsame : forall (u u' : World) q,
             (zget (active_questions u') q = None <->
              zget (active_questions u) q = None) ->
             forall A (a b : A),
               match zget (active_questions u') q with
               | Some _ => a | None => b end
               = match zget (active_questions u) q with
                 | Some _ => a | None => b end).
  { intros u u' q H A a b.
    destruct (zget (active_questions u') q), (zget (active_questions u) q);
      try reflexivity; destruct H as [Ha Hb];
      [specialize (Hb eq_refl) | specialize (Ha eq_refl)]; discriminate. }
  rewrite Hf21, Hf1, Hf12, Hf2.
  rewrite (Hfr2 q1 tid1 Hdiff), (Hy2 q1 tid1) in *.
  rewrite (Hfr1 q2 tid2 Hd12), (Hy1 q2 tid2) in *.
  split; [apply (Hsame w w2 q1 (Hx2 q1))|].
  split; [apply (Hsame w w1 q2 (Hx1 q2))|].
  intros q t.
  destruct (Z.eq_dec q q2) as [->|Hq2];
    [destruct (string_dec t tid2) as [->|Ht2]|].
  - rewrite He12, (Hfr21 q2 tid2 Hd12), He2.
    apply (Hsame w w1 q2 (Hx1 q2)).
  - destruct (Z.eq_dec q2 q1) as [Heq|Hq1];
      [destruct (string_dec t tid1) as [->|Ht1]|].
    + subst q1. rewrite (Hfr12 q2 tid1) by (right; exact Ht2).
      rewrite He21, He1. symmetry. apply (Hsame w w2 q2 (Hx2 q2)).
    + subst q1. rewrite (Hfr12 q2 t), (Hfr21 q2 t), (Hfr1 q2 t), (Hfr2 q2 t);
        auto.
    + rewrite (Hfr12 q2 t), (Hfr21 q2 t), (Hfr1 q2 t), (Hfr2 q2 t); auto.
  - destruct (Z.eq_dec q q1) as [->|Hq1];
      [destruct (string_dec t tid1) as [->|Ht1]|].
    + rewrite (Hfr12 q1 tid1) by (left; exact Hq2).
      rewrite He21, He1. symmetry. apply (Hsame w w2 q1 (Hx2 q1)).
    + rewrite (Hfr12 q1 t), (Hfr21 q1 t), (Hfr1 q1 t), (Hfr2 q1 t); auto.
    + rewrite (Hfr12 q t), (Hfr21 q t), (Hfr1 q t), (Hfr2 q t); auto.
Qed.

Lemma record_submission_commute_witness :
  (1 <> 1 \/ "A" <> "B") /\
  forall q t,
    ledger_entry
      (snd (record_submission
              (snd (record_submission demo_started 2 2 1 "A" true
                      (Some 90%Q) None None))
              3 3 1 "B" false None None None)) q t
    = ledger_entry
        (snd (record_submission
                (snd (record_submission demo_started 3 3 1 "B" false None
                        None None))
                2 2 1 "A" true (Some 90%Q) None None)) q t.
Proof.
  assert (H : 1 <> 1 \/ "A" <> "B") by (right; discriminate).
  split; [exact H|].
  exact (proj2 (proj2 (record_submission_commute demo_started 2 2 1 "A" true
                         (Some 90%Q) None None 3 3 1 "B" false None None
                         None H))).
Defined.

(** ** Leaderboard and status agree *)

Lemma board_entries_length (session : QuestionSession)
    (items : list (string * TeamSubmission)) :
  (List.length (board_entries session items)
   <= List.length (filter (fun kv => is_completed (snd kv)) items))%nat.
Proof.
  induction items as [|[k v] items IH]; [cbn; lia|].
  cbn [board_entries filter snd].
  destruct (is_completed v); [|exact IH].
  destruct (final_score v); [destruct (first_correct_time v)|];
    cbn [List.length]; lia.
Qed.

Lemma completed_have_submissions (items : list (string * TeamSubmission)) :
  (forall k v, In (k, v) items ->
               is_completed v = true -> submit_times v <> []) ->
  (List.length (filter (fun kv => is_completed (snd kv)) items)
   <= list_sum (map (fun kv => List.length (submit_times (snd kv))) items))%nat.
Proof.
  induction items as [|[k v] items IH]; intro H; [cbn; lia|].
  cbn [filter map snd]. unfold list_sum. cbn [fold_right].
  fold (list_sum (map (fun kv : string * TeamSubmission =>
                         List.length (submit_times (snd kv))) items)).
  assert (IH' := IH (fun k' v' Hin => H k' v' (or_intror Hin))).
  destruct (is_completed v) eqn:Hc; cbn [List.length]; [|lia].
  pose proof (H k v (or_introl eq_refl) Hc) as Hne.
  destruct (submit_times v); [congruence | cbn [List.length]; lia].
Qed.

(** For every tracked session of a reachable store, the status row at the
    session's position reports the session's id, and the counts are
    consistent with the leaderboard: the leaderboard has at most
    [completed_teams] rows, [completed_teams] is at most [total_teams], and
    at most [total_submissions], since a completed team has submitted. *)
Theorem leaderboard_vs_status (w : World) (clock : nat -> Q) (i : nat)
    (q : Z) (session : QuestionSession)
    (Hreach : reachable w)
    (Hi : nth_error (active_questions w) i = Some (q, session)) :
  exists rows row,
    get_question_leaderboard w q = Ok rows /\
    nth_error (get_all_sessions_status w clock) i = Some row /\
    status_question_id row = q /\
    Z.of_nat (List.length rows) <= completed_teams row /\
    completed_teams row <= total_teams row /\
    completed_teams row <= total_submissions row.
Proof.
  destruct (reachable_sessions_inv w Hreach) as [Hnd _].
  assert (Hs : zget (active_questions w) q = Some session).
  { apply (@In_get _ _ _ Z.eqb_eq); [exact Hnd|].
    now apply nth_error_In with i. }
  pose proof (reachable_world_ok w Hreach q session Hs) as [_ Hok].
  assert (Hsub : forall k v,
             In (k, v) (team_submissions session) ->
             is_completed v = true -> submit_times v <> []).
  { intros k v Hin.
    assert (Hall : records_all
                     (fun _ _ v => is_completed v = true ->
                                   submit_times v <> []) w).
    { apply reachable_records_all; [| | |exact Hreach].
      - intros; discriminate.
      - intros q0 k0 v0 n sd H. exact H.
      - intros q0 k0 v0 t1 t2 c sc _ _.
        destruct (apply_submission_counts v0 t1 t2 c sc) as (-> & _).
        intro Habs. now apply app_eq_nil in Habs as [_ Habs]. }
    apply (Hall q session Hs k v). now left. }
  pose proof (status_rows_counts w clock (active_questions w) O) as Hc.
  fold (get_all_sessions_status w clock) in Hc.
  assert (Hrow : nth_error (status_counts (get_all_sessions_status w clock)) i
                 = Some (real_team_counts (q, session))).
  { rewrite Hc. now apply map_nth_error. }
  unfold status_counts in Hrow.
  rewrite nth_error_map in Hrow.
  destruct (nth_error (get_all_sessions_status w clock) i) as [row|];
    [|discriminate].
  cbn [option_map real_team_counts] in Hrow.
  injection Hrow as Hq Ht Hsum Hcomp.
  unfold get_question_leaderboard.
  rewrite Hs, (collect_results_board session _ Hok).
  eexists. exists row. split; [reflexivity|]. split; [reflexivity|].
  split; [exact Hq|].
  assert (Hlen : List.length
                   (add_ranks 0
                      (sort_entries
                         (board_entries session (team_submissions session))))
                 = List.length
                     (board_entries session (team_submissions session))).
  { rewrite <- (length_map entry), add_ranks_entries.
    apply Permutation_length. symmetry. apply sort_entries_perm. }
  rewrite Hlen, Hcomp, Ht, Hsum.
  pose proof (board_entries_length session (team_submissions session)).
  pose proof (filter_length_le (fun kv => is_completed (snd kv))
                (team_submissions session)).
  pose proof (completed_have_submissions (team_submissions session) Hsub).
  repeat split; lia.
Qed.

Lemma leaderboard_vs_status_witness :
  reachable demo_world /\
  nth_error (active_questions demo_world) 0 = Some (1, demo_session) /\
  exists rows row,
    get_question_leaderboard demo_world 1 = Ok rows /\
    nth_error (get_all_sessions_status demo_world (instant 9)) 0 = Some row /\
    Z.of_nat (List.length rows) <= completed_teams row /\
    completed_teams row <= total_submissions row.
Proof.
  assert (Hr : reachable demo_world) by (exists demo_ops; reflexivity).
  assert (Hi : nth_error (active_questions demo_world) 0
               = Some (1, demo_session))
    by (vm_compute; reflexivity).
  split; [exact Hr|]. split; [exact Hi|].
  destruct (leaderboard_vs_status demo_world (instant 9) 0 1 demo_session Hr
              Hi) as (rows & row & H1 & H2 & _ & H3 & _ & H4).
  exists rows, row. auto.
Defined.

(** ** Further instances on the concrete runs *)

Lemma start_question_fresh_witness :
  current_active_question_id
    (snd (start_question demo_world 50 demo_registry demo_rnd 1 300 10))
  = Some 1 /\
  (forall tid team_sub,
      ledger_entry
        (snd (start_question demo_world 50 demo_registry demo_rnd 1 300 10))
        1 tid = Some team_sub -> blank team_sub) /\
  get_question_leaderboard
    (snd (start_question demo_world 50 demo_registry demo_rnd 1 300 10)) 1
  = Ok [] /\
  Dict.keys
    (active_questions
       (snd (start_question demo_world 50 demo_registry demo_rnd 1 300 10)))
  = [1].
Proof.
  destruct (start_question_fresh demo_world 50 demo_registry demo_rnd 1 300
              10) as (H1 & _ & H2 & _ & H3 & H4).
  split; [exact H1|]. split; [exact H2|]. split; [exact H3|].
  rewrite H4. reflexivity.
Defined.

Lemma stop_question_effect_witness :
  get_question_session demo_world 1 = Some demo_session /\
  get_question_session (stop_question demo_world (instant 9) 1) 1
  = Some (set_is_active demo_session false) /\
  current_active_question_id (stop_question demo_world (instant 9) 1)
  <> Some 1 /\
  get_question_leaderboard (stop_question demo_world (instant 9) 1) 1
  = get_question_leaderboard demo_world 1 /\
  stop_question demo_world (instant 9) 7 = demo_world.
Proof.
  assert (Hs : get_question_session demo_world 1 = Some demo_session)
    by (vm_compute; reflexivity).
  split; [exact Hs|].
  destruct (stop_question_effect demo_world (instant 9) 1)
    as (_ & H1 & _ & _ & H2 & _).
  destruct (H1 _ Hs) as [H3 H4].
  split; [exact H3|]. split; [exact H4|]. split; [apply H2|].
  destruct (stop_question_effect demo_world (instant 9) 7) as (H5 & _).
  apply H5. reflexivity.
Defined.

Lemma get_current_active_question_id_instant_witness :
  fst (get_current_active_question_id demo_tie_world (instant 11)) = Some 1 /\
  is_question_active demo_tie_world 11 1 = true /\
  get_current_active_question_id
    (snd (get_current_active_question_id demo_tie_world (instant 11)))
    (instant 11)
  = get_current_active_question_id demo_tie_world (instant 11).
Proof.
  destruct (get_current_active_question_id_instant demo_tie_world 11)
    as (H1 & _ & _ & _ & H2).
  assert (H0 : fst (get_current_active_question_id demo_tie_world
                      (instant 11)) = Some 1)
    by (vm_compute; reflexivity).
  split; [exact H0|]. split; [exact (H1 1 H0) | exact H2].
Defined.
